(** * Ribaah backend: a shallow embedding of the route handlers and the
      socket server, and the properties of the friends-only chat that
      hold (or fail) on them.

    The three routers (users, friends, messages), the FriendRequest and
    Message schemas and the socket server are embedded as functions over
    an explicit store.  Every [await] of a handler is one atomic storage
    operation; what a handler runs between two [await]s is not
    interruptible (one event loop), which is what [Async] records. *)

From Stdlib Require Import ZArith List String Ascii Bool Lia PeanoNat.
From Stdlib Require Import Sorting.Sorted Sorting.Permutation.
From stdpp Require Import base gmap.
Import ListNotations.

Local Open Scope Z_scope.
Local Open Scope string_scope.
Local Open Scope list_scope.

(** ** Data model *)

(** A MongoDB ObjectId.  The routes compare ids for equality only; an
    ObjectId begins with the time of its creation, and the number that
    stands for it here grows in the order in which the documents of a
    collection were created. *)
Abbreviation ObjectId := nat (only parsing).

(** A JavaScript string is a sequence of 16-bit code units.  The strings
    here are those whose code units are all below 256, one character of
    [ascii] for each code unit (the character of number 160 is U+00A0);
    [String.length] is the [length] of JavaScript. *)

(** A JavaScript [Date], as milliseconds since the epoch. *)
Abbreviation Date := Z (only parsing).

(** An id reaches the code in one of two JavaScript representations: as
    the hex string taken from a request body or a path parameter, or as
    the driver's ObjectId object ([req.user._id], a field of a stored
    document).  Queries cast both to the same id. *)
Inductive IdValue : Type :=
| AsString (o : ObjectId)
| AsObjectId (o : ObjectId).

Definition id_of (v : IdValue) : ObjectId :=
  match v with AsString o => o | AsObjectId o => o end.

(** [a.toString() === v]: the strict equality of a string with [v].  It
    never holds when [v] is an object. *)
Definition toString_strict_eq (a : ObjectId) (v : IdValue) : bool :=
  match v with
  | AsString o => Nat.eqb a o
  | AsObjectId _ => false
  end.

Module User.
(** Modelled from the spec: models/User.js is not part of the sources.
    The fields are those the routers select, populate and assign
    ([username email avatar bio status lastSeen], [friends]); the
    document's [_id] is its key in the collection. *)
Record t : Type := mk {
  username : string;
  email : string;
  avatar : string;
  bio : string;
  friends : list ObjectId;
  status : string;
  lastSeen : Date
}.
End User.

Module FriendRequest.
Inductive Status : Type := pending | accepted | rejected.

(** friendRequestSchema, with the two timestamps of [timestamps: true]. *)
Record t : Type := mk {
  _id : ObjectId;
  sender : ObjectId;
  recipient : ObjectId;
  status : Status;
  message : string;
  createdAt : Date;
  updatedAt : Date
}.

Definition is_pending (r : t) : bool :=
  match status r with pending => true | _ => false end.
End FriendRequest.

Module Message.
Inductive MessageType : Type := text | image | file.

(** messageSchema, with the two timestamps of [timestamps: true]. *)
Record t : Type := mk {
  _id : ObjectId;
  sender : ObjectId;
  recipient : ObjectId;
  content : string;
  messageType : MessageType;
  isRead : bool;
  readAt : option Date;
  isEdited : bool;
  editedAt : option Date;
  createdAt : Date;
  updatedAt : Date
}.
End Message.

(** The three collections.  [users] is keyed by [_id]; the two other
    collections keep their documents in insertion order. *)
Record Store : Type := mkStore {
  users : gmap ObjectId User.t;
  friendrequests : list FriendRequest.t;
  messages : list Message.t
}.

(** ** Handlers as sequences of atomic storage operations *)

(** What an [await] can throw into the handler's [catch]. *)
Inductive Exn : Type :=
| DuplicateKey      (* E11000: a unique index refused the write *)
| ValidationError   (* a schema validator refused the document *)
| TypeError         (* a property read on [null] *)
| MongoError.       (* the store refused the query *)

(** An asynchronous computation: finished with a value, stopped by an
    exception, or suspended at an [await] on one storage operation with
    the code that runs when it resumes. *)
Inductive Async (A : Type) : Type :=
| Return (a : A)
| Throw (e : Exn)
| Await {X : Type} (op : Store -> (Exn + X) * Store) (k : X -> Async A).

Arguments Return {A} a.
Arguments Throw {A} e.
Arguments Await {A X} op k.

Fixpoint bind {A B : Type} (p : Async A) (f : A -> Async B) : Async B :=
  match p with
  | Return a => f a
  | Throw e => Throw e
  | Await op k => Await op (fun x => bind (k x) f)
  end.

(** [await op]: suspend on one storage operation. *)
Definition await {X : Type} (op : Store -> (Exn + X) * Store) : Async X :=
  Await op Return.

(** A storage read: no exception, no change. *)
Definition query {X : Type} (f : Store -> X) : Store -> (Exn + X) * Store :=
  fun s => (inr (f s), s).

(** A storage write that cannot fail. *)
Definition update (f : Store -> Store) : Store -> (Exn + unit) * Store :=
  fun s => (inr tt, f s).

Declare Scope async_scope.
Delimit Scope async_scope with async.
Notation "'let*' x := p 'in' q" := (bind p (fun x => q))
  (at level 10, x name, p at level 100, q at level 200) : async_scope.
Notation "'do*' p 'in' q" := (bind p (fun _ => q))
  (at level 10, p at level 100, q at level 200) : async_scope.

(** One turn of the event loop given to a task: it runs up to its next
    [await], whose storage operation is applied to the store. *)
Definition step {A : Type} (p : Async A) (s : Store) : Async A * Store :=
  match p with
  | Await op k =>
      match op s with
      | (inr x, s') => (k x, s')
      | (inl e, s') => (Throw e, s')
      end
  | _ => (p, s)
  end.

(** A task run alone, with nothing scheduled between its steps. *)
Fixpoint run {A : Type} (p : Async A) (s : Store) : (Exn + A) * Store :=
  match p with
  | Return a => (inr a, s)
  | Throw e => (inl e, s)
  | Await op k =>
      match op s with
      | (inr x, s') => run (k x) s'
      | (inl e, s') => (inl e, s')
      end
  end.

(** The response envelope [{success, message?, ...payload}] with its
    HTTP status. *)
Inductive Reply (T : Type) : Type :=
| Success (code : nat) (message : option string) (data : T)
| Failure (code : nat) (message : string).

Arguments Success {T} code message data.
Arguments Failure {T} code message.

(** Every handler body sits in [try { ... } catch (error)], and every
    [catch] answers [500 'Server error']. *)
Definition server_error {T : Type} : Reply T := Failure 500 "Server error".

Definition respond {T : Type} (r : Exn + Reply T) : Reply T :=
  match r with
  | inr reply => reply
  | inl _ => server_error
  end.

(** A route: the handler run alone on a store. *)
Definition route {T : Type} (h : Async (Reply T)) (s : Store) : Reply T * Store :=
  let (r, s') := run h s in (respond r, s').

(** The response of a task that has come to its end, if it has. *)
Definition response {T : Type} (p : Async (Reply T)) : option (Reply T) :=
  match p with
  | Return r => Some r
  | Throw _ => Some server_error
  | Await _ _ => None
  end.

(** Several requests in flight: the scheduler picks, turn by turn, the
    task that takes the next step. *)
Fixpoint step_nth {A : Type} (i : nat) (pool : list (Async A)) (s : Store)
  : list (Async A) * Store :=
  match pool with
  | [] => ([], s)
  | p :: rest =>
      match i with
      | O => let (p', s') := step p s in (p' :: rest, s')
      | S j => let (rest', s') := step_nth j rest s in (p :: rest', s')
      end
  end.

Fixpoint interleave {A : Type} (schedule : list nat) (pool : list (Async A)) (s : Store)
  : list (Async A) * Store :=
  match schedule with
  | [] => (pool, s)
  | i :: schedule' =>
      let (pool', s') := step_nth i pool s in interleave schedule' pool' s'
  end.

Local Open Scope async_scope.

(** ** Storage operations shared by the routers *)

Definition set_users (f : gmap nat User.t -> gmap nat User.t) (s : Store) : Store :=
  mkStore (f (users s)) (friendrequests s) (messages s).

Definition set_friendrequests (f : list FriendRequest.t -> list FriendRequest.t)
  (s : Store) : Store :=
  mkStore (users s) (f (friendrequests s)) (messages s).

Definition set_messages (f : list Message.t -> list Message.t) (s : Store) : Store :=
  mkStore (users s) (friendrequests s) (f (messages s)).

(** [User.findById(id)] *)
Definition findById (id : ObjectId) (s : Store) : option User.t := users s !! id.

(** [array.includes(id)] on an array of ids. *)
Definition includes (l : list ObjectId) (id : ObjectId) : bool :=
  existsb (Nat.eqb id) l.

(** [$addToSet]: append unless already present. *)
Definition addToSet (x : ObjectId) (l : list ObjectId) : list ObjectId :=
  if includes l x then l else l ++ [x].

(** [$pull]: remove every occurrence. *)
Definition pull (x : ObjectId) (l : list ObjectId) : list ObjectId :=
  List.filter (fun y => negb (Nat.eqb x y)) l.

Definition with_friends (f : list ObjectId -> list ObjectId) (u : User.t) : User.t :=
  User.mk (User.username u) (User.email u) (User.avatar u) (User.bio u)
          (f (User.friends u)) (User.status u) (User.lastSeen u).

(** [User.findByIdAndUpdate(id, { $addToSet: { friends: x } })]; nothing
    happens when no user has this id. *)
Definition addToSet_friends (id x : ObjectId) : Store -> Store :=
  set_users (alter (with_friends (addToSet x)) id).

(** [User.findByIdAndUpdate(id, { $pull: { friends: x } })] *)
Definition pull_friends (id x : ObjectId) : Store -> Store :=
  set_users (alter (with_friends (pull x)) id).

(** What [populate] and [select] leave of a user: the [_id] and the
    selected fields. *)
Record Profile : Type := mkProfile {
  p_id : ObjectId;
  p_username : string;
  p_email : option string;
  p_avatar : string;
  p_bio : option string;
  p_status : option string;
  p_lastSeen : option Date
}.

(** ['username avatar'] *)
Definition select_username_avatar (id : ObjectId) (u : User.t) : Profile :=
  mkProfile id (User.username u) None (User.avatar u) None None None.

(** ['username avatar bio'] *)
Definition select_username_avatar_bio (id : ObjectId) (u : User.t) : Profile :=
  mkProfile id (User.username u) None (User.avatar u) (Some (User.bio u)) None None.

(** ['username email avatar bio status lastSeen'] *)
Definition select_profile (id : ObjectId) (u : User.t) : Profile :=
  mkProfile id (User.username u) (Some (User.email u)) (User.avatar u)
            (Some (User.bio u)) (Some (User.status u)) (Some (User.lastSeen u)).

(** [doc.populate(path, fields)]: the referenced user, or [null]. *)
Definition populate (sel : ObjectId -> User.t -> Profile) (id : ObjectId) (s : Store)
  : option Profile :=
  sel id <$> findById id s.

(** [.sort({ createdAt: -1 })]: newest first; an insertion sort, which
    leaves documents of equal date in storage order. *)
Fixpoint insert_desc {A : Type} (key : A -> Date) (x : A) (l : list A) : list A :=
  match l with
  | [] => [x]
  | y :: l' => if Z.leb (key y) (key x) then x :: l else y :: insert_desc key x l'
  end.

Definition sort_desc {A : Type} (key : A -> Date) (l : list A) : list A :=
  fold_right (insert_desc key) [] l.

(** JavaScript [x || d] on a string that may be missing. *)
Definition or_string (x : option string) (d : string) : string :=
  match x with
  | Some EmptyString | None => d
  | Some v => v
  end.

(** ** models/FriendRequest.js *)

Module Relation.
Inductive Kind : Type := friends | sent | received | none.

(** The [{ type, message }] object of [checkExistingRelation]. *)
Record t : Type := mk { type : Kind; message : string }.

Definition is_none (r : t) : bool :=
  match type r with none => true | _ => false end.
End Relation.

(** The filter of [checkExistingRelation]'s [findOne]: a pending request
    between the two users, in either direction. *)
Definition pending_between (a b : ObjectId) (r : FriendRequest.t) : bool :=
  ((Nat.eqb (FriendRequest.sender r) a && Nat.eqb (FriendRequest.recipient r) b)
   || (Nat.eqb (FriendRequest.sender r) b && Nat.eqb (FriendRequest.recipient r) a))
  && FriendRequest.is_pending r.

(** [friendRequestSchema.statics.checkExistingRelation].  The sender is
    looked up, then the pending requests; the direction of the request
    found is decided by [existingRequest.sender.toString() === senderId]. *)
Definition checkExistingRelation (senderId recipientId : IdValue) : Async Relation.t :=
  let* sender := await (query (findById (id_of senderId))) in
  match sender with
  | None => Throw TypeError
  | Some u =>
      if includes (User.friends u) (id_of recipientId)
      then Return (Relation.mk Relation.friends "You are already friends with this user")
      else
        let* existingRequest :=
          await (query (fun s =>
            List.find (pending_between (id_of senderId) (id_of recipientId))
                      (friendrequests s))) in
        match existingRequest with
        | Some r =>
            if toString_strict_eq (FriendRequest.sender r) senderId
            then Return (Relation.mk Relation.sent "Friend request already sent")
            else Return (Relation.mk Relation.received
                           "You have a pending friend request from this user")
        | None => Return (Relation.mk Relation.none "No existing relation")
        end
  end.

(** The unique index [{ sender: 1, recipient: 1 }]: the ordered pair of a
    new document must not be the pair of a stored one, whatever the
    status of that one. *)
Definition same_pair (r r' : FriendRequest.t) : bool :=
  Nat.eqb (FriendRequest.sender r') (FriendRequest.sender r)
  && Nat.eqb (FriendRequest.recipient r') (FriendRequest.recipient r).

(** [friendRequest.save()] of a new document: the schema validators
    ([message] of at most 200 characters), then the insertion, which the
    [_id] index and the unique index can refuse. *)
Definition insert_request (r : FriendRequest.t) : Store -> (Exn + unit) * Store :=
  fun s =>
    if Nat.ltb 200 (String.length (FriendRequest.message r))
    then (inl ValidationError, s)
    else if existsb (fun r' => Nat.eqb (FriendRequest._id r') (FriendRequest._id r)
                               || same_pair r r') (friendrequests s)
    then (inl DuplicateKey, s)
    else (inr tt, set_friendrequests (fun l => l ++ [r]) s).

Definition with_status (st : FriendRequest.Status) (now : Date) (r : FriendRequest.t)
  : FriendRequest.t :=
  FriendRequest.mk (FriendRequest._id r) (FriendRequest.sender r)
    (FriendRequest.recipient r) st (FriendRequest.message r)
    (FriendRequest.createdAt r) now.

(** [friendRequest.save()] of a loaded document whose [status] was
    assigned: the one modified path (and [updatedAt]) is written to the
    stored document of this [_id], whatever that document holds by now. *)
Definition save_status (id : ObjectId) (st : FriendRequest.Status) (now : Date)
  : Store -> Store :=
  set_friendrequests
    (map (fun r => if Nat.eqb (FriendRequest._id r) id then with_status st now r else r)).

(** ** routes/friends.js *)

(** The filter shared by accept and reject:
    [{ _id: requestId, recipient: userId, status: 'pending' }]. *)
Definition pending_for (requestId userId : ObjectId) (r : FriendRequest.t) : bool :=
  Nat.eqb (FriendRequest._id r) requestId
  && Nat.eqb (FriendRequest.recipient r) userId
  && FriendRequest.is_pending r.

(** A friend request as sent back, with its populated user. *)
Definition Populated : Type := FriendRequest.t * option Profile.

(** POST /api/friends/request, from [friendRequest.save()] on: the
    insertion, the [populate] of the sender, and the 201. *)
Definition sendRequest_save (friendRequest : FriendRequest.t) : Async (Reply Populated) :=
  do* await (insert_request friendRequest) in
  let* sender :=
    await (query (populate select_username_avatar (FriendRequest.sender friendRequest))) in
  Return (Success 201 (Some "Friend request sent successfully") (friendRequest, sender)).

(** POST /api/friends/request.  [newId] is the [_id] the driver gives
    the new document, [now] the clock at its creation. *)
Definition sendRequest (senderId : ObjectId) (recipientId : option ObjectId)
  (message : option string) (newId : ObjectId) (now : Date) : Async (Reply Populated) :=
  match recipientId with
  | None => Return (Failure 400 "Recipient ID is required")
  | Some recipientId =>
      if Nat.eqb senderId recipientId
      then Return (Failure 400 "You cannot send a friend request to yourself")
      else
        let* recipient := await (query (findById recipientId)) in
        match recipient with
        | None => Return (Failure 404 "User not found")
        | Some _ =>
            let* existingRelation :=
              checkExistingRelation (AsObjectId senderId) (AsString recipientId) in
            if negb (Relation.is_none existingRelation)
            then Return (Failure 400 (Relation.message existingRelation))
            else
              sendRequest_save
                (FriendRequest.mk newId senderId recipientId FriendRequest.pending
                                  (or_string message "") now now)
        end
  end.

(** PUT /api/friends/request/:id/accept: [findOne], then [save], then
    the two [$addToSet] updates, then [populate]; five [await]s. *)
Definition accept (requestId userId : ObjectId) (now : Date) : Async (Reply Populated) :=
  let* friendRequest :=
    await (query (fun s => List.find (pending_for requestId userId) (friendrequests s))) in
  match friendRequest with
  | None => Return (Failure 404 "Friend request not found")
  | Some friendRequest =>
      let friendRequest := with_status FriendRequest.accepted now friendRequest in
      do* await (update (save_status (FriendRequest._id friendRequest)
                                     FriendRequest.accepted now)) in
      do* await (update (addToSet_friends userId (FriendRequest.sender friendRequest))) in
      do* await (update (addToSet_friends (FriendRequest.sender friendRequest) userId)) in
      let* sender :=
        await (query (populate select_username_avatar_bio
                               (FriendRequest.sender friendRequest))) in
      Return (Success 200 (Some "Friend request accepted") (friendRequest, sender))
  end.

(** [FriendRequest.findOneAndUpdate(filter, { status: 'rejected' },
    { new: true })]: the first document matching the filter is found and
    updated in one storage operation. *)
Fixpoint findOneAndUpdate_status (p : FriendRequest.t -> bool)
  (st : FriendRequest.Status) (now : Date) (l : list FriendRequest.t)
  : option FriendRequest.t * list FriendRequest.t :=
  match l with
  | [] => (None, [])
  | r :: l' =>
      if p r then (Some (with_status st now r), with_status st now r :: l')
      else let (found, l'') := findOneAndUpdate_status p st now l' in (found, r :: l'')
  end.

(** PUT /api/friends/request/:id/reject: one [await], on the chained
    [findOneAndUpdate(...).populate(...)]. *)
Definition reject (requestId userId : ObjectId) (now : Date) : Async (Reply Populated) :=
  let* friendRequest :=
    await (fun s =>
      let (found, l) :=
        findOneAndUpdate_status (pending_for requestId userId)
                                FriendRequest.rejected now (friendrequests s) in
      let s' := set_friendrequests (fun _ => l) s in
      (inr ((fun r => (r, populate select_username_avatar_bio (FriendRequest.sender r) s'))
              <$> found), s')) in
  match friendRequest with
  | None => Return (Failure 404 "Friend request not found")
  | Some friendRequest => Return (Success 200 (Some "Friend request rejected") friendRequest)
  end.

(** DELETE /api/friends/:friendId *)
Definition removeFriend (userId friendId : ObjectId) : Async (Reply unit) :=
  let* user := await (query (findById userId)) in
  match user with
  | None => Throw TypeError
  | Some user =>
      if negb (includes (User.friends user) friendId)
      then Return (Failure 400 "You are not friends with this user")
      else
        do* await (update (pull_friends userId friendId)) in
        do* await (update (pull_friends friendId userId)) in
        Return (Success 200 (Some "Friend removed successfully") tt)
  end.

(** GET /api/friends/requests/received and /sent: the pending requests
    of one user, newest first, each with the other user populated. *)
Definition requests_received (userId : ObjectId) : Async (Reply (list Populated)) :=
  let* requests :=
    await (query (fun s =>
      map (fun r => (r, populate select_username_avatar_bio (FriendRequest.sender r) s))
          (sort_desc FriendRequest.createdAt
             (List.filter (fun r => Nat.eqb (FriendRequest.recipient r) userId
                                    && FriendRequest.is_pending r)
                          (friendrequests s))))) in
  Return (Success 200 None requests).

Definition requests_sent (userId : ObjectId) : Async (Reply (list Populated)) :=
  let* requests :=
    await (query (fun s =>
      map (fun r => (r, populate select_username_avatar_bio (FriendRequest.recipient r) s))
          (sort_desc FriendRequest.createdAt
             (List.filter (fun r => Nat.eqb (FriendRequest.sender r) userId
                                    && FriendRequest.is_pending r)
                          (friendrequests s))))) in
  Return (Success 200 None requests).

(** ** Strings and numbers of the request *)

(** The white space and line terminators [String.prototype.trim]
    removes, among the code units below 256: tab, line feed, vertical
    tab, form feed, carriage return (9 to 13), space (32) and the
    no-break space U+00A0 (160).  The others it removes (U+1680,
    U+2000 to U+200A, U+2028, U+2029, U+202F, U+205F, U+3000, U+FEFF)
    are above 255. *)
Definition is_space (c : ascii) : bool :=
  let n := nat_of_ascii c in
  (Nat.leb 9 n && Nat.leb n 13) || Nat.eqb n 32 || Nat.eqb n 160.

Fixpoint trimStart (s : string) : string :=
  match s with
  | String c s' => if is_space c then trimStart s' else s
  | EmptyString => EmptyString
  end.

Fixpoint trimEnd (s : string) : string :=
  match s with
  | EmptyString => EmptyString
  | String c s' =>
      match trimEnd s' with
      | EmptyString => if is_space c then EmptyString else String c EmptyString
      | t => String c t
      end
  end.

Definition trim (s : string) : string := trimEnd (trimStart s).

(** JavaScript [parseInt(x) || d]: [None] is [NaN], and [NaN] and [0]
    are both falsy.  Numbers are integers, in the range where the
    arithmetic of JavaScript is exact. *)
Definition or_int (x : option Z) (d : Z) : Z :=
  match x with
  | None | Some 0 => d
  | Some z => z
  end.

(** ** routes/messages.js *)

(** [messageType] as the schema's [enum] accepts it. *)
Definition parse_messageType (t : string) : option Message.MessageType :=
  if String.eqb t "text" then Some Message.text
  else if String.eqb t "image" then Some Message.image
  else if String.eqb t "file" then Some Message.file
  else None.

(** [message.save()] of a new message: the validators ([content]
    required and of at most 1000 characters, [messageType] in the
    [enum]), then the insertion. *)
Definition insert_message (id sender recipient : ObjectId) (content messageType : string)
  (now : Date) : Store -> (Exn + Message.t) * Store :=
  fun s =>
    match parse_messageType messageType with
    | None => (inl ValidationError, s)
    | Some ty =>
        if (Nat.eqb (String.length content) 0 || Nat.ltb 1000 (String.length content))%bool
        then (inl ValidationError, s)
        else if existsb (fun m => Nat.eqb (Message._id m) id) (messages s)
        then (inl DuplicateKey, s)
        else
          let m := Message.mk id sender recipient content ty false None false None now now in
          (inr m, set_messages (fun l => l ++ [m]) s)
    end.

(** A message as sent back, with its populated sender. *)
Definition Sent : Type := Message.t * option Profile.

(** POST /api/messages/send.  [messageType] is ['text'] when the body
    has none. *)
Definition send (senderId : ObjectId) (recipientId : option ObjectId)
  (content messageType : option string) (newId : ObjectId) (now : Date)
  : Async (Reply Sent) :=
  match recipientId, content with
  | None, _ | _, None | _, Some EmptyString =>
      Return (Failure 400 "Recipient ID and content are required")
  | Some recipientId, Some content =>
      let* sender := await (query (findById senderId)) in
      match sender with
      | None => Throw TypeError
      | Some sender =>
          if negb (includes (User.friends sender) recipientId)
          then Return (Failure 403 "You can only send messages to your friends")
          else
            let* message :=
              await (insert_message newId senderId recipientId (trim content)
                       (match messageType with Some t => t | None => "text" end) now) in
            let* sender := await (query (populate select_username_avatar senderId)) in
            Return (Success 201 (Some "Message sent successfully") (message, sender))
      end
  end.

(** [{ $or: [{ sender: a, recipient: b }, { sender: b, recipient: a }] }] *)
Definition between (a b : ObjectId) (m : Message.t) : bool :=
  (Nat.eqb (Message.sender m) a && Nat.eqb (Message.recipient m) b)
  || (Nat.eqb (Message.sender m) b && Nat.eqb (Message.recipient m) a).

(** [.limit(limit).skip(skip)] on a sorted cursor: the store skips, then
    limits.  It refuses a negative [skip]; of a negative [limit] the
    driver takes the absolute value. *)
Definition window {A : Type} (limit skip : Z) (l : list A) : Exn + list A :=
  if Z.ltb skip 0 then inl MongoError
  else inr (firstn (Z.abs_nat limit) (skipn (Z.to_nat skip) l)).

(** The unread messages of [sender] to [recipient]:
    [{ sender, recipient, isRead: false }]. *)
Definition unread_from (sender recipient : ObjectId) (m : Message.t) : bool :=
  Nat.eqb (Message.sender m) sender
  && Nat.eqb (Message.recipient m) recipient
  && negb (Message.isRead m).

(** The update [{ isRead: true, readAt: now }], with the [updatedAt]
    that [timestamps] adds to it. *)
Definition mark_read (now : Date) (m : Message.t) : Message.t :=
  Message.mk (Message._id m) (Message.sender m) (Message.recipient m)
    (Message.content m) (Message.messageType m) true (Some now)
    (Message.isEdited m) (Message.editedAt m) (Message.createdAt m) now.

(** [Message.updateMany(filter, update)] *)
Definition updateMany (filter : Message.t -> bool) (upd : Message.t -> Message.t)
  : Store -> Store :=
  set_messages (map (fun m => if filter m then upd m else m)).

Record Pagination : Type := mkPagination { page : Z; limit : Z; hasMore : bool }.

(** GET /api/messages/conversation/:userId.  [page] and [limit] are what
    [parseInt] made of the two query parameters. *)
Definition conversation (currentUserId otherUserId : ObjectId) (page limit : option Z)
  (now : Date) : Async (Reply (list Sent * Pagination)) :=
  let page := or_int page 1 in
  let limit := or_int limit 50 in
  let skip := (page - 1) * limit in
  let* currentUser := await (query (findById currentUserId)) in
  match currentUser with
  | None => Throw TypeError
  | Some currentUser =>
      if negb (includes (User.friends currentUser) otherUserId)
      then Return (Failure 403 "You can only view conversations with your friends")
      else
        let* messages :=
          await (fun s =>
            (window limit skip
               (map (fun m => (m, populate select_username_avatar (Message.sender m) s))
                  (sort_desc Message.createdAt
                     (List.filter (between currentUserId otherUserId) (messages s)))),
             s)) in
        let messages := rev messages in
        do* await (update (updateMany (unread_from otherUserId currentUserId)
                                      (mark_read now))) in
        Return (Success 200 None
                  (messages,
                   mkPagination page limit (Z.eqb (Z.of_nat (length messages)) limit)))
  end.

(** PUT /api/messages/:messageId/read: one [findOneAndUpdate]. *)
Fixpoint findOneAndUpdate_message (p : Message.t -> bool) (upd : Message.t -> Message.t)
  (l : list Message.t) : option Message.t * list Message.t :=
  match l with
  | [] => (None, [])
  | m :: l' =>
      if p m then (Some (upd m), upd m :: l')
      else let (found, l'') := findOneAndUpdate_message p upd l' in (found, m :: l'')
  end.

Definition markRead (messageId userId : ObjectId) (now : Date) : Async (Reply unit) :=
  let* message :=
    await (fun s =>
      let (found, l) :=
        findOneAndUpdate_message
          (fun m => Nat.eqb (Message._id m) messageId
                    && Nat.eqb (Message.recipient m) userId
                    && negb (Message.isRead m))
          (mark_read now) (messages s) in
      (inr found, set_messages (fun _ => l) s)) in
  match message with
  | None => Return (Failure 404 "Message not found or already read")
  | Some _ => Return (Success 200 (Some "Message marked as read") tt)
  end.

(** [Message.countDocuments({ recipient: userId, isRead: false })] *)
Definition countUnread (userId : ObjectId) (l : list Message.t) : nat :=
  length (List.filter (fun m => Nat.eqb (Message.recipient m) userId
                                && negb (Message.isRead m)) l).

(** GET /api/messages/unread/count *)
Definition unreadCount (userId : ObjectId) : Async (Reply nat) :=
  let* unreadCount := await (query (fun s => countUnread userId (messages s))) in
  Return (Success 200 None unreadCount).

(** *** GET /api/messages/conversations: the aggregation pipeline *)

(** The group key: the other party of a message of [userId]. *)
Definition counterpart (userId : ObjectId) (m : Message.t) : ObjectId :=
  if Nat.eqb (Message.sender m) userId then Message.recipient m else Message.sender m.

(** The summand of [unreadCount]: 1 for an unread message to [userId]. *)
Definition unread_summand (userId : ObjectId) (m : Message.t) : nat :=
  if Nat.eqb (Message.recipient m) userId && negb (Message.isRead m) then 1%nat else 0%nat.

(** What [$group] accumulates for one key. *)
Record Group : Type := mkGroup {
  g_id : ObjectId;
  g_lastMessage : Message.t;   (* $first: '$$ROOT' *)
  g_unreadCount : nat          (* $sum *)
}.

(** One document entering [$group]: it opens the group of its key, or
    adds to the sum of the group already open (whose [$first] stays). *)
Fixpoint group_add (userId : ObjectId) (m : Message.t) (gs : list Group) : list Group :=
  match gs with
  | [] => [mkGroup (counterpart userId m) m (unread_summand userId m)]
  | g :: gs' =>
      if Nat.eqb (g_id g) (counterpart userId m)
      then mkGroup (g_id g) (g_lastMessage g) (g_unreadCount g + unread_summand userId m) :: gs'
      else g :: group_add userId m gs'
  end.

Definition group (userId : ObjectId) (docs : list Message.t) : list Group :=
  fold_left (fun gs m => group_add userId m gs) docs [].

Record ConversationUser : Type := mkConversationUser {
  cu_id : ObjectId;
  cu_username : string;
  cu_avatar : string;
  cu_status : string;
  cu_lastSeen : Date
}.

Record LastMessage : Type := mkLastMessage {
  lm_content : string;
  lm_createdAt : Date;
  lm_sender : ObjectId
}.

(** One document of the pipeline's output. *)
Record Conversation : Type := mkConversation {
  c_id : ObjectId;
  c_user : ConversationUser;
  c_lastMessage : LastMessage;
  c_unreadCount : nat
}.

(** [$lookup] of the group key in [users], [$unwind] (a group whose key
    is no user's id is dropped), and [$project]. *)
Definition lookup_unwind_project (us : gmap nat User.t) (g : Group) : list Conversation :=
  match us !! g_id g with
  | Some u =>
      [mkConversation (g_id g)
         (mkConversationUser (g_id g) (User.username u) (User.avatar u)
                             (User.status u) (User.lastSeen u))
         (mkLastMessage (Message.content (g_lastMessage g))
                        (Message.createdAt (g_lastMessage g))
                        (Message.sender (g_lastMessage g)))
         (g_unreadCount g)]
  | None => []
  end.

(** The whole pipeline: [$match], [$sort], [$group], [$lookup],
    [$unwind], [$project], [$sort]. *)
Definition aggregate_conversations (userId : ObjectId) (s : Store) : list Conversation :=
  let matched :=
    List.filter (fun m => Nat.eqb (Message.sender m) userId
                          || Nat.eqb (Message.recipient m) userId) (messages s) in
  let sorted := sort_desc Message.createdAt matched in
  let groups := group userId sorted in
  let projected := flat_map (lookup_unwind_project (users s)) groups in
  sort_desc (fun c => lm_createdAt (c_lastMessage c)) projected.

Definition conversations (userId : ObjectId) : Async (Reply (list Conversation)) :=
  let* conversations := await (query (aggregate_conversations userId)) in
  Return (Success 200 None conversations).

(** ** routes/users.js *)

(** *** The pattern of [$regex]

    The trimmed query is handed to the store as a regular expression
    with option [i].  Semantics is given here to the patterns made of
    ordinary ASCII characters, which stand for themselves, and of the
    dot, which stands for any character but a line feed; a pattern with
    another metacharacter, or with a character that is not of ASCII,
    is outside this fragment.  The subject may hold any character. *)
Inductive Atom : Type :=
| Lit (c : ascii)
| AnyChar.

Definition is_meta (c : ascii) : bool :=
  existsb (Ascii.eqb c)
    (list_ascii_of_string "\^$.|?*+()[]{}").

Definition atom_of (c : ascii) : option Atom :=
  if Ascii.eqb c "." then Some AnyChar
  else if is_meta c || Nat.ltb 127 (nat_of_ascii c) then None
  else Some (Lit c).

Fixpoint compile (pattern : string) : option (list Atom) :=
  match pattern with
  | EmptyString => Some []
  | String c rest =>
      match atom_of c, compile rest with
      | Some a, Some atoms => Some (a :: atoms)
      | _, _ => None
      end
  end.

(** Case folding of option [i], on the letters of ASCII. *)
Definition to_lower (c : ascii) : ascii :=
  let n := nat_of_ascii c in
  if Nat.leb 65 n && Nat.leb n 90 then ascii_of_nat (n + 32) else c.

Definition atom_matches (a : Atom) (c : ascii) : bool :=
  match a with
  | Lit l => Ascii.eqb (to_lower l) (to_lower c)
  | AnyChar => negb (Ascii.eqb c "010")
  end.

Fixpoint matches_at (atoms : list Atom) (subject : string) : bool :=
  match atoms, subject with
  | [], _ => true
  | a :: atoms', String c subject' => atom_matches a c && matches_at atoms' subject'
  | _ :: _, EmptyString => false
  end.

(** An unanchored match: at some offset of the subject. *)
Fixpoint regex_search (atoms : list Atom) (subject : string) : bool :=
  matches_at atoms subject
  || match subject with
     | String _ subject' => regex_search atoms subject'
     | EmptyString => false
     end.

(** The documents of the users collection in the order in which a
    [find] without [sort] yields them: the order of their creation,
    which is the order of their ids (no route deletes a user). *)
Definition in_id_order (us : gmap nat User.t) : list (ObjectId * User.t) :=
  flat_map (fun id => match us !! id with
                      | Some u => [(id, u)]
                      | None => []
                      end)
           (seq 0 (S (list_max (map fst (map_to_list us))))).

(** [User.find({ username: { $regex, $options: 'i' }, _id: { $ne: me } })
      .select(...).limit(20)], in the order the store yields users. *)
Definition find_users (atoms : list Atom) (me : ObjectId) (s : Store) : list Profile :=
  firstn 20
    (map (fun '(id, u) => select_profile id u)
       (List.filter (fun '(id, u) => regex_search atoms (User.username u)
                                     && negb (Nat.eqb id me))
                    (in_id_order (users s)))).

(** GET /api/users/search.  [None]: the pattern is outside the fragment
    above, and nothing is said of the request. *)
Definition search (me : ObjectId) (query_ : option string)
  : option (Async (Reply (list Profile))) :=
  match query_ with
  | None | Some EmptyString =>
      Some (Return (Failure 400 "Search query must be at least 2 characters long"))
  | Some q =>
      if Nat.ltb (String.length (trim q)) 2
      then Some (Return (Failure 400 "Search query must be at least 2 characters long"))
      else
        match compile (trim q) with
        | None => None
        | Some atoms =>
            Some (let* users := await (query (find_users atoms me)) in
                  Return (Success 200 None users))
        end
  end.

(** GET /api/users/:id *)
Definition getUser (id : ObjectId) : Async (Reply Profile) :=
  let* user := await (query (populate select_profile id)) in
  match user with
  | None => Return (Failure 404 "User not found")
  | Some user => Return (Success 200 None user)
  end.

(** GET /api/users/friends/list: [populate] keeps the friends that are
    users. *)
Definition friendsList (me : ObjectId) : Async (Reply (list Profile)) :=
  let* user :=
    await (query (fun s =>
      (fun u => flat_map (fun f => match populate select_profile f s with
                                   | Some p => [p] | None => [] end)
                         (User.friends u)) <$> findById me s)) in
  match user with
  | None => Throw TypeError
  | Some friends => Return (Success 200 None friends)
  end.

(** [['online', 'offline', 'away'].includes(status)] *)
Definition valid_status (status : option string) : bool :=
  match status with
  | Some st => String.eqb st "online" || String.eqb st "offline" || String.eqb st "away"
  | None => false
  end.

(** [req.user.status = status; req.user.lastSeen = new Date()]: the two
    paths that [req.user.save()] writes. *)
Definition with_status_lastSeen (status : string) (now : Date) (u : User.t) : User.t :=
  User.mk (User.username u) (User.email u) (User.avatar u) (User.bio u)
          (User.friends u) status now.

(** PUT /api/users/status *)
Definition updateStatus (me : ObjectId) (status : option string) (now : Date)
  : Async (Reply string) :=
  match status with
  | Some st =>
      if negb (valid_status status)
      then Return (Failure 400 "Invalid status. Must be online, offline, or away")
      else
        do* await (update (set_users (alter (with_status_lastSeen st now) me))) in
        Return (Success 200 (Some "Status updated successfully") st)
  | None => Return (Failure 400 "Invalid status. Must be online, offline, or away")
  end.

(** ** server.js: the socket server *)

(** A socket's [socket.id]. *)
Abbreviation SocketId := nat (only parsing).

(** What the server emits. *)
Inductive Event : Type :=
| user_online (userId : ObjectId)
| user_offline (userId : ObjectId)
| receive_message (senderId : ObjectId) (message : string) (timestamp : Date)
| user_typing (userId : option ObjectId) (isTyping : bool).

Inductive Emission : Type :=
| Broadcast (socket : SocketId) (e : Event)   (* socket.broadcast.emit: to all but [socket] *)
| To (socketId : SocketId) (e : Event).       (* io.to(socketId).emit *)

(** The process: the store behind the routes, the [connectedUsers] map,
    and the [userId] property that [join] sets on a socket. *)
Record Server : Type := mkServer {
  store : Store;
  connectedUsers : gmap nat nat;
  socket_userId : gmap nat nat
}.

(** What a connection sends. *)
Inductive ClientEvent : Type :=
| join (userId : ObjectId)
| send_message (recipientId : ObjectId) (message : string) (senderId : ObjectId)
| typing (recipientId : ObjectId) (isTyping : bool)
| disconnect.

(** The four listeners of a socket; [now] is the clock. *)
Definition on (socket : SocketId) (ev : ClientEvent) (now : Date) (sv : Server)
  : Server * list Emission :=
  match ev with
  | join userId =>
      (mkServer (store sv)
                (<[userId := socket]> (connectedUsers sv))
                (<[socket := userId]> (socket_userId sv)),
       [Broadcast socket (user_online userId)])
  | send_message recipientId message senderId =>
      match connectedUsers sv !! recipientId with
      | Some recipientSocketId =>
          (sv, [To recipientSocketId (receive_message senderId message now)])
      | None => (sv, [])
      end
  | typing recipientId isTyping =>
      match connectedUsers sv !! recipientId with
      | Some recipientSocketId =>
          (sv, [To recipientSocketId (user_typing (socket_userId sv !! socket) isTyping)])
      | None => (sv, [])
      end
  | disconnect =>
      match socket_userId sv !! socket with
      | Some userId =>
          (mkServer (store sv) (delete userId (connectedUsers sv)) (socket_userId sv),
           [Broadcast socket (user_offline userId)])
      | None => (sv, [])
      end
  end.

(** A sequence of events, each with its socket and the clock at its
    arrival; the emissions come out in order. *)
Fixpoint on_all (evs : list (SocketId * ClientEvent * Date)) (sv : Server)
  : Server * list Emission :=
  match evs with
  | [] => (sv, [])
  | (socket, ev, now) :: evs' =>
      let (sv', out) := on socket ev now sv in
      let (sv'', out') := on_all evs' sv' in
      (sv'', out ++ out')
  end.

(** A route served by the process: it works on the store and leaves the
    two maps of the socket server alone. *)
Definition serve {T : Type} (h : Async (Reply T)) (sv : Server) : Reply T * Server :=
  let (r, s') := route h (store sv) in
  (r, mkServer s' (connectedUsers sv) (socket_userId sv)).

Definition is_online (e : Emission) : bool :=
  match e with Broadcast _ (user_online _) => true | _ => false end.

Definition is_offline (e : Emission) : bool :=
  match e with Broadcast _ (user_offline _) => true | _ => false end.

(** * Notions used in the statements *)

(** ** Replies *)

(** The HTTP status of a reply. *)
Definition reply_code {T : Type} (r : Reply T) : nat :=
  match r with
  | Success code _ _ => code
  | Failure code _ => code
  end.

(** The [message] field of a reply, when it has one. *)
Definition reply_message {T : Type} (r : Reply T) : option string :=
  match r with
  | Success _ message _ => message
  | Failure _ message => Some message
  end.

(** ** Friends, and the consistency of a store *)

(** The friends of a user, none for an id that is no user's. *)
Definition friends_of (s : Store) (id : ObjectId) : list ObjectId :=
  match users s !! id with
  | Some u => User.friends u
  | None => []
  end.

(** The friends relation is symmetric. *)
Definition symmetric (s : Store) : Prop :=
  forall a b : ObjectId, In b (friends_of s a) -> In a (friends_of s b).

(** The references of a store resolve and no friends array lists an id
    twice.  A directory of users without friends is so, and every route
    keeps a store so ([consistent_initial], [consistent_accept], ...). *)
Record consistent (s : Store) : Prop := mkConsistent {
  friends_nodup :
    forall id u, users s !! id = Some u -> List.NoDup (User.friends u);
  friends_exist :
    forall id u f, users s !! id = Some u -> In f (User.friends u) ->
                   is_Some (users s !! f);
  requests_exist :
    forall r, In r (friendrequests s) ->
              is_Some (users s !! FriendRequest.sender r)
              /\ is_Some (users s !! FriendRequest.recipient r);
  messages_exist :
    forall m, In m (messages s) ->
              is_Some (users s !! Message.sender m)
              /\ is_Some (users s !! Message.recipient m)
}.

(** [consistent], as a test that evaluates on a given store. *)
Fixpoint nodupb (l : list nat) : bool :=
  match l with
  | [] => true
  | x :: l' => negb (includes l' x) && nodupb l'
  end.

Definition is_user (s : Store) (id : ObjectId) : bool :=
  match users s !! id with Some _ => true | None => false end.

Definition consistentb (s : Store) : bool :=
  forallb (fun '(_, u) => nodupb (User.friends u) && forallb (is_user s) (User.friends u))
          (map_to_list (users s))
  && forallb (fun r => is_user s (FriendRequest.sender r)
                       && is_user s (FriendRequest.recipient r)) (friendrequests s)
  && forallb (fun m => is_user s (Message.sender m)
                       && is_user s (Message.recipient m)) (messages s).

(** ** Messages *)

(** What fetching the conversation of [A] with [B] at time [now] does to
    one stored message [m], giving [m']: an unread message from [B] to
    [A] is now read, with [readAt] set, and is otherwise the message it
    was; any other message is untouched. *)
Definition read_on_fetch (A B : ObjectId) (now : Date) (m m' : Message.t) : Prop :=
  (Message.sender m = B -> Message.recipient m = A -> Message.isRead m = false ->
   Message.isRead m' = true
   /\ Message.readAt m' = Some now
   /\ Message._id m' = Message._id m
   /\ Message.sender m' = B
   /\ Message.recipient m' = A
   /\ Message.content m' = Message.content m
   /\ Message.messageType m' = Message.messageType m
   /\ Message.isEdited m' = Message.isEdited m
   /\ Message.editedAt m' = Message.editedAt m
   /\ Message.createdAt m' = Message.createdAt m)
  /\ (~ (Message.sender m = B /\ Message.recipient m = A /\ Message.isRead m = false) ->
      m' = m).

(** The unread messages to [A] that do not come from [B]. *)
Definition unread_not_from (A B : ObjectId) (m : Message.t) : bool :=
  Nat.eqb (Message.recipient m) A && negb (Message.isRead m)
  && negb (Nat.eqb (Message.sender m) B).

(** [m] is a message between [U] and [c], either way. *)
Definition exchanged (U c : ObjectId) (m : Message.t) : Prop :=
  (Message.sender m = U /\ Message.recipient m = c)
  \/ (Message.sender m = c /\ Message.recipient m = U).

(** The order of a list sorted by [key], newest first. *)
Definition newer_first {A : Type} (key : A -> Date) (x y : A) : Prop := key y <= key x.

(** The message belongs to the group of key [c]. *)
Definition in_group (U c : ObjectId) (m : Message.t) : bool :=
  Nat.eqb (counterpart U m) c.

(** The message counts as unread in the group of key [c]. *)
Definition unread_in_group (U c : ObjectId) (m : Message.t) : bool :=
  in_group U c m && (Nat.eqb (Message.recipient m) U && negb (Message.isRead m)).

(** What [$group] has accumulated once the documents [docs] have gone
    through it: one group per key met, holding the first document of
    the key and the number of its unread documents. *)
Record grouped (U : ObjectId) (docs : list Message.t) (gs : list Group) : Prop := mkGrouped {
  grouped_nodup : List.NoDup (map g_id gs);
  grouped_ids :
    forall c, In c (map g_id gs) <-> exists m, In m docs /\ counterpart U m = c;
  grouped_first :
    forall g, In g gs -> List.find (in_group U (g_id g)) docs = Some (g_lastMessage g);
  grouped_count :
    forall g, In g gs ->
      g_unreadCount g = length (List.filter (unread_in_group U (g_id g)) docs)
}.

(** ** Search *)

(** A string with its letters of ASCII in lower case. *)
Fixpoint lowercase (s : string) : string :=
  match s with
  | EmptyString => EmptyString
  | String c s' => String (to_lower c) (lowercase s')
  end.

(** [u] contains [q], ignoring the case of the letters of ASCII. *)
Definition contains_ignoring_case (q u : string) : Prop :=
  exists pre post : string, lowercase u = (pre ++ lowercase q ++ post)%string.






(** ** Indexes *)

(** The ordered pair that the unique index of the friend requests keys. *)
Definition ordered_pair (r : FriendRequest.t) : ObjectId * ObjectId :=
  (FriendRequest.sender r, FriendRequest.recipient r).

(** The indexes hold: no two friend requests have the same [_id] or the
    same ordered pair, and no two messages have the same [_id]. *)
Record indexed (s : Store) : Prop := mkIndexed {
  request_ids_unique : List.NoDup (map FriendRequest._id (friendrequests s));
  request_pairs_unique : List.NoDup (map ordered_pair (friendrequests s));
  message_ids_unique : List.NoDup (map Message._id (messages s))
}.

(** The order of a list sorted by [key], oldest first. *)
Definition older_first {A : Type} (key : A -> Date) (x y : A) : Prop := key x <= key y.

(** ** Sockets *)

(** The sockets that sent a [join] in a sequence of events. *)
Definition joined (evs : list (SocketId * ClientEvent * Date)) : list SocketId :=
  flat_map (fun e => match e with
                     | (socket, join _, _) => [socket]
                     | _ => []
                     end) evs.

(** The socket an emission is addressed to, when it is addressed to one. *)
Definition delivered_to (e : Emission) : option SocketId :=
  match e with
  | To socketId _ => Some socketId
  | Broadcast _ _ => None
  end.

(** ** Example stores *)

(** Users 1 and 2, not friends. *)
Definition alice_and_bob : gmap nat User.t :=
  {[ 1%nat := User.mk "alice" "" "" "" [] "online" 0;
     2%nat := User.mk "bob" "" "" "" [] "online" 0 ]}.

(** Request 10, from 1 to 2, in a given status. *)
Definition request_1_to_2 (st : FriendRequest.Status) : Store :=
  mkStore alice_and_bob [FriendRequest.mk 10 1 2 st "hi" 5 5] [].

(** Users 1 and 2 are friends; 2 has sent 1 three messages, 1 has sent 2
    one, and a third user has sent 1 one; all five are unread. *)
Definition chat : Store :=
  mkStore
    {[ 1%nat := User.mk "alice" "" "" "" [2%nat] "online" 0;
       2%nat := User.mk "bob" "" "" "" [1%nat] "online" 0;
       3%nat := User.mk "carol" "" "" "" [] "online" 0 ]}
    []
    [Message.mk 101 2 1 "a" Message.text false None false None 1 1;
     Message.mk 102 2 1 "b" Message.text false None false None 2 2;
     Message.mk 103 2 1 "c" Message.text false None false None 3 3;
     Message.mk 104 1 2 "d" Message.text false None false None 4 4;
     Message.mk 105 3 1 "e" Message.text false None false None 5 5].

(** Four users. *)
Definition people : Store :=
  mkStore
    {[ 1%nat := User.mk "alice" "" "" "" [] "online" 0;
       2%nat := User.mk "abc" "" "" "" [] "online" 0;
       3%nat := User.mk "A.C" "" "" "" [] "online" 0;
       4%nat := User.mk "Alan" "" "" "" [] "online" 0 ]}
    [] [].

(** The process with users 1 and 2, who are not friends, and no message
    stored; user 2 has joined on socket 20. *)
Definition strangers : Server :=
  mkServer (mkStore alice_and_bob [] []) {[ 2%nat := 20%nat ]} {[ 20%nat := 2%nat ]}.

(** The process with nobody connected. *)
Definition nobody : Server := mkServer (mkStore ∅ [] []) ∅ ∅.

(** * Properties *)

(** ** Running handlers *)

Lemma run_bind {A B : Type} (p : Async A) (f : A -> Async B) (s : Store) :
  run (bind p f) s =
  match run p s with
  | (inr a, s') => run (f a) s'
  | (inl e, s') => (inl e, s')
  end.
Proof.
  revert s. induction p as [a | e | X op k IH]; intros s; simpl; try reflexivity.
  destruct (op s) as [[e | x] s']; [reflexivity | apply IH].
Qed.

Lemma run_await_query {A X : Type} (f : Store -> X) (k : X -> Async A) (s : Store) :
  run (bind (await (query f)) k) s = run (k (f s)) s.
Proof. reflexivity. Qed.

Lemma run_await_update {A : Type} (f : Store -> Store) (k : unit -> Async A) (s : Store) :
  run (bind (await (update f)) k) s = run (k tt) (f s).
Proof. reflexivity. Qed.

(** ** The durable status (routes/users.js) *)

(** C10.  Updating the caller's status to a valid value answers 200 and
    rewrites the caller's document with the new status and with
    [lastSeen] set to the current time; every other field of the
    caller, every other user, the friend requests and the messages are
    as before. *)
Theorem updateStatus_writes_status_and_lastSeen
  (me : ObjectId) (st : string) (now : Date) (s : Store) (u : User.t) :
  users s !! me = Some u ->
  valid_status (Some st) = true ->
  exists u' : User.t,
    route (updateStatus me (Some st) now) s =
      (Success 200 (Some "Status updated successfully") st,
       mkStore (<[me := u']> (users s)) (friendrequests s) (messages s))
    /\ User.status u' = st
    /\ User.lastSeen u' = now
    /\ User.username u' = User.username u
    /\ User.email u' = User.email u
    /\ User.avatar u' = User.avatar u
    /\ User.bio u' = User.bio u
    /\ User.friends u' = User.friends u.
Proof.
  intros Hme Hvalid. exists (with_status_lastSeen st now u).
  split; [| by repeat split].
  unfold route, updateStatus. rewrite Hvalid. simpl.
  unfold set_users. simpl. f_equal. f_equal.
  apply map_eq. intros i. rewrite lookup_alter.
  case_decide as Hi.
  - subst i. by rewrite Hme, lookup_insert_eq.
  - by rewrite lookup_insert_ne.
Qed.

Lemma updateStatus_writes_status_and_lastSeen_witness :
  exists u' : User.t,
    route (updateStatus 1 (Some "away") 42)
          (mkStore {[ 1%nat := User.mk "alice" "a@x" "a.png" "hi" [2%nat] "online" 7 ]} [] []) =
      (Success 200 (Some "Status updated successfully") "away",
       mkStore (<[1%nat := u']>
                  {[ 1%nat := User.mk "alice" "a@x" "a.png" "hi" [2%nat] "online" 7 ]}) [] [])
    /\ User.status u' = "away"
    /\ User.lastSeen u' = 42
    /\ User.username u' = "alice"
    /\ User.email u' = "a@x"
    /\ User.avatar u' = "a.png"
    /\ User.bio u' = "hi"
    /\ User.friends u' = [2%nat].
Proof.
  exact (updateStatus_writes_status_and_lastSeen 1 "away" 42
           (mkStore {[ 1%nat := User.mk "alice" "a@x" "a.png" "hi" [2%nat] "online" 7 ]} [] [])
           (User.mk "alice" "a@x" "a.png" "hi" [2%nat] "online" 7)
           eq_refl eq_refl).
Defined.

(** An invalid or missing status is a validation error and changes
    nothing. *)
Lemma updateStatus_invalid (me : ObjectId) (status : option string) (now : Date) (s : Store) :
  valid_status status = false ->
  route (updateStatus me status now) s =
    (Failure 400 "Invalid status. Must be online, offline, or away", s).
Proof.
  intros H. unfold route, updateStatus. destruct status as [st |]; [| reflexivity].
  by rewrite H.
Qed.

(** ** The socket server (server.js) *)

(** A [send_message] event reads [connectedUsers] and nothing else: the
    recipient's socket, when there is one, is sent the message whatever
    the store holds, and the store is left as it was. *)
Lemma send_message_relays (socket : SocketId) (recipientId senderId : ObjectId)
  (message : string) (now : Date) (sv : Server) (recipientSocketId : SocketId) :
  connectedUsers sv !! recipientId = Some recipientSocketId ->
  on socket (send_message recipientId message senderId) now sv =
    (sv, [To recipientSocketId (receive_message senderId message now)]).
Proof. intros H. simpl. by rewrite H. Qed.

(** C1, at the failing input.  On [strangers], a socket that never
    joined sends [send_message] to user 2 in the name of user 1: user 2
    is sent [receive_message], although 1 is not in the friends of 2 nor
    2 in those of 1, and no message is stored before or after; the send
    route refuses the same pair with 403. *)
Theorem send_message_bypasses_gateway :
  on 10%nat (send_message 2 "hello" 1) 99 strangers =
    (strangers, [To 20%nat (receive_message 1 "hello" 99)])
  /\ (User.friends <$> users (store strangers) !! 1%nat) = Some []
  /\ (User.friends <$> users (store strangers) !! 2%nat) = Some []
  /\ messages (store strangers) = []
  /\ serve (send 1 (Some 2%nat) (Some "hello") None 7 99) strangers =
       (Failure 403 "You can only send messages to your friends", strangers).
Proof. repeat split; vm_compute; reflexivity. Qed.

(** The first half of the presence property: a join then the disconnect
    of the same socket emit one online and then one offline broadcast. *)
Lemma join_then_disconnect (sv : Server) (U : ObjectId) (c1 : SocketId) (t1 t2 : Date) :
  snd (on_all [(c1, join U, t1); (c1, disconnect, t2)] sv) =
    [Broadcast c1 (user_online U); Broadcast c1 (user_offline U)].
Proof. simpl. by rewrite lookup_insert_eq. Qed.

(** Every join broadcasts: a second join of the same identity emits a
    second online broadcast, emits no offline broadcast, and takes over
    the entry of the identity. *)
Lemma join_then_join (sv : Server) (U : ObjectId) (c1 c2 : SocketId) (t1 t2 : Date) :
  snd (on_all [(c1, join U, t1); (c2, join U, t2)] sv) =
    [Broadcast c1 (user_online U); Broadcast c2 (user_online U)]
  /\ connectedUsers (fst (on_all [(c1, join U, t1); (c2, join U, t2)] sv)) !! U = Some c2.
Proof. simpl. split; [reflexivity | apply lookup_insert_eq]. Qed.

(** C5, as amended.  A join followed by the disconnect of the same
    connection emits exactly one online then exactly one offline
    broadcast; each join emits one online broadcast, so two joins of
    one identity emit two, one from each connection, and the second
    join replaces the entry of the identity with no offline broadcast. *)
Theorem presence_broadcasts (sv : Server) (U : ObjectId) (c1 c2 : SocketId) (t1 t2 : Date) :
  snd (on_all [(c1, join U, t1); (c1, disconnect, t2)] sv) =
    [Broadcast c1 (user_online U); Broadcast c1 (user_offline U)]
  /\ snd (on_all [(c1, join U, t1); (c2, join U, t2)] sv) =
       [Broadcast c1 (user_online U); Broadcast c2 (user_online U)]
  /\ List.filter is_offline (snd (on_all [(c1, join U, t1); (c2, join U, t2)] sv)) = []
  /\ connectedUsers (fst (on_all [(c1, join U, t1); (c2, join U, t2)] sv)) !! U = Some c2.
Proof.
  split; [apply join_then_disconnect |].
  destruct (join_then_join sv U c1 c2 t1 t2) as [Hout Hmap].
  split; [exact Hout |]. split; [by rewrite Hout | exact Hmap].
Qed.

(** C5, the counterexample.  Identity 7 joins on connection 1, then on
    connection 2, then connection 1 goes away: two online broadcasts
    are emitted, not one, and the disconnect of the superseded
    connection emits an offline broadcast and removes the entry that
    connection 2 had taken over. *)
Lemma presence_stale_disconnect :
  let trace := [(1%nat, join 7, 0); (2%nat, join 7, 1); (1%nat, disconnect, 2)] in
  snd (on_all trace nobody) =
    [Broadcast 1%nat (user_online 7); Broadcast 2%nat (user_online 7);
     Broadcast 1%nat (user_offline 7)]
  /\ length (List.filter is_online (snd (on_all trace nobody))) <> 1%nat
  /\ List.filter is_offline (snd (on_all trace nobody)) <> []
  /\ connectedUsers (fst (on_all trace nobody)) !! 7%nat = None.
Proof. vm_compute. repeat split; discriminate. Qed.

(** ** Friend requests (routes/friends.js, models/FriendRequest.js) *)

(** The proactive check passes but the unique index holds the ordered
    pair already: the request is answered 500 and nothing is stored. *)
Lemma sendRequest_refused_by_index (senderId recipientId newId : ObjectId)
  (message : option string) (now : Date) (s : Store) (sender recipient : User.t) :
  senderId <> recipientId ->
  users s !! recipientId = Some recipient ->
  users s !! senderId = Some sender ->
  includes (User.friends sender) recipientId = false ->
  List.find (pending_between senderId recipientId) (friendrequests s) = None ->
  existsb (fun r => Nat.eqb (FriendRequest.sender r) senderId
                    && Nat.eqb (FriendRequest.recipient r) recipientId)
          (friendrequests s) = true ->
  route (sendRequest senderId (Some recipientId) message newId now) s =
    (Failure 500 "Server error", s).
Proof.
  intros Hne Hrecipient Hsender Hfriends Hpending Hpair.
  unfold route, sendRequest.
  apply Nat.eqb_neq in Hne. rewrite Hne.
  rewrite run_await_query. unfold findById at 1. rewrite Hrecipient.
  rewrite run_bind. unfold checkExistingRelation.
  rewrite run_await_query. unfold findById at 1. cbn [id_of]. rewrite Hsender, Hfriends.
  rewrite run_await_query, Hpending. cbn [run Relation.is_none Relation.type negb].
  unfold sendRequest_save. rewrite run_bind. cbn [run await]. unfold insert_request.
  cbn [FriendRequest.message FriendRequest._id FriendRequest.sender FriendRequest.recipient].
  destruct (Nat.ltb 200 _); [reflexivity |].
  assert (existsb (fun r' => Nat.eqb (FriendRequest._id r') newId
            || same_pair (FriendRequest.mk newId senderId recipientId FriendRequest.pending
                            (or_string message "") now now) r') (friendrequests s) = true)
    as ->; [| reflexivity].
  apply existsb_exists in Hpair as (r & Hin & Hr).
  apply existsb_exists. exists r. split; [exact Hin |].
  unfold same_pair. cbn [FriendRequest.sender FriendRequest.recipient].
  rewrite Hr. apply orb_true_r.
Qed.

(** With no document of the same [_id] or the same ordered pair, and a
    text of at most 200 characters, the request is created pending. *)
Lemma sendRequest_creates_pending (senderId recipientId newId : ObjectId)
  (message : option string) (now : Date) (s : Store) (sender recipient : User.t) :
  senderId <> recipientId ->
  users s !! recipientId = Some recipient ->
  users s !! senderId = Some sender ->
  includes (User.friends sender) recipientId = false ->
  List.find (pending_between senderId recipientId) (friendrequests s) = None ->
  existsb (fun r => Nat.eqb (FriendRequest._id r) newId
                    || (Nat.eqb (FriendRequest.sender r) senderId
                        && Nat.eqb (FriendRequest.recipient r) recipientId))
          (friendrequests s) = false ->
  (String.length (or_string message "") <= 200)%nat ->
  let friendRequest :=
    FriendRequest.mk newId senderId recipientId FriendRequest.pending
                     (or_string message "") now now in
  route (sendRequest senderId (Some recipientId) message newId now) s =
    (Success 201 (Some "Friend request sent successfully")
             (friendRequest, Some (select_username_avatar senderId sender)),
     mkStore (users s) (friendrequests s ++ [friendRequest]) (messages s)).
Proof.
  intros Hne Hrecipient Hsender Hfriends Hpending Hfree Hlen friendRequest.
  unfold route, sendRequest.
  apply Nat.eqb_neq in Hne. rewrite Hne.
  rewrite run_await_query. unfold findById at 1. rewrite Hrecipient.
  rewrite run_bind. unfold checkExistingRelation.
  rewrite run_await_query. unfold findById at 1. cbn [id_of]. rewrite Hsender, Hfriends.
  rewrite run_await_query, Hpending. cbn [run Relation.is_none Relation.type negb].
  unfold sendRequest_save. rewrite run_bind. cbn [run await]. unfold insert_request.
  cbn [FriendRequest.message FriendRequest._id FriendRequest.sender FriendRequest.recipient].
  apply Nat.ltb_ge in Hlen. rewrite Hlen.
  unfold same_pair. cbn [FriendRequest.sender FriendRequest.recipient].
  rewrite Hfree. cbn [run]. rewrite run_await_query. cbn [run respond].
  unfold populate, findById, set_friendrequests. cbn [users]. by rewrite Hsender.
Qed.

(** C3, at the failing input.  Request 10 from 1 to 2 is rejected.  The
    relation check of a new request from 1 to 2 finds nothing that
    blocks it, and the request is then answered 500 by the unique index
    on the ordered pair, with nothing stored; the same request sent the
    other way, from 2 to 1, is created pending.  The same happens once
    request 10 has been accepted and the friendship removed. *)
Theorem rerequest_same_direction_fails :
  fst (run (checkExistingRelation (AsObjectId 1) (AsString 2))
           (request_1_to_2 FriendRequest.rejected)) =
    inr (Relation.mk Relation.none "No existing relation")
  /\ route (sendRequest 1 (Some 2%nat) (Some "again") 11 9)
           (request_1_to_2 FriendRequest.rejected) =
       (Failure 500 "Server error", request_1_to_2 FriendRequest.rejected)
  /\ (let (r, s) := route (sendRequest 2 (Some 1%nat) (Some "again") 11 9)
                          (request_1_to_2 FriendRequest.rejected) in
      reply_code r = 201%nat
      /\ friendrequests s =
           [FriendRequest.mk 10 1 2 FriendRequest.rejected "hi" 5 5;
            FriendRequest.mk 11 2 1 FriendRequest.pending "again" 9 9])
  /\ (let accepted := snd (route (accept 10 2 6) (request_1_to_2 FriendRequest.pending)) in
      let removed := snd (route (removeFriend 1 2) accepted) in
      friends_of accepted 1 = [2%nat] /\ friends_of accepted 2 = [1%nat]
      /\ friends_of removed 1 = [] /\ friends_of removed 2 = []
      /\ route (sendRequest 1 (Some 2%nat) (Some "again") 11 9) removed =
           (Failure 500 "Server error", removed)).
Proof. vm_compute. repeat split; reflexivity. Qed.

(** The relation check called by the route never answers [sent]: the
    route hands it [req.user._id], an ObjectId, and the strict equality
    of a string with an object is false. *)
Lemma route_check_never_sent (senderId recipientId : ObjectId) (s : Store) (r : Relation.t) :
  fst (run (checkExistingRelation (AsObjectId senderId) (AsString recipientId)) s) = inr r ->
  Relation.type r <> Relation.sent.
Proof.
  unfold checkExistingRelation. rewrite run_await_query. cbn [id_of].
  destruct (findById senderId s) as [u |]; [| discriminate].
  destruct (includes (User.friends u) recipientId).
  - cbn. intros [= <-]. discriminate.
  - rewrite run_await_query.
    destruct (List.find _ _); cbn; intros [= <-]; discriminate.
Qed.

(** C8, as amended.  When the insertion of a new friend request is
    refused by the unique index (the ordered pair is already that of a
    stored request), the handler stops there: the caller gets the
    generic 500 'Server error' of the handler's [catch], not a conflict
    message and nothing of the storage error, and the store is
    unchanged. *)
Theorem duplicate_key_is_server_error (friendRequest : FriendRequest.t) (s : Store) :
  existsb (same_pair friendRequest) (friendrequests s) = true ->
  exists e : Exn,
    step (sendRequest_save friendRequest) s = (Throw e, s)
    /\ response (Throw e : Async (Reply Populated)) = Some (Failure 500 "Server error")
    /\ route (sendRequest_save friendRequest) s = (Failure 500 "Server error", s).
Proof.
  intros Hdup.
  assert (exists e, insert_request friendRequest s = (inl e, s)) as [e He].
  { unfold insert_request. destruct (Nat.ltb 200 _); [by eexists |].
    assert (existsb (fun r' => Nat.eqb (FriendRequest._id r') (FriendRequest._id friendRequest)
                               || same_pair friendRequest r') (friendrequests s) = true) as ->.
    { apply existsb_exists in Hdup as (r & Hin & Hr).
      apply existsb_exists. exists r. split; [exact Hin |]. rewrite Hr. apply orb_true_r. }
    by eexists. }
  exists e. unfold route, sendRequest_save. cbn [bind await step run]. rewrite He.
  by repeat split.
Qed.

Lemma duplicate_key_is_server_error_witness :
  exists e : Exn,
    step (sendRequest_save (FriendRequest.mk 11 1 2 FriendRequest.pending "" 6 6))
         (request_1_to_2 FriendRequest.pending) =
      (Throw e, request_1_to_2 FriendRequest.pending)
    /\ response (Throw e : Async (Reply Populated)) = Some (Failure 500 "Server error")
    /\ route (sendRequest_save (FriendRequest.mk 11 1 2 FriendRequest.pending "" 6 6))
             (request_1_to_2 FriendRequest.pending) =
         (Failure 500 "Server error", request_1_to_2 FriendRequest.pending).
Proof.
  exact (duplicate_key_is_server_error
           (FriendRequest.mk 11 1 2 FriendRequest.pending "" 6 6)
           (request_1_to_2 FriendRequest.pending) eq_refl).
Defined.

(** C8, the counterexample.  User 1 sends user 2 the same request twice
    at once.  Both requests pass the relation check before either is
    saved; the first is created, the second is refused by the unique
    index and answered 500 'Server error', where the relation check, on
    the store as it then is, blocks the request with a conflict message
    of its own. *)
Lemma duplicate_request_race :
  let (pool, s) :=
    interleave [0; 0; 0; 1; 1; 1; 0; 0; 1]%nat
      [sendRequest 1 (Some 2%nat) None 11 5; sendRequest 1 (Some 2%nat) None 12 6]
      (mkStore alice_and_bob [] []) in
  map (fun p => (fun r => (reply_code r, reply_message r)) <$> response p) pool =
    [Some (201%nat, Some "Friend request sent successfully");
     Some (500%nat, Some "Server error")]
  /\ friendrequests s = [FriendRequest.mk 11 1 2 FriendRequest.pending "" 5 5]
  /\ exists r : Relation.t,
       fst (run (checkExistingRelation (AsObjectId 1) (AsString 2)) s) = inr r
       /\ Relation.is_none r = false
       /\ Relation.message r <> "Server error".
Proof.
  vm_compute. split; [reflexivity |]. split; [reflexivity |].
  eexists. split; [reflexivity |]. split; [reflexivity | discriminate].
Qed.

(** A request that passes the relation check comes, after its three
    reads, to the save; what other requests do to the store between the
    reads and the save is not seen by it. *)
Lemma sendRequest_reaches_save (senderId recipientId newId : ObjectId)
  (message : option string) (now : Date) (s : Store) (sender recipient : User.t) :
  senderId <> recipientId ->
  users s !! recipientId = Some recipient ->
  users s !! senderId = Some sender ->
  includes (User.friends sender) recipientId = false ->
  List.find (pending_between senderId recipientId) (friendrequests s) = None ->
  interleave [0; 0; 0]%nat [sendRequest senderId (Some recipientId) message newId now] s =
    ([sendRequest_save
        (FriendRequest.mk newId senderId recipientId FriendRequest.pending
                          (or_string message "") now now)], s).
Proof.
  intros Hne Hrecipient Hsender Hfriends Hpending.
  unfold sendRequest. apply Nat.eqb_neq in Hne. rewrite Hne.
  cbn [interleave step_nth bind await step query]. unfold findById at 1. rewrite Hrecipient.
  unfold checkExistingRelation.
  cbn [interleave step_nth bind await step query id_of]. unfold findById at 1.
  rewrite Hsender, Hfriends.
  cbn [interleave step_nth bind await step query]. rewrite Hpending.
  reflexivity.
Qed.

(** ** Accepting a request *)

(** C2, at the failing input.  Request 10 from 1 to 2 is pending and
    user 2 accepts it twice at once.  Each request runs its [findOne]
    before the other runs its [save]: both find the request pending,
    and both are answered 200; neither fails not-found.  (The two
    [$addToSet] of each leave 1 and 2 in each other's friends once.) *)
Theorem concurrent_accepts_both_succeed :
  let (pool, s) :=
    interleave [0; 1; 0; 1; 0; 1; 0; 1; 0; 1]%nat
      [accept 10 2 7; accept 10 2 8] (request_1_to_2 FriendRequest.pending) in
  map (fun p => (fun r => (reply_code r, reply_message r)) <$> response p) pool =
    [Some (200%nat, Some "Friend request accepted");
     Some (200%nat, Some "Friend request accepted")]
  /\ friends_of s 1 = [2%nat] /\ friends_of s 2 = [1%nat].
Proof. vm_compute. repeat split; reflexivity. Qed.

(** The same on any store: once both requests have found the request
    pending, both go through to their 200, whatever the store. *)
Lemma interleaved_accepts_both_succeed (requestId userId : ObjectId) (now now' : Date)
  (s : Store) (r : FriendRequest.t) :
  List.find (pending_for requestId userId) (friendrequests s) = Some r ->
  map (fun p => (fun r => (reply_code r, reply_message r)) <$> response p)
      (fst (interleave [0; 1; 0; 1; 0; 1; 0; 1; 0; 1]%nat
              [accept requestId userId now; accept requestId userId now'] s)) =
    [Some (200%nat, Some "Friend request accepted");
     Some (200%nat, Some "Friend request accepted")].
Proof.
  intros Hfind. unfold accept.
  cbn [interleave step_nth step bind await query]. rewrite Hfind.
  cbn [interleave step_nth step bind await query update save_status set_friendrequests
       friendrequests].
  reflexivity.
Qed.

(** Run one after the other, the second accept fails not-found. *)
Lemma accept_twice_in_sequence (requestId userId : ObjectId) (now now' : Date)
  (s s' : Store) (code : nat) (message : option string) (data : Populated) :
  route (accept requestId userId now) s = (Success code message data, s') ->
  route (accept requestId userId now') s' = (Failure 404 "Friend request not found", s').
Proof.
  unfold route, accept. rewrite !run_await_query.
  destruct (List.find (pending_for requestId userId) (friendrequests s)) as [r |] eqn:Hfind;
    [| discriminate].
  apply find_some in Hfind as [_ Hr].
  unfold pending_for in Hr. apply andb_prop in Hr as [Hr _]. apply andb_prop in Hr as [Hid _].
  apply Nat.eqb_eq in Hid.
  rewrite !run_await_update, run_await_query. cbn [run respond with_status FriendRequest._id].
  intros [= _ _ _ <-]. rewrite Hid.
  cbn [friendrequests addToSet_friends save_status set_users set_friendrequests].
  assert (List.find (pending_for requestId userId)
            (map (fun r0 => if Nat.eqb (FriendRequest._id r0) requestId
                            then with_status FriendRequest.accepted now r0 else r0)
                 (friendrequests s)) = None) as ->; [| reflexivity].
  induction (friendrequests s) as [| r0 l IH]; [reflexivity |].
  cbn [map List.find]. destruct (Nat.eqb (FriendRequest._id r0) requestId) eqn:E.
  - unfold pending_for at 1, FriendRequest.is_pending. cbn [with_status FriendRequest.status].
    rewrite andb_false_r. exact IH.
  - unfold pending_for at 1. rewrite E. exact IH.
Qed.

(** The sibling route is one storage operation: of two rejects of the
    same request at once, whichever runs first succeeds and the other
    fails not-found. *)
Lemma concurrent_rejects_one_succeeds :
  (let (pool, _) :=
     interleave [0; 1]%nat [reject 10 2 7; reject 10 2 8]
                (request_1_to_2 FriendRequest.pending) in
   map (fun p => reply_code <$> response p) pool = [Some 200%nat; Some 404%nat])
  /\ (let (pool, _) :=
        interleave [1; 0]%nat [reject 10 2 7; reject 10 2 8]
                   (request_1_to_2 FriendRequest.pending) in
      map (fun p => reply_code <$> response p) pool = [Some 404%nat; Some 200%nat]).
Proof. vm_compute. split; reflexivity. Qed.

(** *** [$addToSet] *)

Lemma includes_In (l : list nat) (x : nat) : includes l x = true <-> In x l.
Proof.
  unfold includes. rewrite existsb_exists. split.
  - intros (y & Hin & Hy). apply Nat.eqb_eq in Hy. by subst.
  - intros Hin. exists x. split; [exact Hin | apply Nat.eqb_refl].
Qed.

Lemma includes_not_In (l : list nat) (x : nat) : includes l x = false <-> ~ In x l.
Proof.
  rewrite <- includes_In. destruct (includes l x); split; intros H; congruence.
Qed.

Lemma addToSet_In (x y : nat) (l : list nat) : In y (addToSet x l) <-> y = x \/ In y l.
Proof.
  unfold addToSet. destruct (includes l x) eqn:E.
  - apply includes_In in E. split; [by right | intros [-> | H]; done].
  - rewrite in_app_iff. simpl. split; intros H; [ | ].
    + destruct H as [H | [H | []]]; [by right | by left].
    + destruct H as [-> | H]; [right; by left | by left].
Qed.

Lemma addToSet_present (x : nat) (l : list nat) : In x l -> addToSet x l = l.
Proof. intros H. unfold addToSet. apply includes_In in H. by rewrite H. Qed.

Lemma addToSet_idempotent (x : nat) (l : list nat) :
  addToSet x (addToSet x l) = addToSet x l.
Proof. apply addToSet_present, addToSet_In. by left. Qed.

Lemma addToSet_NoDup (x : nat) (l : list nat) : List.NoDup l -> List.NoDup (addToSet x l).
Proof.
  intros Hnd. unfold addToSet. destruct (includes l x) eqn:E; [exact Hnd |].
  apply includes_not_In in E.
  apply Permutation.Permutation_NoDup with (l := x :: l).
  - apply Permutation.Permutation_cons_append.
  - by constructor.
Qed.

Lemma addToSet_once (x : nat) (l : list nat) :
  List.NoDup l -> count_occ Nat.eq_dec (addToSet x l) x = 1%nat.
Proof.
  intros Hnd.
  assert (List.NoDup (addToSet x l)) as Hnd' by by apply addToSet_NoDup.
  assert (In x (addToSet x l)) as Hin by (apply addToSet_In; by left).
  pose proof (proj1 (NoDup_count_occ Nat.eq_dec _) Hnd' x) as Hle.
  apply (count_occ_In Nat.eq_dec) in Hin. lia.
Qed.

(** *** The friends after [findByIdAndUpdate(... $addToSet ...)] *)

Lemma friends_of_addToSet_friends (s : Store) (id x j : nat) :
  friends_of (addToSet_friends id x s) j =
    if decide (j = id) then
      match users s !! id with
      | Some _ => addToSet x (friends_of s id)
      | None => []
      end
    else friends_of s j.
Proof.
  unfold friends_of, addToSet_friends, set_users. cbn [users].
  rewrite lookup_alter. case_decide as Hj; case_decide as Hj'; try congruence.
  subst j. by destruct (users s !! id).
Qed.

Lemma users_addToSet_friends (s : Store) (id x j : nat) :
  is_Some (users (addToSet_friends id x s) !! j) <-> is_Some (users s !! j).
Proof.
  unfold addToSet_friends, set_users. cbn [users]. rewrite lookup_alter.
  case_decide; [subst; by rewrite fmap_is_Some | done].
Qed.

Lemma friends_of_save_status (s : Store) (id : nat) (st : FriendRequest.Status)
  (now : Z) (j : nat) :
  friends_of (save_status id st now s) j = friends_of s j.
Proof. reflexivity. Qed.

(** What a successful accept found and did. *)
Lemma accept_success (requestId userId : ObjectId) (now : Date) (s s' : Store)
  (code : nat) (message : option string) (data : Populated) :
  route (accept requestId userId now) s = (Success code message data, s') ->
  exists r : FriendRequest.t,
    In r (friendrequests s)
    /\ FriendRequest._id r = requestId
    /\ FriendRequest.recipient r = userId
    /\ FriendRequest.status r = FriendRequest.pending
    /\ fst data = with_status FriendRequest.accepted now r
    /\ s' = addToSet_friends (FriendRequest.sender r) userId
              (addToSet_friends userId (FriendRequest.sender r)
                 (save_status requestId FriendRequest.accepted now s)).
Proof.
  unfold route, accept. rewrite run_await_query.
  destruct (List.find (pending_for requestId userId) (friendrequests s)) as [r |] eqn:Hfind;
    [| discriminate].
  apply find_some in Hfind as [Hin Hr].
  unfold pending_for, FriendRequest.is_pending in Hr.
  apply andb_prop in Hr as [Hr Hst]. apply andb_prop in Hr as [Hid Hrc].
  apply Nat.eqb_eq in Hid, Hrc.
  rewrite !run_await_update, run_await_query. cbn [run respond with_status
    FriendRequest._id FriendRequest.sender].
  intros [= _ _ <- <-]. exists r. rewrite Hid.
  repeat split; try done. by destruct (FriendRequest.status r).
Qed.

Lemma friends_of_NoDup (s : Store) (id : ObjectId) :
  consistent s -> List.NoDup (friends_of s id).
Proof.
  intros Hc. unfold friends_of. destruct (users s !! id) as [u |] eqn:E.
  - by apply (friends_nodup s Hc id).
  - constructor.
Qed.

(** The two [$addToSet] of accept, on users that exist. *)
Lemma friends_after_accept (s : Store) (u S j : ObjectId) :
  is_Some (users s !! u) -> is_Some (users s !! S) ->
  friends_of (addToSet_friends S u (addToSet_friends u S s)) j =
    if decide (j = u) then addToSet S (friends_of s u)
    else if decide (j = S) then addToSet u (friends_of s S)
    else friends_of s j.
Proof.
  intros [uu Hu] [uS HS].
  rewrite !friends_of_addToSet_friends.
  assert (is_Some (users (addToSet_friends u S s) !! S)) as [uS' HS'].
  { apply users_addToSet_friends. by eexists. }
  rewrite HS', Hu.
  repeat case_decide; subst; try congruence.
  apply addToSet_idempotent.
Qed.

(** C7.  After a successful accept the request's sender is in the
    acting user's friends and the acting user in the sender's, each
    exactly once; each friends array is the old one with the other
    party added as to a set, so it is unchanged when the other party was
    in it already; nobody else's friends change; and a symmetric
    friends relation stays symmetric. *)
Theorem accept_adds_each_to_the_other
  (requestId userId : ObjectId) (now : Date) (s s' : Store)
  (code : nat) (message : option string) (data : Populated) :
  consistent s ->
  route (accept requestId userId now) s = (Success code message data, s') ->
  let sender := FriendRequest.sender (fst data) in
  count_occ Nat.eq_dec (friends_of s' userId) sender = 1%nat
  /\ count_occ Nat.eq_dec (friends_of s' sender) userId = 1%nat
  /\ (forall x, In x (friends_of s' userId) <-> x = sender \/ In x (friends_of s userId))
  /\ (forall x, In x (friends_of s' sender) <-> x = userId \/ In x (friends_of s sender))
  /\ (In sender (friends_of s userId) -> friends_of s' userId = friends_of s userId)
  /\ (In userId (friends_of s sender) -> friends_of s' sender = friends_of s sender)
  /\ (forall j, j <> userId -> j <> sender -> friends_of s' j = friends_of s j)
  /\ (symmetric s -> symmetric s').
Proof.
  intros Hc Hrun sender.
  apply accept_success in Hrun as (r & Hin & Hid & Hrc & Hst & Hdata & ->).
  assert (sender = FriendRequest.sender r) as Hsender by (unfold sender; by rewrite Hdata).
  clearbody sender. subst sender.
  destruct (requests_exist s Hc r Hin) as [HS Hu]. rewrite Hrc in Hu.
  set (S := FriendRequest.sender r) in *.
  assert (forall j,
    friends_of (addToSet_friends S userId
                  (addToSet_friends userId S
                     (save_status requestId FriendRequest.accepted now s))) j =
    if decide (j = userId) then addToSet S (friends_of s userId)
    else if decide (j = S) then addToSet userId (friends_of s S)
    else friends_of s j) as Hfr.
  { intros j. by rewrite friends_after_accept. }
  pose proof (Hfr userId) as HfrU. pose proof (Hfr S) as HfrS.
  rewrite decide_True in HfrU by done.
  assert (friends_of (addToSet_friends S userId
                  (addToSet_friends userId S
                     (save_status requestId FriendRequest.accepted now s))) S
          = addToSet userId (friends_of s S)) as HfrS'.
  { rewrite HfrS. case_decide as E; [| by rewrite decide_True].
    by rewrite E. }
  clear HfrS.
  split. { rewrite HfrU. apply addToSet_once, friends_of_NoDup, Hc. }
  split. { rewrite HfrS'. apply addToSet_once, friends_of_NoDup, Hc. }
  split. { intros x. rewrite HfrU. apply addToSet_In. }
  split. { intros x. rewrite HfrS'. apply addToSet_In. }
  split. { intros Hpresent. rewrite HfrU. by apply addToSet_present. }
  split. { intros Hpresent. rewrite HfrS'. by apply addToSet_present. }
  split. { intros j Hj1 Hj2. rewrite Hfr. rewrite !decide_False by done. reflexivity. }
  intros Hsym a b Hb.
  assert (forall j x, In x (friends_of s j) ->
            In x (friends_of (addToSet_friends S userId
                  (addToSet_friends userId S
                     (save_status requestId FriendRequest.accepted now s))) j)) as Hmono.
  { intros j x Hx. rewrite Hfr. repeat case_decide; subst; try done;
      apply addToSet_In; by right. }
  destruct (decide (a = userId)) as [-> | Ha].
  - rewrite HfrU in Hb. apply addToSet_In in Hb as [-> | Hb].
    + rewrite HfrS'. apply addToSet_In. by left.
    + by apply Hmono, Hsym.
  - destruct (decide (a = S)) as [-> | Ha'].
    + rewrite HfrS' in Hb. apply addToSet_In in Hb as [-> | Hb].
      * rewrite HfrU. apply addToSet_In. by left.
      * by apply Hmono, Hsym.
    + rewrite Hfr in Hb. rewrite !decide_False in Hb by done.
      by apply Hmono, Hsym.
Qed.

(** *** Checking consistency of a given store *)

Lemma nodupb_NoDup (l : list nat) : nodupb l = true -> List.NoDup l.
Proof.
  induction l as [| x l IH]; simpl; [constructor |].
  intros H. apply andb_prop in H as [Hx Hl]. constructor; [| by apply IH].
  apply includes_not_In. by destruct (includes l x).
Qed.

Lemma is_user_is_Some (s : Store) (id : ObjectId) :
  is_user s id = true <-> is_Some (users s !! id).
Proof.
  unfold is_user. destruct (users s !! id) as [u |].
  - split; [by eexists | done].
  - split; [done | by intros [? ?]].
Qed.

Lemma consistentb_sound (s : Store) : consistentb s = true -> consistent s.
Proof.
  unfold consistentb. intros H.
  apply andb_prop in H as [H Hm]. apply andb_prop in H as [Hu Hr].
  rewrite forallb_forall in Hu, Hr, Hm.
  assert (forall id u, users s !! id = Some u ->
            nodupb (User.friends u) && forallb (is_user s) (User.friends u) = true) as Hu'.
  { intros id u Hid. apply (Hu (id, u)). apply list_elem_of_In.
    by apply elem_of_map_to_list. }
  split.
  - intros id u Hid. apply nodupb_NoDup. by destruct (andb_prop _ _ (Hu' id u Hid)).
  - intros id u f Hid Hf. apply is_user_is_Some.
    destruct (andb_prop _ _ (Hu' id u Hid)) as [_ Hall].
    rewrite forallb_forall in Hall. by apply Hall.
  - intros r Hin. destruct (andb_prop _ _ (Hr r Hin)).
    split; by apply is_user_is_Some.
  - intros m Hin. destruct (andb_prop _ _ (Hm m Hin)).
    split; by apply is_user_is_Some.
Qed.

Lemma accept_adds_each_to_the_other_witness :
  let s := request_1_to_2 FriendRequest.pending in
  let s' := snd (route (accept 10 2 6) s) in
  count_occ Nat.eq_dec (friends_of s' 2) 1%nat = 1%nat
  /\ count_occ Nat.eq_dec (friends_of s' 1) 2%nat = 1%nat
  /\ (forall x, In x (friends_of s' 2) <-> x = 1%nat \/ In x (friends_of s 2))
  /\ (forall x, In x (friends_of s' 1) <-> x = 2%nat \/ In x (friends_of s 1))
  /\ (In 1%nat (friends_of s 2) -> friends_of s' 2 = friends_of s 2)
  /\ (In 2%nat (friends_of s 1) -> friends_of s' 1 = friends_of s 1)
  /\ (forall j, j <> 2%nat -> j <> 1%nat -> friends_of s' j = friends_of s j)
  /\ (symmetric s -> symmetric s').
Proof.
  intros s s'.
  assert (consistent s) as Hc by (apply consistentb_sound; vm_compute; reflexivity).
  assert (route (accept 10 2 6) s =
            (Success 200 (Some "Friend request accepted")
               (FriendRequest.mk 10 1 2 FriendRequest.accepted "hi" 5 6,
                Some (mkProfile 1 "alice" None "" (Some "") None None)), s')) as Hrun
    by (vm_compute; reflexivity).
  exact (accept_adds_each_to_the_other 10 2 6 s s' 200 (Some "Friend request accepted")
           (FriendRequest.mk 10 1 2 FriendRequest.accepted "hi" 5 6,
            Some (mkProfile 1 "alice" None "" (Some "") None None)) Hc Hrun).
Defined.

(** ** Conversations (routes/messages.js) *)

Lemma unread_from_spec (B A : ObjectId) (m : Message.t) :
  unread_from B A m = true <->
  Message.sender m = B /\ Message.recipient m = A /\ Message.isRead m = false.
Proof.
  unfold unread_from. rewrite !andb_true_iff, !Nat.eqb_eq, negb_true_iff. tauto.
Qed.

Lemma updateMany_read_on_fetch (A B : ObjectId) (now : Date) (l : list Message.t) :
  Forall2 (read_on_fetch A B now) l
    (map (fun m => if unread_from B A m then mark_read now m else m) l).
Proof.
  induction l as [| m l IH]; [constructor |]. cbn [map]. constructor; [| exact IH].
  destruct (unread_from B A m) eqn:E.
  - apply unread_from_spec in E as (Hs & Hr & Hu). split.
    + intros _ _ _. by repeat split.
    + intros Hnot. destruct Hnot. by repeat split.
  - split.
    + intros Hs Hr Hu.
      assert (unread_from B A m = true) by by apply unread_from_spec. congruence.
    + done.
Qed.

Lemma updateMany_countUnread (A B : ObjectId) (now : Date) (l : list Message.t) :
  countUnread A (map (fun m => if unread_from B A m then mark_read now m else m) l) =
  length (List.filter (unread_not_from A B) l).
Proof.
  unfold countUnread. induction l as [| m l IH]; [reflexivity |].
  cbn [map List.filter]. unfold unread_not_from at 1.
  destruct (unread_from B A m) eqn:E.
  - apply unread_from_spec in E as (Hs & Hr & Hu).
    cbn [mark_read Message.recipient Message.isRead negb]. rewrite andb_false_r.
    apply Nat.eqb_eq in Hs. rewrite Hs. cbn [negb]. rewrite andb_false_r. exact IH.
  - destruct (Nat.eqb (Message.recipient m) A && negb (Message.isRead m)) eqn:E1.
    + assert (Nat.eqb (Message.sender m) B = false) as ->.
      { destruct (Nat.eqb (Message.sender m) B) eqn:E2; [| reflexivity].
        unfold unread_from in E. rewrite E2 in E.
        apply andb_prop in E1 as [E3 E4]. by rewrite E3, E4 in E. }
      cbn [negb andb length]. by rewrite IH.
    + cbn [andb]. exact IH.
Qed.

Lemma updateMany_all_read (A B : ObjectId) (now : Date) (l : list Message.t) (m' : Message.t) :
  In m' (map (fun m => if unread_from B A m then mark_read now m else m) l) ->
  Message.sender m' = B -> Message.recipient m' = A -> Message.isRead m' = true.
Proof.
  intros Hin Hs Hr. apply in_map_iff in Hin as (m & <- & _).
  destruct (unread_from B A m) eqn:E; [reflexivity |].
  destruct (Message.isRead m) eqn:Hread; [reflexivity |].
  assert (unread_from B A m = true) by by apply unread_from_spec. congruence.
Qed.

(** The route, for friends and a window the store accepts. *)
Lemma conversation_run (A B : ObjectId) (page limit : option Z) (now : Date)
  (s : Store) (uA : User.t) :
  users s !! A = Some uA ->
  includes (User.friends uA) B = true ->
  0 <= (or_int page 1 - 1) * or_int limit 50 ->
  exists payload,
    route (conversation A B page limit now) s =
      (Success 200 None payload,
       mkStore (users s) (friendrequests s)
               (map (fun m => if unread_from B A m then mark_read now m else m)
                    (messages s))).
Proof.
  intros HA Hfriends Hskip. unfold route, conversation.
  rewrite run_await_query. unfold findById at 1. rewrite HA, Hfriends. cbn [negb].
  cbn [bind await run]. unfold window.
  apply Z.ltb_ge in Hskip. rewrite Hskip. cbn [run update updateMany set_messages respond].
  by eexists.
Qed.

(** A negative [skip] is refused by the store before anything is marked. *)
Lemma conversation_negative_skip (A B : ObjectId) (page limit : option Z) (now : Date)
  (s : Store) (uA : User.t) :
  users s !! A = Some uA ->
  includes (User.friends uA) B = true ->
  (or_int page 1 - 1) * or_int limit 50 < 0 ->
  route (conversation A B page limit now) s = (Failure 500 "Server error", s).
Proof.
  intros HA Hfriends Hskip. unfold route, conversation.
  rewrite run_await_query. unfold findById at 1. rewrite HA, Hfriends. cbn [negb].
  cbn [bind await run]. unfold window.
  apply Z.ltb_lt in Hskip. by rewrite Hskip.
Qed.

(** C4, as amended.  For friends [A] and [B] and a requested window
    the store accepts ([(page - 1) * limit >= 0], as for every page from
    1 on with a limit from 1 on), fetching the conversation answers 200
    and afterwards every message from [B] to [A] that was unread is
    read, with [readAt] set, whichever page was asked for; every other
    message, the users and the friend requests are unchanged; the unread
    count of [A] is the number of unread messages to [A] from others
    than [B]. *)
Theorem conversation_marks_all_unread (A B : ObjectId) (page limit : option Z)
  (now : Date) (s : Store) (uA : User.t) :
  users s !! A = Some uA ->
  includes (User.friends uA) B = true ->
  0 <= (or_int page 1 - 1) * or_int limit 50 ->
  reply_code (fst (route (conversation A B page limit now) s)) = 200%nat
  /\ users (snd (route (conversation A B page limit now) s)) = users s
  /\ friendrequests (snd (route (conversation A B page limit now) s)) = friendrequests s
  /\ Forall2 (read_on_fetch A B now) (messages s)
             (messages (snd (route (conversation A B page limit now) s)))
  /\ (forall m', In m' (messages (snd (route (conversation A B page limit now) s))) ->
                 Message.sender m' = B -> Message.recipient m' = A ->
                 Message.isRead m' = true)
  /\ countUnread A (messages (snd (route (conversation A B page limit now) s))) =
       length (List.filter (unread_not_from A B) (messages s)).
Proof.
  intros HA Hfriends Hskip.
  destruct (conversation_run A B page limit now s uA HA Hfriends Hskip) as [payload ->].
  cbn [fst snd reply_code users friendrequests messages].
  repeat split.
  - apply updateMany_read_on_fetch.
  - apply updateMany_all_read.
  - apply updateMany_countUnread.
Qed.

Lemma conversation_marks_all_unread_witness :
  let s' := snd (route (conversation 1 2 (Some 1) (Some 1) 9) chat) in
  reply_code (fst (route (conversation 1 2 (Some 1) (Some 1) 9) chat)) = 200%nat
  /\ users s' = users chat
  /\ friendrequests s' = friendrequests chat
  /\ Forall2 (read_on_fetch 1 2 9) (messages chat) (messages s')
  /\ (forall m', In m' (messages s') ->
                 Message.sender m' = 2%nat -> Message.recipient m' = 1%nat ->
                 Message.isRead m' = true)
  /\ countUnread 1 (messages s') = length (List.filter (unread_not_from 1 2) (messages chat)).
Proof.
  exact (conversation_marks_all_unread 1 2 (Some 1) (Some 1) 9 chat
           (User.mk "alice" "" "" "" [2%nat] "online" 0) eq_refl eq_refl
           (Z.le_refl 0)).
Defined.

(** One page of one message is sent back, and the three unread messages
    of the conversation are marked. *)
Example conversation_first_page :
  let (r, s') := route (conversation 1 2 (Some 1) (Some 1) 9) chat in
  (exists sender,
     r = Success 200 None
           ([(Message.mk 104 1 2 "d" Message.text false None false None 4 4, sender)],
            mkPagination 1 1 true))
  /\ map (fun m => (Message._id m, Message.isRead m, Message.readAt m)) (messages s') =
       [(101%nat, true, Some 9); (102%nat, true, Some 9); (103%nat, true, Some 9);
        (104%nat, false, None); (105%nat, false, None)]
  /\ countUnread 1 (messages chat) = 4%nat
  /\ countUnread 1 (messages s') = 1%nat.
Proof. vm_compute. split; [by eexists | by repeat split]. Qed.

(** C4, the counterexample.  Users 1 and 2 are friends and user 1
    fetches the conversation with [page=-1]: the store refuses the
    negative skip, the route answers 500, and the three messages of 2
    to 1 stay unread. *)
Lemma conversation_negative_page :
  route (conversation 1 2 (Some (-1)) None 9) chat = (Failure 500 "Server error", chat)
  /\ friends_of chat 1 = [2%nat]
  /\ map (fun m => (Message._id m, Message.isRead m))
         (List.filter (fun m => Nat.eqb (Message.sender m) 2 && Nat.eqb (Message.recipient m) 1)
                      (messages (snd (route (conversation 1 2 (Some (-1)) None 9) chat)))) =
       [(101%nat, false); (102%nat, false); (103%nat, false)].
Proof. vm_compute. by repeat split. Qed.

(** ** User search (routes/users.js) *)


Lemma matches_at_literal (q u : string) :
  matches_at (map Lit (list_ascii_of_string q)) u = true <->
  exists post : string, lowercase u = (lowercase q ++ post)%string.
Proof.
  revert u. induction q as [| c q IH]; intros u.
  - cbn. split; [intros _; by exists (lowercase u) | done].
  - cbn [list_ascii_of_string map matches_at lowercase String.append].
    destruct u as [| d u].
    + split; [done | intros [post H]; discriminate H].
    + cbn [atom_matches lowercase]. rewrite andb_true_iff, Ascii.eqb_eq, IH. split.
      * intros [Hc [post Hpost]]. exists post. by rewrite Hc, Hpost.
      * intros [post [= Hc Hpost]]. split; [done | by exists post].
Qed.

(** Searching for a pattern of literals is containment, ignoring case. *)
Lemma regex_search_literal (q u : string) :
  regex_search (map Lit (list_ascii_of_string q)) u = true <->
  contains_ignoring_case q u.
Proof.
  unfold contains_ignoring_case. induction u as [| d u IH].
  - cbn [regex_search]. rewrite orb_false_r, matches_at_literal. split.
    + intros [post H]. by exists EmptyString, post.
    + intros (pre & post & H). destruct pre; [by exists post | discriminate H].
  - cbn [regex_search]. rewrite orb_true_iff, matches_at_literal, IH. split.
    + intros [[post H] | (pre & post & H)].
      * by exists EmptyString, post.
      * exists (String (to_lower d) pre), post. cbn [lowercase String.append]. by rewrite H.
    + intros (pre & post & H). destruct pre as [| a pre].
      * left. by exists post.
      * right. exists pre, post. cbn [lowercase String.append] in H. by injection H.
Qed.

Lemma In_firstn {A : Type} (n : nat) (l : list A) (x : A) : In x (firstn n l) -> In x l.
Proof.
  intros H. rewrite <- (firstn_skipn n l). apply in_or_app. by left.
Qed.





(** *** The order of the users found *)







(** The search for [Al] by user 1, who is [alice], finds [Alan] only;
    the same search by user 2 finds [alice] and then [Alan]. *)
Example search_Al :
  match search 1 (Some " Al "), search 2 (Some " Al ") with
  | Some h1, Some h2 =>
      fst (route h1 people) =
        Success 200 None [select_profile 4 (User.mk "Alan" "" "" "" [] "online" 0)]
      /\ fst (route h2 people) =
           Success 200 None [select_profile 1 (User.mk "alice" "" "" "" [] "online" 0);
                             select_profile 4 (User.mk "Alan" "" "" "" [] "online" 0)]
  | _, _ => False
  end.
Proof. vm_compute. by split. Qed.

(** A query ending in a no-break space is trimmed of it. *)
Example search_trims_no_break_space :
  search 1 (Some (String "a" (String (ascii_of_nat 160) EmptyString))) =
    Some (Return (Failure 400 "Search query must be at least 2 characters long")).
Proof. vm_compute. reflexivity. Qed.

(** C9, at the failing input.  The route's comment says
    [case-insensitive, partial match], and the query [a.c] is handed to
    the store unescaped, as a pattern: the user named [abc] is among
    those found, and [abc] does not contain [a.c], ignoring case or not;
    the user named [A.C], who is found too, does. *)
Theorem search_dot_matches_any :
  match search 1 (Some "a.c") with
  | Some h =>
      route h people =
        (Success 200 None
           [select_profile 2 (User.mk "abc" "" "" "" [] "online" 0);
            select_profile 3 (User.mk "A.C" "" "" "" [] "online" 0)],
         people)
  | None => False
  end
  /\ users people !! 2%nat = Some (User.mk "abc" "" "" "" [] "online" 0)
  /\ ~ contains_ignoring_case "a.c" "abc"
  /\ contains_ignoring_case "a.c" "A.C".
Proof.
  split; [vm_compute; reflexivity |]. split; [vm_compute; reflexivity |]. split.
  - intros H. apply regex_search_literal in H. vm_compute in H. discriminate H.
  - by exists EmptyString, EmptyString.
Qed.

(** ** Conversation summaries (the aggregation of routes/messages.js) *)

(** *** [$sort] *)

Section Sort.
Context {A : Type} (key : A -> Date).

Lemma insert_desc_perm (x : A) (l : list A) : Permutation (insert_desc key x l) (x :: l).
Proof.
  induction l as [| y l IH]; [reflexivity |]. cbn [insert_desc].
  destruct (Z.leb (key y) (key x)); [reflexivity |].
  rewrite IH. apply perm_swap.
Qed.

Lemma sort_desc_perm (l : list A) : Permutation (sort_desc key l) l.
Proof.
  induction l as [| x l IH]; [reflexivity |]. unfold sort_desc in *. cbn [fold_right].
  rewrite insert_desc_perm. by constructor.
Qed.

Lemma sort_desc_In (l : list A) (x : A) : In x (sort_desc key l) <-> In x l.
Proof.
  split; apply Permutation_in; [| symmetry]; apply sort_desc_perm.
Qed.

Lemma insert_desc_sorted (x : A) (l : list A) :
  StronglySorted (newer_first key) l -> StronglySorted (newer_first key) (insert_desc key x l).
Proof.
  induction l as [| y l IH]; intros Hs; cbn [insert_desc].
  - repeat constructor.
  - destruct (Z.leb (key y) (key x)) eqn:E.
    + apply Z.leb_le in E. constructor; [exact Hs |].
      apply StronglySorted_inv in Hs as [_ Hy]. constructor; [exact E |].
      rewrite List.Forall_forall in *. intros z Hz. specialize (Hy z Hz).
      unfold newer_first in *. lia.
    + apply Z.leb_gt in E. apply StronglySorted_inv in Hs as [Hl Hy].
      constructor; [by apply IH |].
      rewrite List.Forall_forall in *. intros z Hz.
      apply (Permutation_in _ (insert_desc_perm x l)) in Hz as [<- | Hz].
      * unfold newer_first. lia.
      * by apply Hy.
Qed.

Lemma sort_desc_sorted (l : list A) : StronglySorted (newer_first key) (sort_desc key l).
Proof.
  induction l as [| x l IH]; [constructor |]. by apply insert_desc_sorted.
Qed.

Lemma sort_desc_filter_length (P : A -> bool) (l : list A) :
  length (List.filter P (sort_desc key l)) = length (List.filter P l).
Proof.
  induction l as [| x l IH]; [reflexivity |].
  unfold sort_desc in *. cbn [fold_right].
  transitivity (length (List.filter P (x :: fold_right (insert_desc key) [] l))).
  - generalize (fold_right (insert_desc key) [] l) as l'. clear IH.
    induction l' as [| y l' IH']; [reflexivity |]. cbn [insert_desc].
    destruct (Z.leb (key y) (key x)); [reflexivity |].
    cbn [List.filter] in *. destruct (P y), (P x); cbn [length] in *; lia.
  - cbn [List.filter]. destruct (P x); cbn [length]; by rewrite IH.
Qed.

(** In a list sorted newest first, the first element with a property
    is a newest one with it. *)
Lemma find_newest (P : A -> bool) (l : list A) (x : A) :
  StronglySorted (newer_first key) l ->
  List.find P l = Some x ->
  In x l /\ P x = true /\ forall y, In y l -> P y = true -> key y <= key x.
Proof.
  intros Hs Hfind. split; [| split]; try by apply find_some in Hfind as [? ?].
  induction l as [| z l IH]; [discriminate |].
  apply StronglySorted_inv in Hs as [Hl Hz]. cbn [List.find] in Hfind.
  destruct (P z) eqn:E.
  - injection Hfind as ->. intros y [<- | Hy] _; [lia |].
    rewrite List.Forall_forall in Hz. by apply Hz.
  - intros y [<- | Hy] Py; [congruence | by apply IH].
Qed.
End Sort.

(** *** [$group] *)

Lemma group_add_ids (U : ObjectId) (m : Message.t) (gs : list Group) :
  map g_id (group_add U m gs) =
    if includes (map g_id gs) (counterpart U m) then map g_id gs
    else map g_id gs ++ [counterpart U m].
Proof.
  induction gs as [| g gs IH]; [reflexivity |].
  cbn [group_add map includes existsb]. fold (includes (map g_id gs) (counterpart U m)).
  rewrite (Nat.eqb_sym (counterpart U m) (g_id g)).
  destruct (Nat.eqb (g_id g) (counterpart U m)); cbn [orb map g_id]; [reflexivity |].
  rewrite IH. by destruct (includes (map g_id gs) (counterpart U m)).
Qed.

Lemma group_add_In (U : ObjectId) (m : Message.t) (gs : list Group) (g' : Group) :
  List.NoDup (map g_id gs) ->
  In g' (group_add U m gs) ->
  (In g' gs /\ g_id g' <> counterpart U m)
  \/ (exists g, In g gs /\ g_id g = counterpart U m
                /\ g' = mkGroup (g_id g) (g_lastMessage g)
                                (g_unreadCount g + unread_summand U m))
  \/ (~ In (counterpart U m) (map g_id gs)
      /\ g' = mkGroup (counterpart U m) m (unread_summand U m)).
Proof.
  induction gs as [| g gs IH]; cbn [group_add map]; intros Hnd.
  - intros [<- | []]. right. right. split; [intros [] | reflexivity].
  - apply NoDup_cons_iff in Hnd as [Hg Hnd].
    destruct (Nat.eqb (g_id g) (counterpart U m)) eqn:E.
    + apply Nat.eqb_eq in E. intros [<- | Hin].
      * right. left. exists g. split; [by left | by split].
      * left. split; [by right |]. intros E'. apply Hg. rewrite E, <- E'.
        by apply in_map.
    + apply Nat.eqb_neq in E. intros [<- | Hin].
      * left. split; [by left | done].
      * destruct (IH Hnd Hin) as [[H1 H2] | [(g0 & H1 & H2 & H3) | [H1 H2]]].
        -- left. split; [by right | done].
        -- right. left. exists g0. split; [by right | by split].
        -- right. right. split; [| done]. intros [H | H]; [done | by apply H1].
Qed.

Lemma find_snoc {A : Type} (P : A -> bool) (l : list A) (x : A) :
  List.find P (l ++ [x]) =
    match List.find P l with
    | Some y => Some y
    | None => if P x then Some x else None
    end.
Proof.
  induction l as [| y l IH]; [reflexivity |]. cbn [app List.find].
  by destruct (P y).
Qed.

Lemma filter_snoc_length {A : Type} (P : A -> bool) (l : list A) (x : A) :
  length (List.filter P (l ++ [x])) =
    (length (List.filter P l) + if P x then 1 else 0)%nat.
Proof.
  rewrite List.filter_app, length_app. cbn [List.filter]. by destruct (P x).
Qed.

Lemma find_none_iff {A : Type} (P : A -> bool) (l : list A) :
  List.find P l = None <-> forall x, In x l -> P x = false.
Proof.
  split; [apply find_none |].
  induction l as [| y l IH]; [reflexivity |]. intros H. cbn [List.find].
  rewrite (H y) by by left. apply IH. intros x Hx. apply H. by right.
Qed.

Lemma forallb_filter_nil {A : Type} (P : A -> bool) (l : list A) :
  forallb (fun x => negb (P x)) l = true -> List.filter P l = [].
Proof.
  induction l as [| x l IH]; [reflexivity |]. cbn [forallb List.filter].
  intros H. apply andb_prop in H as [Hx Hl]. apply negb_true_iff in Hx.
  rewrite Hx. by apply IH.
Qed.

(** One more document through [$group]. *)
Lemma group_add_grouped (U : ObjectId) (docs : list Message.t) (gs : list Group)
  (m : Message.t) :
  grouped U docs gs -> grouped U (docs ++ [m]) (group_add U m gs).
Proof.
  intros [Hnd Hids Hfirst Hcount].
  assert (forall c, In c (map g_id (group_add U m gs)) <->
                    In c (map g_id gs) \/ c = counterpart U m) as Hids'.
  { intros c. rewrite group_add_ids.
    destruct (includes (map g_id gs) (counterpart U m)) eqn:E.
    - apply includes_In in E. split; [by left | intros [H | ->]; done].
    - rewrite in_app_iff. cbn [In]. split; [intros [H | [H | []]] | intros [H | H]]; auto. }
  split.
  - rewrite group_add_ids.
    destruct (includes (map g_id gs) (counterpart U m)) eqn:E; [exact Hnd |].
    apply includes_not_In in E.
    apply Permutation_NoDup with (l := counterpart U m :: map g_id gs).
    + apply Permutation_cons_append.
    + by constructor.
  - intros c. rewrite Hids', Hids. split.
    + intros [(m' & Hin & Hc) | ->].
      * exists m'. split; [apply in_or_app; by left | done].
      * exists m. split; [apply in_or_app; right; by left | done].
    + intros (m' & Hin & Hc). apply in_app_or in Hin as [Hin | [<- | []]].
      * left. by exists m'.
      * by right.
  - intros g' Hin. rewrite find_snoc.
    destruct (group_add_In U m gs g' Hnd Hin)
      as [[H1 H2] | [(g & H1 & H2 & ->) | [H1 ->]]].
    + by rewrite (Hfirst g' H1).
    + cbn [g_id g_lastMessage]. by rewrite (Hfirst g H1).
    + cbn [g_id g_lastMessage].
      assert (List.find (in_group U (counterpart U m)) docs = None) as ->.
      { apply find_none_iff. intros x Hx. unfold in_group. apply Nat.eqb_neq.
        intros E. apply H1, Hids. by exists x. }
      unfold in_group. by rewrite Nat.eqb_refl.
  - intros g' Hin. rewrite filter_snoc_length.
    destruct (group_add_In U m gs g' Hnd Hin)
      as [[H1 H2] | [(g & H1 & H2 & ->) | [H1 ->]]].
    + rewrite (Hcount g' H1).
      assert (unread_in_group U (g_id g') m = false) as ->; [| lia].
      unfold unread_in_group, in_group.
      apply not_eq_sym, Nat.eqb_neq in H2. by rewrite H2.
    + cbn [g_id g_unreadCount]. rewrite (Hcount g H1). f_equal.
      unfold unread_in_group, in_group, unread_summand.
      by rewrite H2, Nat.eqb_refl.
    + cbn [g_id g_unreadCount].
      assert (List.filter (unread_in_group U (counterpart U m)) docs = []) as ->.
      { apply forallb_filter_nil. apply forallb_forall. intros x Hx.
        unfold unread_in_group, in_group.
        assert (Nat.eqb (counterpart U x) (counterpart U m) = false) as ->;
          [| reflexivity].
        apply Nat.eqb_neq. intros E. apply H1, Hids. by exists x. }
      unfold unread_in_group, in_group, unread_summand. by rewrite Nat.eqb_refl.
Qed.

Lemma group_grouped (U : ObjectId) (docs : list Message.t) : grouped U docs (group U docs).
Proof.
  unfold group.
  assert (forall pre gs, grouped U pre gs ->
            grouped U (pre ++ docs) (fold_left (fun gs m => group_add U m gs) docs gs)) as H.
  { induction docs as [| m docs IH]; intros pre gs Hg; cbn [fold_left].
    - by rewrite app_nil_r.
    - replace (pre ++ m :: docs) with ((pre ++ [m]) ++ docs) by by rewrite <- app_assoc.
      by apply IH, group_add_grouped. }
  apply (H [] []). split.
  - constructor.
  - intros c. split; [intros [] | by intros (m & [] & _)].
  - intros g [].
  - intros g [].
Qed.

(** *** [$lookup], [$unwind], [$project] *)

Lemma project_In (us : gmap nat User.t) (gs : list Group) (e : Conversation) :
  In e (flat_map (lookup_unwind_project us) gs) ->
  exists (g : Group) (u : User.t),
    In g gs /\ us !! g_id g = Some u
    /\ e = mkConversation (g_id g)
             (mkConversationUser (g_id g) (User.username u) (User.avatar u)
                                 (User.status u) (User.lastSeen u))
             (mkLastMessage (Message.content (g_lastMessage g))
                            (Message.createdAt (g_lastMessage g))
                            (Message.sender (g_lastMessage g)))
             (g_unreadCount g).
Proof.
  intros H. apply in_flat_map in H as (g & Hg & He). unfold lookup_unwind_project in He.
  destruct (us !! g_id g) as [u |] eqn:E; [| destruct He].
  destruct He as [<- | []]. by exists g, u.
Qed.

Lemma project_ids (us : gmap nat User.t) (gs : list Group) :
  (forall g, In g gs -> is_Some (us !! g_id g)) ->
  map c_id (flat_map (lookup_unwind_project us) gs) = map g_id gs.
Proof.
  induction gs as [| g gs IH]; intros Hus; [reflexivity |].
  cbn [flat_map map]. rewrite map_app, IH by (intros g' Hg'; apply Hus; by right).
  destruct (Hus g) as [u Hu]; [by left |].
  unfold lookup_unwind_project. by rewrite Hu.
Qed.

(** *** The summaries *)

Lemma exchanged_matched (U c : ObjectId) (m : Message.t) :
  exchanged U c m <->
  (Nat.eqb (Message.sender m) U || Nat.eqb (Message.recipient m) U = true
   /\ counterpart U m = c).
Proof.
  unfold exchanged, counterpart. rewrite orb_true_iff, !Nat.eqb_eq.
  destruct (Nat.eqb (Message.sender m) U) eqn:E.
  - apply Nat.eqb_eq in E. split; [intros [[? ?] | [? ?]] | intros [_ ?]]; subst; auto.
  - apply Nat.eqb_neq in E. split.
    + intros [[? ?] | [? ?]]; [done | auto].
    + intros [[? | ?] ?]; [done | by right].
Qed.

Lemma unread_in_group_matched (U c : ObjectId) (l : list Message.t) :
  List.filter (unread_in_group U c)
    (List.filter (fun m => Nat.eqb (Message.sender m) U
                           || Nat.eqb (Message.recipient m) U) l) =
  List.filter (unread_from c U) l.
Proof.
  induction l as [| m l IH]; [reflexivity |]. cbn [List.filter].
  assert (unread_from c U m = true ->
          Nat.eqb (Message.sender m) U || Nat.eqb (Message.recipient m) U = true
          /\ unread_in_group U c m = true) as H1.
  { intros H. apply unread_from_spec in H as (Hs & Hr & Hu).
    unfold unread_in_group, in_group, counterpart.
    rewrite Hr, Nat.eqb_refl, Hu, orb_true_r. split; [done |].
    destruct (Nat.eqb (Message.sender m) U) eqn:E.
    - apply Nat.eqb_eq in E. rewrite <- Hs, E, Nat.eqb_refl. done.
    - rewrite Hs, Nat.eqb_refl. done. }
  assert (unread_in_group U c m = true -> unread_from c U m = true) as H2.
  { unfold unread_in_group, in_group, counterpart. intros H.
    apply andb_prop in H as [Hg H]. apply andb_prop in H as [Hr Hu].
    apply Nat.eqb_eq in Hg, Hr. apply negb_true_iff in Hu.
    apply unread_from_spec. split; [| done].
    destruct (Nat.eqb (Message.sender m) U) eqn:E; [| done].
    apply Nat.eqb_eq in E. congruence. }
  destruct (unread_from c U m) eqn:E3.
  - destruct (H1 eq_refl) as [-> H]. cbn [List.filter]. by rewrite H, IH.
  - destruct (Nat.eqb (Message.sender m) U || Nat.eqb (Message.recipient m) U);
      [| exact IH].
    cbn [List.filter]. destruct (unread_in_group U c m); [| exact IH].
    by specialize (H2 eq_refl).
Qed.

(** C6.  The conversations route answers 200 with a list that has
    exactly one entry per counterpart with whom the user has exchanged
    at least one message; each entry carries the counterpart's brief
    (id, username, avatar, status, last seen), a most recent message
    between the two (no message between them is more recent), and as
    unread count the number of unread messages from the counterpart to
    the user; the list is sorted by the time of these last messages,
    most recent first.  The store is not changed. *)
Theorem conversations_one_entry_per_counterpart (U : ObjectId) (s : Store) :
  consistent s ->
  exists l : list Conversation,
    route (conversations U) s = (Success 200 None l, s)
    /\ List.NoDup (map c_id l)
    /\ (forall c, In c (map c_id l) <-> exists m, In m (messages s) /\ exchanged U c m)
    /\ (forall e, In e l ->
          (exists u, users s !! c_id e = Some u
                     /\ c_user e = mkConversationUser (c_id e) (User.username u)
                                     (User.avatar u) (User.status u) (User.lastSeen u))
          /\ (exists m, In m (messages s) /\ exchanged U (c_id e) m
                        /\ c_lastMessage e = mkLastMessage (Message.content m)
                                               (Message.createdAt m) (Message.sender m)
                        /\ forall m', In m' (messages s) -> exchanged U (c_id e) m' ->
                                      Message.createdAt m' <= Message.createdAt m)
          /\ c_unreadCount e = length (List.filter (unread_from (c_id e) U) (messages s)))
    /\ StronglySorted
         (fun e e' => lm_createdAt (c_lastMessage e') <= lm_createdAt (c_lastMessage e)) l.
Proof.
  intros Hc. eexists. split; [reflexivity |].
  unfold aggregate_conversations.
  set (matched := List.filter _ (messages s)).
  set (sorted := sort_desc Message.createdAt matched).
  pose proof (group_grouped U sorted) as [Hnd Hids Hfirst Hcount].
  set (gs := group U sorted) in *.
  assert (forall m c, (In m sorted /\ counterpart U m = c) <->
                      (In m (messages s) /\ exchanged U c m)) as Hsorted.
  { intros m c. unfold sorted. rewrite sort_desc_In. unfold matched.
    rewrite filter_In, exchanged_matched. tauto. }
  assert (forall g, In g gs -> is_Some (users s !! g_id g)) as Husers.
  { intros g Hg.
    assert (In (g_id g) (map g_id gs)) as Hin by by apply in_map.
    apply Hids in Hin as (m & Hm & Hcp).
    destruct (proj1 (Hsorted m (g_id g)) (conj Hm Hcp)) as [Hin [[_ <-] | [<- _]]];
      by apply (messages_exist s Hc m). }
  set (projected := flat_map (lookup_unwind_project (users s)) gs).
  pose proof (sort_desc_perm (fun c => lm_createdAt (c_lastMessage c)) projected) as Hperm.
  assert (Permutation
            (map c_id (sort_desc (fun c => lm_createdAt (c_lastMessage c)) projected))
            (map g_id gs)) as Hpermids.
  { rewrite <- (project_ids (users s) gs Husers). by apply Permutation_map. }
  split; [| split; [| split]].
  - apply (Permutation_NoDup (Permutation_sym Hpermids) Hnd).
  - intros c. split.
    + intros Hin. apply (Permutation_in _ Hpermids), Hids in Hin as (m & Hm & Hcp).
      exists m. by apply Hsorted.
    + intros (m & Hm & Hex). apply (Permutation_in _ (Permutation_sym Hpermids)), Hids.
      exists m. by apply Hsorted.
  - intros e He. apply (Permutation_in _ Hperm), project_In in He
      as (g & u & Hg & Hu & ->). cbn [c_id c_user c_lastMessage c_unreadCount].
    split; [by exists u |]. split.
    + pose proof (find_newest Message.createdAt (in_group U (g_id g)) sorted
                    (g_lastMessage g) (sort_desc_sorted _ _) (Hfirst g Hg))
        as (Hin & Hgrp & Hmax).
      apply Nat.eqb_eq in Hgrp.
      destruct (proj1 (Hsorted _ _) (conj Hin Hgrp)) as [Hin' Hex].
      exists (g_lastMessage g). split; [done |]. split; [done |]. split; [done |].
      intros m' Hm' Hex'. destruct (proj2 (Hsorted _ _) (conj Hm' Hex')) as [Hs' Hcp'].
      apply Hmax; [done |]. by apply Nat.eqb_eq.
    + rewrite (Hcount g Hg). unfold sorted. rewrite sort_desc_filter_length.
      unfold matched. by rewrite unread_in_group_matched.
  - apply sort_desc_sorted.
Qed.

Lemma conversations_one_entry_per_counterpart_witness :
  exists l : list Conversation,
    route (conversations 1) chat = (Success 200 None l, chat)
    /\ List.NoDup (map c_id l)
    /\ (forall c, In c (map c_id l) <-> exists m, In m (messages chat) /\ exchanged 1 c m)
    /\ (forall e, In e l ->
          (exists u, users chat !! c_id e = Some u
                     /\ c_user e = mkConversationUser (c_id e) (User.username u)
                                     (User.avatar u) (User.status u) (User.lastSeen u))
          /\ (exists m, In m (messages chat) /\ exchanged 1 (c_id e) m
                        /\ c_lastMessage e = mkLastMessage (Message.content m)
                                               (Message.createdAt m) (Message.sender m)
                        /\ forall m', In m' (messages chat) -> exchanged 1 (c_id e) m' ->
                                      Message.createdAt m' <= Message.createdAt m)
          /\ c_unreadCount e = length (List.filter (unread_from (c_id e) 1) (messages chat)))
    /\ StronglySorted
         (fun e e' => lm_createdAt (c_lastMessage e') <= lm_createdAt (c_lastMessage e)) l.
Proof.
  assert (consistent chat) as Hc by (apply consistentb_sound; vm_compute; reflexivity).
  exact (conversations_one_entry_per_counterpart 1 chat Hc).
Defined.

(** The summaries of user 1 on [chat]: the conversation with 3, whose
    message is the latest, then the conversation with 2, whose last
    message is the one user 1 sent and whose three messages to user 1
    are unread. *)
Example conversations_of_1 :
  fst (route (conversations 1) chat) =
    Success 200 None
      [mkConversation 3 (mkConversationUser 3 "carol" "" "online" 0)
                      (mkLastMessage "e" 5 3) 1;
       mkConversation 2 (mkConversationUser 2 "bob" "" "online" 0)
                      (mkLastMessage "d" 4 1) 3].
Proof. vm_compute. reflexivity. Qed.

(** ** Every route keeps the store consistent *)

Lemma consistent_set_friendrequests (s : Store) (l : list FriendRequest.t) :
  consistent s ->
  (forall r, In r l ->
     exists r0, In r0 (friendrequests s)
                /\ FriendRequest.sender r = FriendRequest.sender r0
                /\ FriendRequest.recipient r = FriendRequest.recipient r0) ->
  consistent (set_friendrequests (fun _ => l) s).
Proof.
  intros [H1 H2 H3 H4] Hl. split; try done.
  intros r Hr. destruct (Hl r Hr) as (r0 & Hr0 & -> & ->). by apply H3.
Qed.

Lemma consistent_set_messages (s : Store) (l : list Message.t) :
  consistent s ->
  (forall m, In m l ->
     exists m0, In m0 (messages s)
                /\ Message.sender m = Message.sender m0
                /\ Message.recipient m = Message.recipient m0) ->
  consistent (set_messages (fun _ => l) s).
Proof.
  intros [H1 H2 H3 H4] Hl. split; try done.
  intros m Hm. destruct (Hl m Hm) as (m0 & Hm0 & -> & ->). by apply H4.
Qed.

Lemma consistent_add_request (s : Store) (r : FriendRequest.t) :
  consistent s ->
  is_Some (users s !! FriendRequest.sender r) ->
  is_Some (users s !! FriendRequest.recipient r) ->
  consistent (set_friendrequests (fun l => l ++ [r]) s).
Proof.
  intros [H1 H2 H3 H4] Hs Hr. split; try done.
  intros r' Hin. cbn in Hin. apply in_app_or in Hin as [Hin | [<- | []]]; [by apply H3 | done].
Qed.

Lemma consistent_add_message (s : Store) (m : Message.t) :
  consistent s ->
  is_Some (users s !! Message.sender m) ->
  is_Some (users s !! Message.recipient m) ->
  consistent (set_messages (fun l => l ++ [m]) s).
Proof.
  intros [H1 H2 H3 H4] Hs Hr. split; try done.
  intros m' Hin. cbn in Hin. apply in_app_or in Hin as [Hin | [<- | []]]; [by apply H4 | done].
Qed.

(** A change of one user's document that keeps the user: the friends
    after it are duplicate-free and are old friends or users. *)
Lemma consistent_alter (s : Store) (f : User.t -> User.t) (id : ObjectId) :
  consistent s ->
  (forall u, List.NoDup (User.friends u) -> List.NoDup (User.friends (f u))) ->
  (forall u x, In x (User.friends (f u)) ->
               In x (User.friends u) \/ is_Some (users s !! x)) ->
  consistent (set_users (alter f id) s).
Proof.
  intros [H1 H2 H3 H4] Hnd Hin.
  assert (forall j, is_Some (users s !! j) -> is_Some (alter f id (users s) !! j)) as Hdom.
  { intros j Hj. rewrite lookup_alter. case_decide; [subst; by rewrite fmap_is_Some | done]. }
  split; cbn [users friendrequests messages set_users].
  - intros j u. rewrite lookup_alter. case_decide as E.
    + subst j. destruct (users s !! id) as [u0 |] eqn:Hu0; [| done].
      intros [= <-]. by apply Hnd, (H1 id).
    + apply H1.
  - intros j u x. rewrite lookup_alter. case_decide as E.
    + subst j. destruct (users s !! id) as [u0 |] eqn:Hu0; [| done].
      intros [= <-] Hx. apply Hdom. destruct (Hin u0 x Hx) as [Hx' | Hx']; [| done].
      by apply (H2 id u0).
    + intros Hu Hx. apply Hdom. by apply (H2 j u).
  - intros r Hr. destruct (H3 r Hr). split; by apply Hdom.
  - intros m Hm. destruct (H4 m Hm). split; by apply Hdom.
Qed.

Lemma consistent_addToSet_friends (s : Store) (id x : ObjectId) :
  consistent s -> is_Some (users s !! x) -> consistent (addToSet_friends id x s).
Proof.
  intros Hc Hx. apply consistent_alter; [done | |].
  - intros u. apply addToSet_NoDup.
  - intros u y Hy. cbn in Hy. apply addToSet_In in Hy as [-> | Hy]; [by right | by left].
Qed.

Lemma consistent_pull_friends (s : Store) (id x : ObjectId) :
  consistent s -> consistent (pull_friends id x s).
Proof.
  intros Hc. apply consistent_alter; [done | |].
  - intros u. apply List.NoDup_filter.
  - intros u y Hy. cbn in Hy. apply filter_In in Hy as [Hy _]. by left.
Qed.

Lemma consistent_save_status (s : Store) (id : ObjectId) (st : FriendRequest.Status)
  (now : Date) :
  consistent s -> consistent (save_status id st now s).
Proof.
  intros Hc. apply (consistent_set_friendrequests s _ Hc).
  intros r Hr. apply in_map_iff in Hr as (r0 & <- & Hr0). exists r0.
  by destruct (Nat.eqb (FriendRequest._id r0) id).
Qed.

Lemma consistent_updateMany (s : Store) (p : Message.t -> bool) (now : Date) :
  consistent s -> consistent (updateMany p (mark_read now) s).
Proof.
  intros Hc. apply (consistent_set_messages s _ Hc).
  intros m Hm. apply in_map_iff in Hm as (m0 & <- & Hm0). exists m0. by destruct (p m0).
Qed.

Lemma findOneAndUpdate_status_In (p : FriendRequest.t -> bool) (st : FriendRequest.Status)
  (now : Date) (l : list FriendRequest.t) (r : FriendRequest.t) :
  In r (snd (findOneAndUpdate_status p st now l)) ->
  exists r0, In r0 l /\ FriendRequest.sender r = FriendRequest.sender r0
             /\ FriendRequest.recipient r = FriendRequest.recipient r0.
Proof.
  induction l as [| r1 l IH]; [intros [] |]. cbn [findOneAndUpdate_status].
  destruct (p r1).
  - intros [<- | Hin]; [exists r1 | exists r]; (split; [by (left + right) | done]).
  - destruct (findOneAndUpdate_status p st now l) as [found l'']. cbn [snd] in *.
    intros [<- | Hin]; [exists r1; split; [by left | done] |].
    destruct (IH Hin) as (r0 & Hr0 & Heq). exists r0. split; [by right | done].
Qed.

Lemma findOneAndUpdate_message_In (p : Message.t -> bool) (now : Date)
  (l : list Message.t) (m : Message.t) :
  In m (snd (findOneAndUpdate_message p (mark_read now) l)) ->
  exists m0, In m0 l /\ Message.sender m = Message.sender m0
             /\ Message.recipient m = Message.recipient m0.
Proof.
  induction l as [| m1 l IH]; [intros [] |]. cbn [findOneAndUpdate_message].
  destruct (p m1).
  - intros [<- | Hin]; [exists m1 | exists m]; (split; [by (left + right) | done]).
  - destruct (findOneAndUpdate_message p (mark_read now) l) as [found l'']. cbn [snd] in *.
    intros [<- | Hin]; [exists m1; split; [by left | done] |].
    destruct (IH Hin) as (m0 & Hm0 & Heq). exists m0. split; [by right | done].
Qed.

Lemma route_store {T : Type} (h : Async (Reply T)) (s : Store) :
  snd (route h s) = snd (run h s).
Proof. unfold route. by destruct (run h s). Qed.

Lemma consistent_sendRequest (senderId : ObjectId) (recipientId : option ObjectId)
  (message : option string) (newId : ObjectId) (now : Date) (s : Store) :
  consistent s ->
  consistent (snd (route (sendRequest senderId recipientId message newId now) s)).
Proof.
  intros Hc. rewrite route_store. unfold sendRequest.
  destruct recipientId as [recipientId |]; [| done].
  destruct (Nat.eqb senderId recipientId); [done |].
  rewrite run_await_query.
  destruct (findById recipientId s) as [recipient |] eqn:Hrecipient; [| done].
  rewrite run_bind. unfold checkExistingRelation. rewrite run_await_query. cbn [id_of].
  destruct (findById senderId s) as [sender |] eqn:Hsender; [| done].
  destruct (includes (User.friends sender) recipientId); [done |].
  rewrite run_await_query.
  destruct (List.find _ _) as [r |]; [by destruct (toString_strict_eq _ _) |].
  cbn [run Relation.is_none Relation.type negb]. unfold sendRequest_save.
  rewrite run_bind. cbn [run await]. unfold insert_request.
  destruct (Nat.ltb 200 _); [done |]. destruct (existsb _ _); [done |].
  cbn [run]. rewrite run_await_query. cbn [run snd].
  apply consistent_add_request; [done | |]; cbn; by eexists.
Qed.

Lemma consistent_accept (requestId userId : ObjectId) (now : Date) (s : Store) :
  consistent s -> consistent (snd (route (accept requestId userId now) s)).
Proof.
  intros Hc. rewrite route_store. unfold accept. rewrite run_await_query.
  destruct (List.find (pending_for requestId userId) (friendrequests s)) as [r |] eqn:Hfind;
    [| done].
  apply find_some in Hfind as [Hin Hr].
  unfold pending_for in Hr. apply andb_prop in Hr as [Hr _]. apply andb_prop in Hr as [_ Hrc].
  apply Nat.eqb_eq in Hrc. destruct (requests_exist s Hc r Hin) as [HS HU]. rewrite Hrc in HU.
  rewrite !run_await_update, run_await_query. cbn [run snd with_status FriendRequest.sender
    FriendRequest._id].
  apply consistent_addToSet_friends.
  - apply consistent_addToSet_friends; [by apply consistent_save_status | done].
  - by apply users_addToSet_friends.
Qed.

Lemma consistent_reject (requestId userId : ObjectId) (now : Date) (s : Store) :
  consistent s -> consistent (snd (route (reject requestId userId now) s)).
Proof.
  intros Hc. rewrite route_store. unfold reject. cbn [bind await run].
  pose proof (findOneAndUpdate_status_In (pending_for requestId userId)
                FriendRequest.rejected now (friendrequests s)) as Hin.
  destruct (findOneAndUpdate_status _ _ _ _) as [found l]. cbn [snd] in Hin.
  assert (consistent (set_friendrequests (fun _ => l) s)) as Hc'
    by by apply consistent_set_friendrequests.
  by destruct found.
Qed.

Lemma consistent_removeFriend (userId friendId : ObjectId) (s : Store) :
  consistent s -> consistent (snd (route (removeFriend userId friendId) s)).
Proof.
  intros Hc. rewrite route_store. unfold removeFriend. rewrite run_await_query.
  destruct (findById userId s) as [user |]; [| done].
  destruct (includes (User.friends user) friendId); [| done]. cbn [negb].
  rewrite !run_await_update. cbn [run snd].
  by apply consistent_pull_friends, consistent_pull_friends.
Qed.

Lemma consistent_send (senderId : ObjectId) (recipientId : option ObjectId)
  (content messageType : option string) (newId : ObjectId) (now : Date) (s : Store) :
  consistent s ->
  consistent (snd (route (send senderId recipientId content messageType newId now) s)).
Proof.
  intros Hc. rewrite route_store. unfold send.
  destruct recipientId as [recipientId |]; [| done].
  destruct content as [[| c content] |]; try done.
  rewrite run_await_query.
  destruct (findById senderId s) as [sender |] eqn:Hsender; [| done].
  destruct (includes (User.friends sender) recipientId) eqn:Hfriend; [| done].
  apply includes_In in Hfriend. cbn [negb]. rewrite run_bind. cbn [run await].
  unfold insert_message. destruct (parse_messageType _); [| done].
  destruct (_ || _)%bool; [done |]. destruct (existsb _ _); [done |].
  rewrite run_await_query. cbn [run snd].
  apply consistent_add_message; [done | cbn; by eexists |].
  cbn. by apply (friends_exist s Hc senderId sender).
Qed.

Lemma consistent_conversation (currentUserId otherUserId : ObjectId) (page limit : option Z)
  (now : Date) (s : Store) :
  consistent s ->
  consistent (snd (route (conversation currentUserId otherUserId page limit now) s)).
Proof.
  intros Hc. rewrite route_store. unfold conversation. rewrite run_await_query.
  destruct (findById currentUserId s) as [currentUser |]; [| done].
  destruct (includes (User.friends currentUser) otherUserId); [| done]. cbn [negb].
  cbn [bind await run]. destruct (window _ _ _); [done |].
  cbn [run update snd]. by apply consistent_updateMany.
Qed.

Lemma consistent_markRead (messageId userId : ObjectId) (now : Date) (s : Store) :
  consistent s -> consistent (snd (route (markRead messageId userId now) s)).
Proof.
  intros Hc. rewrite route_store. unfold markRead. cbn [bind await run].
  match goal with
  | |- context [findOneAndUpdate_message ?p ?f ?l] =>
      pose proof (findOneAndUpdate_message_In p now l) as Hin;
      destruct (findOneAndUpdate_message p f l) as [found l']
  end.
  cbn [snd] in Hin.
  assert (consistent (set_messages (fun _ => l') s)) as Hc'
    by by apply consistent_set_messages.
  by destruct found.
Qed.

Lemma consistent_updateStatus (me : ObjectId) (status : option string) (now : Date)
  (s : Store) :
  consistent s -> consistent (snd (route (updateStatus me status now) s)).
Proof.
  intros Hc. rewrite route_store. unfold updateStatus.
  destruct status as [st |]; [| done]. destruct (valid_status (Some st)); [| done].
  cbn [negb]. rewrite run_await_update. cbn [run snd].
  apply consistent_alter; [done | done |]. intros u x Hx. by left.
Qed.

(** A directory of users without friends, with no request and no
    message yet, is consistent. *)
Lemma consistent_initial (us : gmap nat User.t) :
  (forall id u, us !! id = Some u -> User.friends u = []) ->
  consistent (mkStore us [] []).
Proof.
  intros H. split; cbn [users friendrequests messages]; try done.
  - intros id u Hu. rewrite (H id u Hu). constructor.
  - intros id u f Hu. by rewrite (H id u Hu).
Qed.

(** ** End to end *)

(** User 1 sends user 2 a friend request with the text [hi]; 2 sees it
    among the received requests and accepts; each is then in the
    other's friends list; 1 sends 2 [hello]; 2 fetches the conversation
    and gets [hello]; the unread count of 2 is then 0. *)
Example end_to_end :
  let s0 := mkStore alice_and_bob [] [] in
  let (requested, s1) := route (sendRequest 1 (Some 2%nat) (Some "hi") 10 1) s0 in
  let received := fst (route (requests_received 2) s1) in
  let (accepted, s2) := route (accept 10 2 2) s1 in
  let (sent, s3) := route (send 1 (Some 2%nat) (Some "hello") None 100 3) s2 in
  let (fetched, s4) := route (conversation 2 1 None None 4) s3 in
  reply_code requested = 201%nat
  /\ match received with
     | Success 200 None [(r, Some p)] =>
         FriendRequest.message r = "hi" /\ p_username p = "alice"
     | _ => False
     end
  /\ reply_code accepted = 200%nat
  /\ friends_of s2 1 = [2%nat] /\ friends_of s2 2 = [1%nat]
  /\ reply_code sent = 201%nat
  /\ fst (route (unreadCount 2) s3) = Success 200 None 1%nat
  /\ match fetched with
     | Success 200 None (l, _) => map (fun m => Message.content (fst m)) l = ["hello"]
     | _ => False
     end
  /\ fst (route (unreadCount 2) s4) = Success 200 None 0%nat.
Proof. vm_compute. by repeat split. Qed.

(** * Further properties of the routes and of the socket server *)

(** ** Friend requests: what blocks a request *)

Lemma find_some_of {A : Type} (P : A -> bool) (l : list A) (x : A) :
  In x l -> P x = true -> exists y, List.find P l = Some y.
Proof.
  intros Hin Hx. destruct (List.find P l) as [y |] eqn:E; [by exists y |].
  by rewrite (find_none P l E x Hin) in Hx.
Qed.

Lemma pending_between_sym (a b : ObjectId) (r : FriendRequest.t) :
  pending_between a b r = pending_between b a r.
Proof. unfold pending_between. by rewrite orb_comm. Qed.

(** A pending request between two users blocks a new request of either
    to the other: the route answers 400 and stores nothing. *)
Theorem pending_request_blocks_both_ways (A B newId newId' : ObjectId)
  (message message' : option string) (now now' : Date) (s : Store)
  (uA uB : User.t) (r : FriendRequest.t) :
  A <> B ->
  users s !! A = Some uA ->
  users s !! B = Some uB ->
  In r (friendrequests s) ->
  FriendRequest.sender r = A ->
  FriendRequest.recipient r = B ->
  FriendRequest.status r = FriendRequest.pending ->
  (exists m, route (sendRequest A (Some B) message newId now) s = (Failure 400 m, s))
  /\ (exists m, route (sendRequest B (Some A) message' newId' now') s = (Failure 400 m, s)).
Proof.
  intros Hne HA HB Hin Hs Hr Hst.
  assert (pending_between A B r = true) as Hpb.
  { unfold pending_between, FriendRequest.is_pending.
    by rewrite Hs, Hr, Hst, !Nat.eqb_refl. }
  assert (forall X Y uX uY msg id t,
            X <> Y -> users s !! X = Some uX -> users s !! Y = Some uY ->
            pending_between X Y r = true ->
            exists m, route (sendRequest X (Some Y) msg id t) s = (Failure 400 m, s)) as H.
  { intros X Y uX uY msg id t HXY HX HY Hp.
    unfold route, sendRequest. apply Nat.eqb_neq in HXY. rewrite HXY.
    rewrite run_await_query. unfold findById at 1. rewrite HY.
    rewrite run_bind. unfold checkExistingRelation.
    rewrite run_await_query. unfold findById at 1. cbn [id_of]. rewrite HX.
    destruct (includes (User.friends uX) Y); [by eexists |].
    rewrite run_await_query.
    destruct (find_some_of (pending_between X Y) (friendrequests s) r Hin Hp) as [y ->].
    destruct (toString_strict_eq _ _); by eexists. }
  split.
  - by apply (H A B uA uB).
  - apply (H B A uB uA); [congruence | done | done |]. by rewrite pending_between_sym.
Qed.

Lemma pending_request_blocks_both_ways_witness :
  (exists m, route (sendRequest 1 (Some 2%nat) None 11 6)
                   (request_1_to_2 FriendRequest.pending) =
               (Failure 400 m, request_1_to_2 FriendRequest.pending))
  /\ (exists m, route (sendRequest 2 (Some 1%nat) (Some "hello") 12 7)
                      (request_1_to_2 FriendRequest.pending) =
                  (Failure 400 m, request_1_to_2 FriendRequest.pending)).
Proof.
  assert (1%nat <> 2%nat) as Hne by lia.
  exact (pending_request_blocks_both_ways 1 2 11 12 None (Some "hello") 6 7
           (request_1_to_2 FriendRequest.pending)
           (User.mk "alice" "" "" "" [] "online" 0) (User.mk "bob" "" "" "" [] "online" 0)
           (FriendRequest.mk 10 1 2 FriendRequest.pending "hi" 5 5)
           Hne eq_refl eq_refl (or_introl eq_refl) eq_refl eq_refl eq_refl).
Defined.

(** The route hands the relation check [req.user._id], an ObjectId, so
    the check cannot tell that the pending request is the caller's own:
    a user who repeats a pending request is told that the other user has
    a pending request to them. *)
Theorem repeated_request_reported_as_received (A B newId : ObjectId)
  (message : option string) (now : Date) (s : Store)
  (uA uB : User.t) (r : FriendRequest.t) :
  A <> B ->
  users s !! A = Some uA ->
  users s !! B = Some uB ->
  ~ In B (User.friends uA) ->
  In r (friendrequests s) ->
  FriendRequest.sender r = A ->
  FriendRequest.recipient r = B ->
  FriendRequest.status r = FriendRequest.pending ->
  route (sendRequest A (Some B) message newId now) s =
    (Failure 400 "You have a pending friend request from this user", s).
Proof.
  intros Hne HA HB Hfriends Hin Hs Hr Hst.
  assert (pending_between A B r = true) as Hpb.
  { unfold pending_between, FriendRequest.is_pending.
    by rewrite Hs, Hr, Hst, !Nat.eqb_refl. }
  unfold route, sendRequest. apply Nat.eqb_neq in Hne. rewrite Hne.
  rewrite run_await_query. unfold findById at 1. rewrite HB.
  rewrite run_bind. unfold checkExistingRelation.
  rewrite run_await_query. unfold findById at 1. cbn [id_of]. rewrite HA.
  apply includes_not_In in Hfriends. rewrite Hfriends.
  rewrite run_await_query.
  destruct (find_some_of (pending_between A B) (friendrequests s) r Hin Hpb) as [y ->].
  reflexivity.
Qed.

Lemma repeated_request_reported_as_received_witness :
  route (sendRequest 1 (Some 2%nat) None 11 6) (request_1_to_2 FriendRequest.pending) =
    (Failure 400 "You have a pending friend request from this user",
     request_1_to_2 FriendRequest.pending).
Proof.
  assert (1%nat <> 2%nat) as Hne by lia.
  assert (~ In 2%nat (User.friends (User.mk "alice" "" "" "" [] "online" 0))) as Hnf
    by (simpl; tauto).
  exact (repeated_request_reported_as_received 1 2 11 None 6
           (request_1_to_2 FriendRequest.pending)
           (User.mk "alice" "" "" "" [] "online" 0) (User.mk "bob" "" "" "" [] "online" 0)
           (FriendRequest.mk 10 1 2 FriendRequest.pending "hi" 5 5)
           Hne eq_refl eq_refl Hnf (or_introl eq_refl) eq_refl eq_refl eq_refl).
Defined.

Lemma sendRequest_creates_pending_witness :
  route (sendRequest 2 (Some 1%nat) (Some "again") 11 9)
        (request_1_to_2 FriendRequest.rejected) =
    (Success 201 (Some "Friend request sent successfully")
       (FriendRequest.mk 11 2 1 FriendRequest.pending "again" 9 9,
        Some (select_username_avatar 2 (User.mk "bob" "" "" "" [] "online" 0))),
     mkStore alice_and_bob
       [FriendRequest.mk 10 1 2 FriendRequest.rejected "hi" 5 5;
        FriendRequest.mk 11 2 1 FriendRequest.pending "again" 9 9] []).
Proof.
  assert (2%nat <> 1%nat) as Hne by lia.
  assert (String.length (or_string (Some "again") "") <= 200)%nat as Hlen
    by (vm_compute; lia).
  exact (sendRequest_creates_pending 2 1 11 (Some "again") 9
           (request_1_to_2 FriendRequest.rejected)
           (User.mk "bob" "" "" "" [] "online" 0) (User.mk "alice" "" "" "" [] "online" 0)
           Hne eq_refl eq_refl eq_refl eq_refl eq_refl Hlen).
Defined.

(** ** Friend requests: answering a request *)

Lemma store_eta (s : Store) : mkStore (users s) (friendrequests s) (messages s) = s.
Proof. by destruct s. Qed.

Lemma findOneAndUpdate_status_none (p : FriendRequest.t -> bool)
  (st : FriendRequest.Status) (now : Date) (l : list FriendRequest.t) :
  (forall r, In r l -> p r = false) -> findOneAndUpdate_status p st now l = (None, l).
Proof.
  induction l as [| r l IH]; intros H; [reflexivity |]. cbn [findOneAndUpdate_status].
  rewrite (H r) by by left. rewrite IH; [reflexivity |]. intros r' Hr'. apply H. by right.
Qed.

(** With no pending request of this id addressed to the user, accept
    and reject both fail not-found and change nothing. *)
Lemma no_pending_request_not_found (requestId userId : ObjectId) (now : Date) (s : Store) :
  (forall r, In r (friendrequests s) -> pending_for requestId userId r = false) ->
  route (accept requestId userId now) s = (Failure 404 "Friend request not found", s)
  /\ route (reject requestId userId now) s = (Failure 404 "Friend request not found", s).
Proof.
  intros H. split.
  - unfold route, accept. rewrite run_await_query.
    by rewrite (proj2 (find_none_iff _ _) H).
  - unfold route, reject. cbn [bind await run].
    rewrite (findOneAndUpdate_status_none _ _ _ _ H). cbn [fmap option_fmap option_map run respond].
    unfold set_friendrequests. by rewrite store_eta.
Qed.

Lemma pending_for_spec (requestId userId : ObjectId) (r : FriendRequest.t) :
  pending_for requestId userId r = true <->
  FriendRequest._id r = requestId /\ FriendRequest.recipient r = userId
  /\ FriendRequest.status r = FriendRequest.pending.
Proof.
  unfold pending_for, FriendRequest.is_pending.
  rewrite !andb_true_iff, !Nat.eqb_eq. destruct (FriendRequest.status r); intuition congruence.
Qed.

(** Only the recipient of a pending request can answer it: when every
    request of this id is addressed to somebody else or is no longer
    pending, accept and reject fail not-found and change nothing. *)
Theorem only_recipient_answers_pending (requestId userId : ObjectId) (now : Date) (s : Store) :
  (forall r, In r (friendrequests s) -> FriendRequest._id r = requestId ->
             FriendRequest.recipient r <> userId
             \/ FriendRequest.status r <> FriendRequest.pending) ->
  route (accept requestId userId now) s = (Failure 404 "Friend request not found", s)
  /\ route (reject requestId userId now) s = (Failure 404 "Friend request not found", s).
Proof.
  intros H. apply no_pending_request_not_found. intros r Hin.
  destruct (pending_for requestId userId r) eqn:E; [| reflexivity].
  apply pending_for_spec in E as (Hid & Hrc & Hst). destruct (H r Hin Hid); congruence.
Qed.

Lemma only_recipient_answers_pending_witness :
  route (accept 10 1 6) (request_1_to_2 FriendRequest.pending) =
    (Failure 404 "Friend request not found", request_1_to_2 FriendRequest.pending)
  /\ route (reject 10 1 6) (request_1_to_2 FriendRequest.pending) =
       (Failure 404 "Friend request not found", request_1_to_2 FriendRequest.pending).
Proof.
  apply (only_recipient_answers_pending 10 1 6 (request_1_to_2 FriendRequest.pending)).
  intros r [<- | []] _. left. simpl. lia.
Defined.

(** What a successful reject found and did: one pending request of this
    id addressed to the user is now rejected, in place. *)
Lemma findOneAndUpdate_status_some (p : FriendRequest.t -> bool)
  (st : FriendRequest.Status) (now : Date) (l l' : list FriendRequest.t)
  (r' : FriendRequest.t) :
  findOneAndUpdate_status p st now l = (Some r', l') ->
  exists l1 r l2,
    l = l1 ++ r :: l2 /\ p r = true /\ r' = with_status st now r
    /\ l' = l1 ++ r' :: l2.
Proof.
  revert l'. induction l as [| r0 l IH]; intros l'; [discriminate |].
  cbn [findOneAndUpdate_status]. destruct (p r0) eqn:E.
  - intros [= <- <-]. by exists [], r0, l.
  - destruct (findOneAndUpdate_status p st now l) as [found l''].
    intros [= -> <-]. destruct (IH l'' eq_refl) as (l1 & r & l2 & -> & Hp & Hr' & ->).
    by exists (r0 :: l1), r, l2.
Qed.

Lemma reject_success (requestId userId : ObjectId) (now : Date) (s s' : Store)
  (code : nat) (message : option string) (data : Populated) :
  route (reject requestId userId now) s = (Success code message data, s') ->
  exists l1 r l2,
    friendrequests s = l1 ++ r :: l2
    /\ pending_for requestId userId r = true
    /\ fst data = with_status FriendRequest.rejected now r
    /\ s' = mkStore (users s) (l1 ++ fst data :: l2) (messages s).
Proof.
  unfold route, reject. cbn [bind await run].
  destruct (findOneAndUpdate_status _ _ _ _) as [[r' |] l'] eqn:E;
    cbn [fmap option_fmap option_map run respond]; [| discriminate].
  intros [= _ _ <- <-]. cbn [fst].
  apply findOneAndUpdate_status_some in E as (l1 & r & l2 & Hl & Hp & -> & ->).
  by exists l1, r, l2.
Qed.

(** A rejection is final and makes nobody friends: after a successful
    reject the request is stored rejected, the users and the messages
    are as before, and (request ids being unique) a later accept or
    reject of the same request fails not-found. *)
Theorem reject_is_final (requestId userId : ObjectId) (now now' : Date) (s s' : Store)
  (code : nat) (message : option string) (data : Populated) :
  List.NoDup (map FriendRequest._id (friendrequests s)) ->
  route (reject requestId userId now) s = (Success code message data, s') ->
  FriendRequest.status (fst data) = FriendRequest.rejected
  /\ FriendRequest._id (fst data) = requestId
  /\ In (fst data) (friendrequests s')
  /\ users s' = users s
  /\ messages s' = messages s
  /\ route (accept requestId userId now') s' = (Failure 404 "Friend request not found", s')
  /\ route (reject requestId userId now') s' = (Failure 404 "Friend request not found", s').
Proof.
  intros Hnd Hrun.
  apply reject_success in Hrun as (l1 & r & l2 & Hl & Hp & Hdata & ->).
  apply pending_for_spec in Hp as (Hid & Hrc & Hst).
  rewrite Hdata. cbn [with_status FriendRequest.status FriendRequest._id users messages
    friendrequests].
  split; [done |]. split; [done |].
  split; [apply in_or_app; right; by left |]. split; [done |]. split; [done |].
  apply no_pending_request_not_found. cbn [friendrequests].
  rewrite Hl, map_app in Hnd. cbn [map] in Hnd.
  intros x Hx. destruct (pending_for requestId userId x) eqn:E; [| reflexivity].
  apply pending_for_spec in E as (Hxid & _ & Hxst).
  apply in_app_or in Hx as [Hx | [<- | Hx]].
  - exfalso. apply NoDup_remove_2 in Hnd. apply Hnd, in_or_app. left.
    rewrite Hid, <- Hxid. by apply in_map.
  - discriminate Hxst.
  - exfalso. apply NoDup_remove_2 in Hnd. apply Hnd, in_or_app. right.
    rewrite Hid, <- Hxid. by apply in_map.
Qed.

Lemma reject_is_final_witness :
  let s := request_1_to_2 FriendRequest.pending in
  let s' := snd (route (reject 10 2 6) s) in
  let data := (FriendRequest.mk 10 1 2 FriendRequest.rejected "hi" 5 6,
               Some (mkProfile 1 "alice" None "" (Some "") None None)) in
  FriendRequest.status (fst data) = FriendRequest.rejected
  /\ FriendRequest._id (fst data) = 10%nat
  /\ In (fst data) (friendrequests s')
  /\ users s' = users s
  /\ messages s' = messages s
  /\ route (accept 10 2 7) s' = (Failure 404 "Friend request not found", s')
  /\ route (reject 10 2 7) s' = (Failure 404 "Friend request not found", s').
Proof.
  intros s s' data.
  assert (List.NoDup (map FriendRequest._id (friendrequests s))) as Hnd
    by (repeat constructor; simpl; tauto).
  assert (route (reject 10 2 6) s = (Success 200 (Some "Friend request rejected") data, s'))
    as Hrun by (vm_compute; reflexivity).
  exact (reject_is_final 10 2 6 7 s s' 200 (Some "Friend request rejected") data Hnd Hrun).
Defined.

(** An acceptance is final: after a successful accept a later accept or
    reject of the same request fails not-found and changes nothing. *)
Theorem accept_is_final (requestId userId : ObjectId) (now now' : Date) (s s' : Store)
  (code : nat) (message : option string) (data : Populated) :
  route (accept requestId userId now) s = (Success code message data, s') ->
  FriendRequest.status (fst data) = FriendRequest.accepted
  /\ (forall r, In r (friendrequests s') -> FriendRequest._id r = requestId ->
                FriendRequest.status r = FriendRequest.accepted)
  /\ route (accept requestId userId now') s' = (Failure 404 "Friend request not found", s')
  /\ route (reject requestId userId now') s' = (Failure 404 "Friend request not found", s').
Proof.
  intros Hrun.
  apply accept_success in Hrun as (r & Hin & Hid & Hrc & Hst & Hdata & ->).
  assert (forall x, In x (friendrequests
            (addToSet_friends (FriendRequest.sender r) userId
               (addToSet_friends userId (FriendRequest.sender r)
                  (save_status requestId FriendRequest.accepted now s)))) ->
          FriendRequest._id x = requestId ->
          FriendRequest.status x = FriendRequest.accepted) as Hall.
  { cbn [friendrequests addToSet_friends save_status set_users set_friendrequests].
    intros x Hx Hxid. apply in_map_iff in Hx as (x0 & <- & _).
    destruct (Nat.eqb (FriendRequest._id x0) requestId) eqn:E; [reflexivity |].
    apply Nat.eqb_neq in E. by destruct E. }
  split; [by rewrite Hdata |]. split; [exact Hall |].
  apply no_pending_request_not_found. intros x Hx.
  destruct (pending_for requestId userId x) eqn:E; [| reflexivity].
  apply pending_for_spec in E as (Hxid & _ & Hxst). rewrite (Hall x Hx Hxid) in Hxst.
  discriminate Hxst.
Qed.

Lemma accept_is_final_witness :
  let s := request_1_to_2 FriendRequest.pending in
  let s' := snd (route (accept 10 2 6) s) in
  let data := (FriendRequest.mk 10 1 2 FriendRequest.accepted "hi" 5 6,
               Some (mkProfile 1 "alice" None "" (Some "") None None)) in
  FriendRequest.status (fst data) = FriendRequest.accepted
  /\ (forall r, In r (friendrequests s') -> FriendRequest._id r = 10%nat ->
                FriendRequest.status r = FriendRequest.accepted)
  /\ route (accept 10 2 7) s' = (Failure 404 "Friend request not found", s')
  /\ route (reject 10 2 7) s' = (Failure 404 "Friend request not found", s').
Proof.
  intros s s' data.
  assert (route (accept 10 2 6) s = (Success 200 (Some "Friend request accepted") data, s'))
    as Hrun by (vm_compute; reflexivity).
  exact (accept_is_final 10 2 6 7 s s' 200 (Some "Friend request accepted") data Hrun).
Defined.

(** ** Removing a friend *)

Lemma friends_of_pull_friends (s : Store) (id x j : ObjectId) :
  friends_of (pull_friends id x s) j =
    if decide (j = id) then pull x (friends_of s id) else friends_of s j.
Proof.
  unfold friends_of, pull_friends, set_users. cbn [users].
  rewrite lookup_alter. case_decide as Hj; case_decide as Hj'; try congruence.
  subst j. by destruct (users s !! id).
Qed.

Lemma pull_In (x y : ObjectId) (l : list ObjectId) : In y (pull x l) <-> In y l /\ y <> x.
Proof.
  unfold pull. rewrite filter_In, negb_true_iff, Nat.eqb_neq. intuition congruence.
Qed.

Lemma pull_absent (x : ObjectId) (l : list ObjectId) : ~ In x l -> pull x l = l.
Proof.
  intros H. unfold pull. apply forallb_filter_id, forallb_forall.
  intros y Hy. apply negb_true_iff, Nat.eqb_neq. congruence.
Qed.

Lemma pull_addToSet (x : ObjectId) (l : list ObjectId) :
  ~ In x l -> pull x (addToSet x l) = l.
Proof.
  intros H. unfold addToSet. rewrite (proj2 (includes_not_In l x) H).
  unfold pull. rewrite List.filter_app. cbn [List.filter]. rewrite Nat.eqb_refl. cbn [negb].
  rewrite app_nil_r. by apply pull_absent.
Qed.

(** The route on a friend: both [$pull] run. *)
Lemma removeFriend_run (userId friendId : ObjectId) (s : Store) (u : User.t) :
  users s !! userId = Some u ->
  In friendId (User.friends u) ->
  route (removeFriend userId friendId) s =
    (Success 200 (Some "Friend removed successfully") tt,
     pull_friends friendId userId (pull_friends userId friendId s)).
Proof.
  intros Hu Hin. unfold route, removeFriend. rewrite run_await_query.
  unfold findById at 1. rewrite Hu. apply includes_In in Hin. rewrite Hin. reflexivity.
Qed.

(** Removing a friend takes each of the two out of the other's friends
    and touches no other friendship, no request and no message; a
    symmetric friends relation stays symmetric. *)
Theorem removeFriend_removes_both (userId friendId : ObjectId) (s : Store) (u : User.t) :
  users s !! userId = Some u ->
  In friendId (User.friends u) ->
  fst (route (removeFriend userId friendId) s) =
    Success 200 (Some "Friend removed successfully") tt
  /\ (forall j x,
        In x (friends_of (snd (route (removeFriend userId friendId) s)) j) <->
        In x (friends_of s j)
        /\ ~ (j = userId /\ x = friendId) /\ ~ (j = friendId /\ x = userId))
  /\ friendrequests (snd (route (removeFriend userId friendId) s)) = friendrequests s
  /\ messages (snd (route (removeFriend userId friendId) s)) = messages s
  /\ (symmetric s -> symmetric (snd (route (removeFriend userId friendId) s))).
Proof.
  intros Hu Hin. rewrite (removeFriend_run userId friendId s u Hu Hin). cbn [fst snd].
  assert (forall j x,
    In x (friends_of (pull_friends friendId userId (pull_friends userId friendId s)) j) <->
    In x (friends_of s j)
    /\ ~ (j = userId /\ x = friendId) /\ ~ (j = friendId /\ x = userId)) as Hfr.
  { intros j x. rewrite !friends_of_pull_friends.
    repeat case_decide; subst; rewrite ?pull_In; rewrite ?friends_of_pull_friends;
      repeat case_decide; rewrite ?pull_In; intuition congruence. }
  split; [done |]. split; [exact Hfr |]. split; [done |]. split; [done |].
  intros Hsym a b Hb. apply Hfr in Hb as (Hb & H1 & H2). apply Hfr.
  split; [by apply Hsym |]. intuition congruence.
Qed.

Lemma removeFriend_removes_both_witness :
  fst (route (removeFriend 1 2) chat) = Success 200 (Some "Friend removed successfully") tt
  /\ (forall j x,
        In x (friends_of (snd (route (removeFriend 1 2) chat)) j) <->
        In x (friends_of chat j)
        /\ ~ (j = 1%nat /\ x = 2%nat) /\ ~ (j = 2%nat /\ x = 1%nat))
  /\ friendrequests (snd (route (removeFriend 1 2) chat)) = friendrequests chat
  /\ messages (snd (route (removeFriend 1 2) chat)) = messages chat
  /\ (symmetric chat -> symmetric (snd (route (removeFriend 1 2) chat))).
Proof.
  exact (removeFriend_removes_both 1 2 chat (User.mk "alice" "" "" "" [2%nat] "online" 0)
           eq_refl (or_introl eq_refl)).
Defined.

(** Removing somebody who is not in the caller's friends is refused with
    400 and changes nothing. *)
Lemma removeFriend_not_a_friend (userId friendId : ObjectId) (s : Store) (u : User.t) :
  users s !! userId = Some u ->
  ~ In friendId (User.friends u) ->
  route (removeFriend userId friendId) s =
    (Failure 400 "You are not friends with this user", s).
Proof.
  intros Hu Hin. unfold route, removeFriend. rewrite run_await_query.
  unfold findById at 1. rewrite Hu. apply includes_not_In in Hin. by rewrite Hin.
Qed.

(** Accepting a request between two users who were not friends and then
    removing the friend gives back the friends everybody had. *)
Theorem accept_then_remove_restores_friends
  (requestId userId : ObjectId) (now : Date) (s s' : Store)
  (code : nat) (message : option string) (data : Populated) :
  consistent s ->
  route (accept requestId userId now) s = (Success code message data, s') ->
  ~ In (FriendRequest.sender (fst data)) (friends_of s userId) ->
  ~ In userId (friends_of s (FriendRequest.sender (fst data))) ->
  fst (route (removeFriend userId (FriendRequest.sender (fst data))) s') =
    Success 200 (Some "Friend removed successfully") tt
  /\ forall j,
       friends_of (snd (route (removeFriend userId (FriendRequest.sender (fst data))) s')) j =
       friends_of s j.
Proof.
  intros Hc Hrun Hn1 Hn2.
  apply accept_success in Hrun as (r & Hin & Hid & Hrc & Hst & Hdata & ->).
  rewrite Hdata in *. cbn [with_status FriendRequest.sender] in *.
  destruct (requests_exist s Hc r Hin) as [HS HU]. rewrite Hrc in HU.
  set (S := FriendRequest.sender r) in *.
  set (s1 := addToSet_friends S userId
               (addToSet_friends userId S
                  (save_status requestId FriendRequest.accepted now s))).
  assert (forall j, friends_of s1 j =
            if decide (j = userId) then addToSet S (friends_of s userId)
            else if decide (j = S) then addToSet userId (friends_of s S)
            else friends_of s j) as Hfr.
  { intros j. unfold s1. by rewrite friends_after_accept. }
  assert (is_Some (users s1 !! userId)) as [u1 Hu1].
  { unfold s1. by apply users_addToSet_friends, users_addToSet_friends. }
  assert (In S (User.friends u1)) as HinS.
  { pose proof (Hfr userId) as H. unfold friends_of in H at 1. rewrite Hu1 in H.
    rewrite decide_True in H by done. rewrite H. apply addToSet_In. by left. }
  rewrite (removeFriend_run userId S s1 u1 Hu1 HinS). cbn [fst snd].
  split; [done |]. intros j. rewrite !friends_of_pull_friends, !Hfr.
  repeat case_decide; subst; try congruence;
    rewrite ?friends_of_pull_friends, ?Hfr;
    repeat case_decide; try congruence;
    rewrite ?pull_addToSet by done; try reflexivity.
  all: rewrite pull_absent by congruence; congruence.
Qed.

Lemma accept_then_remove_restores_friends_witness :
  let s := request_1_to_2 FriendRequest.pending in
  let s' := snd (route (accept 10 2 6) s) in
  fst (route (removeFriend 2 1) s') = Success 200 (Some "Friend removed successfully") tt
  /\ forall j, friends_of (snd (route (removeFriend 2 1) s')) j = friends_of s j.
Proof.
  intros s s'.
  assert (consistent s) as Hc by (apply consistentb_sound; vm_compute; reflexivity).
  assert (route (accept 10 2 6) s =
            (Success 200 (Some "Friend request accepted")
               (FriendRequest.mk 10 1 2 FriendRequest.accepted "hi" 5 6,
                Some (mkProfile 1 "alice" None "" (Some "") None None)), s')) as Hrun
    by (vm_compute; reflexivity).
  assert (~ In 1%nat (friends_of s 2)) as H1 by (vm_compute; tauto).
  assert (~ In 2%nat (friends_of s 1)) as H2 by (vm_compute; tauto).
  exact (accept_then_remove_restores_friends 10 2 6 s s' 200
           (Some "Friend request accepted")
           (FriendRequest.mk 10 1 2 FriendRequest.accepted "hi" 5 6,
            Some (mkProfile 1 "alice" None "" (Some "") None None)) Hc Hrun H1 H2).
Defined.

(** ** Sending messages *)

Lemma send_not_friend (A B newId : ObjectId) (content : string)
  (messageType : option string) (now : Date) (s : Store) (uA : User.t) :
  users s !! A = Some uA ->
  ~ In B (User.friends uA) ->
  content <> "" ->
  route (send A (Some B) (Some content) messageType newId now) s =
    (Failure 403 "You can only send messages to your friends", s).
Proof.
  intros HA Hnf Hc. unfold route, send. destruct content as [| c content]; [done |].
  rewrite run_await_query. unfold findById at 1. rewrite HA.
  apply includes_not_In in Hnf. by rewrite Hnf.
Qed.

Lemma conversation_not_friend (A B : ObjectId) (page limit : option Z) (now : Date)
  (s : Store) (uA : User.t) :
  users s !! A = Some uA ->
  ~ In B (User.friends uA) ->
  route (conversation A B page limit now) s =
    (Failure 403 "You can only view conversations with your friends", s).
Proof.
  intros HA Hnf. unfold route, conversation.
  rewrite run_await_query. unfold findById at 1. rewrite HA.
  apply includes_not_In in Hnf. by rewrite Hnf.
Qed.

(** Between users who are not friends a message send and a conversation
    fetch are both refused with 403; nothing is stored and nothing is
    marked read. *)
Theorem non_friends_are_refused (A B newId : ObjectId) (content : string)
  (messageType : option string) (page limit : option Z) (now : Date)
  (s : Store) (uA : User.t) :
  users s !! A = Some uA ->
  ~ In B (User.friends uA) ->
  content <> "" ->
  route (send A (Some B) (Some content) messageType newId now) s =
    (Failure 403 "You can only send messages to your friends", s)
  /\ route (conversation A B page limit now) s =
       (Failure 403 "You can only view conversations with your friends", s).
Proof.
  intros HA Hnf Hc. split; [by eapply send_not_friend | by eapply conversation_not_friend].
Qed.

Lemma non_friends_are_refused_witness :
  route (send 3 (Some 1%nat) (Some "hello") None 106 9) chat =
    (Failure 403 "You can only send messages to your friends", chat)
  /\ route (conversation 3 1 None None 9) chat =
       (Failure 403 "You can only view conversations with your friends", chat).
Proof.
  assert (~ In 1%nat (User.friends (User.mk "carol" "" "" "" [] "online" 0))) as Hnf
    by (simpl; tauto).
  assert ("hello" <> "") as Hc by discriminate.
  exact (non_friends_are_refused 3 1 106 "hello" None None None 9 chat
           (User.mk "carol" "" "" "" [] "online" 0) eq_refl Hnf Hc).
Defined.

(** The route on a friend, with a content that passes the validators
    and an [_id] that is free. *)
Lemma send_to_friend (A B newId : ObjectId) (content : string)
  (messageType : option string) (ty : Message.MessageType) (now : Date)
  (s : Store) (uA : User.t) :
  users s !! A = Some uA ->
  In B (User.friends uA) ->
  content <> "" ->
  parse_messageType (match messageType with Some t => t | None => "text" end) = Some ty ->
  (1 <= String.length (trim content) <= 1000)%nat ->
  (forall m, In m (messages s) -> Message._id m <> newId) ->
  route (send A (Some B) (Some content) messageType newId now) s =
    (Success 201 (Some "Message sent successfully")
       (Message.mk newId A B (trim content) ty false None false None now now,
        Some (select_username_avatar A uA)),
     mkStore (users s) (friendrequests s)
       (messages s ++ [Message.mk newId A B (trim content) ty false None false None now now])).
Proof.
  intros HA Hf Hc Hty [Hlen1 Hlen2] Hfresh.
  unfold route, send. destruct content as [| c content]; [done |].
  rewrite run_await_query. unfold findById at 1. rewrite HA.
  apply includes_In in Hf. rewrite Hf. cbn [negb]. rewrite run_bind. cbn [run await].
  unfold insert_message. rewrite Hty.
  assert (Nat.eqb (String.length (trim (String c content))) 0 = false) as ->
    by (apply Nat.eqb_neq; lia).
  assert (Nat.ltb 1000 (String.length (trim (String c content))) = false) as ->
    by (apply Nat.ltb_ge; lia).
  cbn [orb].
  assert (existsb (fun m => Nat.eqb (Message._id m) newId) (messages s) = false) as ->.
  { destruct (existsb _ _) eqn:E; [| reflexivity].
    apply existsb_exists in E as (m & Hm & Hid). apply Nat.eqb_eq in Hid.
    by destruct (Hfresh m Hm). }
  rewrite run_await_query. cbn [run respond]. unfold populate, findById, set_messages.
  cbn [users]. by rewrite HA.
Qed.

Lemma countUnread_snoc (U : ObjectId) (l : list Message.t) (m : Message.t) :
  countUnread U (l ++ [m]) =
    (countUnread U l
     + if Nat.eqb (Message.recipient m) U && negb (Message.isRead m) then 1 else 0)%nat.
Proof. unfold countUnread. by rewrite filter_snoc_length. Qed.

(** A message sent to a friend is stored at the end of the collection,
    trimmed and unread; it raises the unread count of its recipient by
    one and nobody else's, and changes no user and no request. *)
Theorem send_stores_unread_message (A B newId : ObjectId) (content : string)
  (messageType : option string) (ty : Message.MessageType) (now : Date)
  (s : Store) (uA : User.t) :
  users s !! A = Some uA ->
  In B (User.friends uA) ->
  content <> "" ->
  parse_messageType (match messageType with Some t => t | None => "text" end) = Some ty ->
  (1 <= String.length (trim content) <= 1000)%nat ->
  (forall m, In m (messages s) -> Message._id m <> newId) ->
  let m := Message.mk newId A B (trim content) ty false None false None now now in
  let s' := snd (route (send A (Some B) (Some content) messageType newId now) s) in
  reply_code (fst (route (send A (Some B) (Some content) messageType newId now) s)) = 201%nat
  /\ messages s' = messages s ++ [m]
  /\ users s' = users s
  /\ friendrequests s' = friendrequests s
  /\ countUnread B (messages s') = S (countUnread B (messages s))
  /\ (forall U, U <> B -> countUnread U (messages s') = countUnread U (messages s)).
Proof.
  intros HA Hf Hc Hty Hlen Hfresh m s'. unfold s'.
  rewrite (send_to_friend A B newId content messageType ty now s uA HA Hf Hc Hty Hlen Hfresh).
  cbn [fst snd reply_code messages users friendrequests].
  split; [done |]. split; [done |]. split; [done |]. split; [done |]. split.
  - rewrite countUnread_snoc. cbn [Message.recipient Message.isRead].
    rewrite Nat.eqb_refl. cbn. lia.
  - intros U HU. rewrite countUnread_snoc. cbn [Message.recipient Message.isRead].
    apply not_eq_sym, Nat.eqb_neq in HU. rewrite HU. cbn. lia.
Qed.

Lemma send_stores_unread_message_witness :
  let m := Message.mk 106 1 2 "see you" Message.image false None false None 9 9 in
  let s' := snd (route (send 1 (Some 2%nat) (Some "  see you ") (Some "image") 106 9) chat) in
  reply_code (fst (route (send 1 (Some 2%nat) (Some "  see you ") (Some "image") 106 9) chat))
    = 201%nat
  /\ messages s' = messages chat ++ [m]
  /\ users s' = users chat
  /\ friendrequests s' = friendrequests chat
  /\ countUnread 2 (messages s') = S (countUnread 2 (messages chat))
  /\ (forall U, U <> 2%nat -> countUnread U (messages s') = countUnread U (messages chat)).
Proof.
  assert ("  see you " <> "") as Hc by discriminate.
  assert (1 <= String.length (trim "  see you ") <= 1000)%nat as Hlen by (vm_compute; lia).
  assert (forall m, In m (messages chat) -> Message._id m <> 106%nat) as Hfresh.
  { intros m Hm. simpl in Hm. intuition (subst; simpl in *; lia). }
  exact (send_stores_unread_message 1 2 106 "  see you " (Some "image") Message.image 9 chat
           (User.mk "alice" "" "" "" [2%nat] "online" 0)
           eq_refl (or_introl eq_refl) Hc eq_refl Hlen Hfresh).
Defined.

(** A content made of white space only passes the check of the route,
    is trimmed to nothing, and is then refused by the validator of the
    schema: the caller gets 500, not 400, and nothing is stored. *)
Theorem send_blank_content_is_server_error (A B newId : ObjectId) (content : string)
  (messageType : option string) (now : Date) (s : Store) (uA : User.t) :
  users s !! A = Some uA ->
  In B (User.friends uA) ->
  content <> "" ->
  trim content = "" ->
  route (send A (Some B) (Some content) messageType newId now) s =
    (Failure 500 "Server error", s).
Proof.
  intros HA Hf Hc Hblank. unfold route, send. destruct content as [| c content]; [done |].
  rewrite run_await_query. unfold findById at 1. rewrite HA.
  apply includes_In in Hf. rewrite Hf. cbn [negb]. rewrite run_bind. cbn [run await].
  unfold insert_message. rewrite Hblank.
  by destruct (parse_messageType _).
Qed.

Lemma send_blank_content_is_server_error_witness :
  route (send 1 (Some 2%nat) (Some "   ") None 106 9) chat = (Failure 500 "Server error", chat).
Proof.
  assert ("   " <> "") as Hc by discriminate.
  exact (send_blank_content_is_server_error 1 2 106 "   " None 9 chat
           (User.mk "alice" "" "" "" [2%nat] "online" 0)
           eq_refl (or_introl eq_refl) Hc eq_refl).
Defined.

(** The same with a content that is one no-break space (U+00A0). *)
Example send_no_break_space :
  route (send 1 (Some 2%nat) (Some (String (ascii_of_nat 160) EmptyString)) None 106 9) chat =
    (Failure 500 "Server error", chat).
Proof. vm_compute. reflexivity. Qed.


(** ** Friendship and messaging together *)

(** Once a request is accepted, each of the two can send the other a
    message. *)
Theorem accept_opens_messaging
  (requestId userId newId : ObjectId) (now now' : Date) (s s' : Store)
  (code : nat) (message : option string) (data : Populated) (content : string) :
  consistent s ->
  route (accept requestId userId now) s = (Success code message data, s') ->
  content <> "" ->
  (1 <= String.length (trim content) <= 1000)%nat ->
  (forall m, In m (messages s) -> Message._id m <> newId) ->
  reply_code (fst (route (send userId (Some (FriendRequest.sender (fst data)))
                            (Some content) None newId now') s')) = 201%nat
  /\ reply_code (fst (route (send (FriendRequest.sender (fst data)) (Some userId)
                               (Some content) None newId now') s')) = 201%nat.
Proof.
  intros Hc Hrun Hcontent Hlen Hfresh.
  apply accept_success in Hrun as (r & Hin & Hid & Hrc & Hst & Hdata & ->).
  rewrite Hdata. cbn [with_status FriendRequest.sender].
  destruct (requests_exist s Hc r Hin) as [HS HU]. rewrite Hrc in HU.
  set (S := FriendRequest.sender r) in *.
  set (s1 := addToSet_friends S userId
               (addToSet_friends userId S
                  (save_status requestId FriendRequest.accepted now s))).
  assert (forall j, friends_of s1 j =
            if decide (j = userId) then addToSet S (friends_of s userId)
            else if decide (j = S) then addToSet userId (friends_of s S)
            else friends_of s j) as Hfr.
  { intros j. unfold s1. by rewrite friends_after_accept. }
  assert (forall j, is_Some (users s !! j) -> is_Some (users s1 !! j)) as Hdom.
  { intros j Hj. unfold s1. by apply users_addToSet_friends, users_addToSet_friends. }
  destruct (Hdom userId HU) as [u1 Hu1]. destruct (Hdom S HS) as [uS HuS].
  assert (In S (User.friends u1)) as H1.
  { pose proof (Hfr userId) as H. unfold friends_of in H at 1. rewrite Hu1 in H.
    rewrite decide_True in H by done. rewrite H. apply addToSet_In. by left. }
  assert (In userId (User.friends uS)) as H2.
  { pose proof (Hfr S) as H. unfold friends_of in H at 1. rewrite HuS in H. rewrite H.
    repeat case_decide; try congruence; apply addToSet_In; left; congruence. }
  split.
  - by rewrite (send_to_friend userId S newId content None Message.text now' s1 u1).
  - by rewrite (send_to_friend S userId newId content None Message.text now' s1 uS).
Qed.

Lemma accept_opens_messaging_witness :
  let s' := snd (route (accept 10 2 6) (request_1_to_2 FriendRequest.pending)) in
  reply_code (fst (route (send 2 (Some 1%nat) (Some "hello") None 100 7) s')) = 201%nat
  /\ reply_code (fst (route (send 1 (Some 2%nat) (Some "hello") None 100 7) s')) = 201%nat.
Proof.
  intros s'.
  assert (consistent (request_1_to_2 FriendRequest.pending)) as Hc
    by (apply consistentb_sound; vm_compute; reflexivity).
  assert (route (accept 10 2 6) (request_1_to_2 FriendRequest.pending) =
            (Success 200 (Some "Friend request accepted")
               (FriendRequest.mk 10 1 2 FriendRequest.accepted "hi" 5 6,
                Some (mkProfile 1 "alice" None "" (Some "") None None)), s')) as Hrun
    by (vm_compute; reflexivity).
  assert ("hello" <> "") as Hcontent by discriminate.
  assert (1 <= String.length (trim "hello") <= 1000)%nat as Hlen by (vm_compute; lia).
  assert (forall m, In m (messages (request_1_to_2 FriendRequest.pending)) ->
                    Message._id m <> 100%nat) as Hfresh by (intros m []).
  exact (accept_opens_messaging 10 2 100 6 7 (request_1_to_2 FriendRequest.pending) s' 200
           (Some "Friend request accepted")
           (FriendRequest.mk 10 1 2 FriendRequest.accepted "hi" 5 6,
            Some (mkProfile 1 "alice" None "" (Some "") None None))
           "hello" Hc Hrun Hcontent Hlen Hfresh).
Defined.

(** Once a friend is removed, neither of the two can send the other a
    message or fetch their conversation: both get 403.  The messages
    they exchanged stay stored. *)
Theorem removeFriend_closes_messaging (userId friendId newId : ObjectId)
  (content : string) (page limit : option Z) (now : Date) (s : Store) (u : User.t) :
  users s !! userId = Some u ->
  In friendId (User.friends u) ->
  is_Some (users s !! friendId) ->
  content <> "" ->
  let s' := snd (route (removeFriend userId friendId) s) in
  reply_code (fst (route (send userId (Some friendId) (Some content) None newId now) s'))
    = 403%nat
  /\ reply_code (fst (route (send friendId (Some userId) (Some content) None newId now) s'))
     = 403%nat
  /\ reply_code (fst (route (conversation userId friendId page limit now) s')) = 403%nat
  /\ reply_code (fst (route (conversation friendId userId page limit now) s')) = 403%nat
  /\ messages s' = messages s.
Proof.
  intros Hu Hin Hf Hcontent s'. unfold s'.
  rewrite (removeFriend_run userId friendId s u Hu Hin). cbn [snd].
  set (s1 := pull_friends friendId userId (pull_friends userId friendId s)).
  assert (forall j, is_Some (users s !! j) -> is_Some (users s1 !! j)) as Hdom.
  { intros j Hj. unfold s1, pull_friends, set_users. cbn [users]. rewrite !lookup_alter.
    repeat case_decide; subst; rewrite ?fmap_is_Some; done. }
  assert (~ In friendId (friends_of s1 userId)) as H1.
  { unfold s1. rewrite !friends_of_pull_friends.
    repeat case_decide; subst; rewrite ?pull_In; rewrite ?friends_of_pull_friends;
      repeat case_decide; rewrite ?pull_In; intuition congruence. }
  assert (~ In userId (friends_of s1 friendId)) as H2.
  { unfold s1. rewrite !friends_of_pull_friends.
    repeat case_decide; subst; rewrite ?pull_In; rewrite ?friends_of_pull_friends;
      repeat case_decide; rewrite ?pull_In; intuition congruence. }
  destruct (Hdom userId) as [u1 Hu1]; [by eexists |].
  destruct (Hdom friendId Hf) as [uf Huf].
  unfold friends_of in H1, H2. rewrite Hu1 in H1. rewrite Huf in H2.
  rewrite (send_not_friend userId friendId newId content None now s1 u1 Hu1 H1 Hcontent).
  rewrite (send_not_friend friendId userId newId content None now s1 uf Huf H2 Hcontent).
  rewrite (conversation_not_friend userId friendId page limit now s1 u1 Hu1 H1).
  rewrite (conversation_not_friend friendId userId page limit now s1 uf Huf H2).
  by repeat split.
Qed.

Lemma removeFriend_closes_messaging_witness :
  let s' := snd (route (removeFriend 1 2) chat) in
  reply_code (fst (route (send 1 (Some 2%nat) (Some "hello") None 106 9) s')) = 403%nat
  /\ reply_code (fst (route (send 2 (Some 1%nat) (Some "hello") None 106 9) s')) = 403%nat
  /\ reply_code (fst (route (conversation 1 2 None None 9) s')) = 403%nat
  /\ reply_code (fst (route (conversation 2 1 None None 9) s')) = 403%nat
  /\ messages s' = messages chat.
Proof.
  assert ("hello" <> "") as Hcontent by discriminate.
  assert (is_Some (users chat !! 2%nat)) as Hf by (vm_compute; by eexists).
  exact (removeFriend_closes_messaging 1 2 106 "hello" None None 9 chat
           (User.mk "alice" "" "" "" [2%nat] "online" 0)
           eq_refl (or_introl eq_refl) Hf Hcontent).
Defined.

(** ** Marking one message read *)

(** The filter of the route: [{ _id, recipient, isRead: false }]. *)
Lemma unread_for_spec (messageId userId : ObjectId) (m : Message.t) :
  Nat.eqb (Message._id m) messageId && Nat.eqb (Message.recipient m) userId
  && negb (Message.isRead m) = true <->
  Message._id m = messageId /\ Message.recipient m = userId /\ Message.isRead m = false.
Proof. rewrite !andb_true_iff, !Nat.eqb_eq, negb_true_iff. tauto. Qed.

Lemma findOneAndUpdate_message_none (p : Message.t -> bool) (upd : Message.t -> Message.t)
  (l : list Message.t) :
  (forall m, In m l -> p m = false) -> findOneAndUpdate_message p upd l = (None, l).
Proof.
  induction l as [| m l IH]; intros H; [reflexivity |]. cbn [findOneAndUpdate_message].
  rewrite (H m) by by left. rewrite IH; [reflexivity |]. intros m' Hm'. apply H. by right.
Qed.

Lemma findOneAndUpdate_message_some (p : Message.t -> bool) (upd : Message.t -> Message.t)
  (l l' : list Message.t) (m' : Message.t) :
  findOneAndUpdate_message p upd l = (Some m', l') ->
  exists l1 m l2, l = l1 ++ m :: l2 /\ p m = true /\ m' = upd m /\ l' = l1 ++ upd m :: l2.
Proof.
  revert l'. induction l as [| m0 l IH]; intros l'; [discriminate |].
  cbn [findOneAndUpdate_message]. destruct (p m0) eqn:E.
  - intros [= <- <-]. by exists [], m0, l.
  - destruct (findOneAndUpdate_message p upd l) as [found l''].
    intros [= -> <-]. destruct (IH l'' eq_refl) as (l1 & m & l2 & -> & Hp & -> & ->).
    by exists (m0 :: l1), m, l2.
Qed.

Lemma markRead_not_found (messageId userId : ObjectId) (now : Date) (s : Store) :
  (forall m, In m (messages s) ->
     Nat.eqb (Message._id m) messageId && Nat.eqb (Message.recipient m) userId
     && negb (Message.isRead m) = false) ->
  route (markRead messageId userId now) s =
    (Failure 404 "Message not found or already read", s).
Proof.
  intros H. unfold route, markRead. cbn [bind await run].
  rewrite (findOneAndUpdate_message_none _ _ _ H). cbn [run respond].
  unfold set_messages. by rewrite store_eta.
Qed.

(** A message can be marked read by its recipient only, and once: when
    every message of this id is addressed to somebody else or is read
    already, the route fails not-found and changes nothing. *)
Theorem markRead_refuses_others_and_read (messageId userId : ObjectId) (now : Date)
  (s : Store) :
  (forall m, In m (messages s) -> Message._id m = messageId ->
             Message.recipient m <> userId \/ Message.isRead m = true) ->
  route (markRead messageId userId now) s =
    (Failure 404 "Message not found or already read", s).
Proof.
  intros H. apply markRead_not_found. intros m Hm.
  match goal with |- ?b = false => destruct b eqn:E; [| reflexivity] end.
  apply unread_for_spec in E as (Hid & Hrc & Hrd). destruct (H m Hm Hid); congruence.
Qed.

Lemma markRead_refuses_others_and_read_witness :
  route (markRead 104 1 9) chat = (Failure 404 "Message not found or already read", chat).
Proof.
  apply (markRead_refuses_others_and_read 104 1 9 chat).
  intros m Hm Hid. simpl in Hm. left.
  intuition (subst; simpl in *; lia).
Defined.

(** Marking a message read sets [isRead] and [readAt] on that message
    and on nothing else, lowers the unread count of the caller by one
    and nobody else's, and (message ids being unique) cannot be done a
    second time. *)
Theorem markRead_marks_one (messageId userId : ObjectId) (now now' : Date) (s s' : Store)
  (code : nat) (message : option string) :
  List.NoDup (map Message._id (messages s)) ->
  route (markRead messageId userId now) s = (Success code message tt, s') ->
  (exists l1 m l2,
     messages s = l1 ++ m :: l2
     /\ Message._id m = messageId /\ Message.recipient m = userId
     /\ Message.isRead m = false
     /\ messages s' = l1 ++ mark_read now m :: l2)
  /\ users s' = users s
  /\ friendrequests s' = friendrequests s
  /\ countUnread userId (messages s) = S (countUnread userId (messages s'))
  /\ (forall U, U <> userId -> countUnread U (messages s') = countUnread U (messages s))
  /\ route (markRead messageId userId now') s' =
       (Failure 404 "Message not found or already read", s').
Proof.
  intros Hnd. unfold route at 1, markRead at 1. cbn [bind await run].
  destruct (findOneAndUpdate_message _ _ _) as [[m' |] l'] eqn:E; cbn [run respond];
    [| discriminate].
  intros [= _ _ <-].
  apply findOneAndUpdate_message_some in E as (l1 & m & l2 & Hl & Hp & _ & ->).
  apply unread_for_spec in Hp as (Hid & Hrc & Hrd).
  cbn [messages users friendrequests set_messages].
  split; [by exists l1, m, l2 |]. split; [done |]. split; [done |].
  assert (forall U, countUnread U (l1 ++ mark_read now m :: l2) +
                    (if Nat.eqb (Message.recipient m) U then 1 else 0) =
                    countUnread U (messages s))%nat as Hcount.
  { intros U. rewrite Hl. unfold countUnread.
    rewrite !List.filter_app, !length_app. cbn [List.filter mark_read Message.recipient
      Message.isRead negb]. rewrite andb_false_r, Hrd. cbn [negb].
    rewrite andb_true_r. destruct (Nat.eqb (Message.recipient m) U); cbn [length]; lia. }
  split; [| split].
  - specialize (Hcount userId). rewrite Hrc, Nat.eqb_refl in Hcount. lia.
  - intros U HU. specialize (Hcount U). rewrite Hrc in Hcount.
    apply not_eq_sym, Nat.eqb_neq in HU. rewrite HU in Hcount. lia.
  - apply markRead_not_found. cbn [messages].
    rewrite Hl, map_app in Hnd. cbn [map] in Hnd.
    intros x Hx.
    match goal with |- ?b = false => destruct b eqn:E; [| reflexivity] end.
    apply unread_for_spec in E as (Hxid & _ & Hxrd).
    apply in_app_or in Hx as [Hx | [<- | Hx]].
    + exfalso. apply NoDup_remove_2 in Hnd. apply Hnd, in_or_app. left.
      rewrite Hid, <- Hxid. by apply in_map.
    + discriminate Hxrd.
    + exfalso. apply NoDup_remove_2 in Hnd. apply Hnd, in_or_app. right.
      rewrite Hid, <- Hxid. by apply in_map.
Qed.

Lemma markRead_marks_one_witness :
  let s' := snd (route (markRead 102 1 9) chat) in
  (exists l1 m l2,
     messages chat = l1 ++ m :: l2
     /\ Message._id m = 102%nat /\ Message.recipient m = 1%nat
     /\ Message.isRead m = false
     /\ messages s' = l1 ++ mark_read 9 m :: l2)
  /\ users s' = users chat
  /\ friendrequests s' = friendrequests chat
  /\ countUnread 1 (messages chat) = S (countUnread 1 (messages s'))
  /\ (forall U, U <> 1%nat -> countUnread U (messages s') = countUnread U (messages chat))
  /\ route (markRead 102 1 10) s' = (Failure 404 "Message not found or already read", s').
Proof.
  intros s'.
  assert (List.NoDup (map Message._id (messages chat))) as Hnd.
  { apply nodupb_NoDup. vm_compute. reflexivity. }
  assert (route (markRead 102 1 9) chat =
            (Success 200 (Some "Message marked as read") tt, s')) as Hrun
    by (vm_compute; reflexivity).
  exact (markRead_marks_one 102 1 9 10 chat s' 200 (Some "Message marked as read") Hnd Hrun).
Defined.

(** ** The page of a conversation *)

Lemma StronglySorted_app_inv {A : Type} (R : A -> A -> Prop) (l1 l2 : list A) :
  StronglySorted R (l1 ++ l2) -> StronglySorted R l1 /\ StronglySorted R l2.
Proof.
  induction l1 as [| x l1 IH]; cbn [app]; intros H; [split; [constructor | exact H] |].
  apply StronglySorted_inv in H as [H Hx]. destruct (IH H) as [H1 H2].
  split; [| exact H2]. constructor; [exact H1 |].
  rewrite List.Forall_forall in *. intros y Hy. apply Hx, in_or_app. by left.
Qed.

Lemma StronglySorted_snoc {A : Type} (R : A -> A -> Prop) (l : list A) (x : A) :
  StronglySorted R l -> (forall y, In y l -> R y x) -> StronglySorted R (l ++ [x]).
Proof.
  induction l as [| z l IH]; cbn [app]; intros H Hx; [repeat constructor |].
  apply StronglySorted_inv in H as [H Hz]. constructor.
  - apply IH; [exact H |]. intros y Hy. apply Hx. by right.
  - rewrite List.Forall_forall in *. intros y Hy.
    apply in_app_or in Hy as [Hy | [<- | []]]; [by apply Hz | apply Hx; by left].
Qed.

Lemma StronglySorted_rev {A : Type} (R : A -> A -> Prop) (l : list A) :
  StronglySorted R l -> StronglySorted (fun x y => R y x) (rev l).
Proof.
  induction l as [| x l IH]; cbn [rev]; intros H; [constructor |].
  apply StronglySorted_inv in H as [H Hx]. apply StronglySorted_snoc; [by apply IH |].
  intros y Hy. apply in_rev in Hy. rewrite List.Forall_forall in Hx. by apply Hx.
Qed.

Lemma StronglySorted_window {A : Type} (R : A -> A -> Prop) (n k : nat) (l : list A) :
  StronglySorted R l -> StronglySorted R (firstn n (skipn k l)).
Proof.
  intros H. rewrite <- (firstn_skipn k l) in H.
  apply StronglySorted_app_inv in H as [_ H].
  rewrite <- (firstn_skipn n (skipn k l)) in H.
  by apply StronglySorted_app_inv in H as [H _].
Qed.

Lemma In_window {A : Type} (n k : nat) (l : list A) (x : A) :
  In x (firstn n (skipn k l)) -> In x l.
Proof.
  intros H. apply In_firstn in H. rewrite <- (firstn_skipn k l). apply in_or_app. by right.
Qed.

Lemma between_exchanged (A B : ObjectId) (m : Message.t) :
  between A B m = true <-> exchanged A B m.
Proof.
  unfold between, exchanged. rewrite orb_true_iff, !andb_true_iff, !Nat.eqb_eq. tauto.
Qed.

(** The page sent back to a friend: messages between the two users, as
    they were stored before the fetch marked anything, each with its
    populated sender, oldest first, no more than the limit; [hasMore]
    says whether the page is full. *)
Theorem conversation_page (A B : ObjectId) (pageq limitq : option Z) (now : Date)
  (s : Store) (uA : User.t) :
  users s !! A = Some uA ->
  In B (User.friends uA) ->
  0 <= (or_int pageq 1 - 1) * or_int limitq 50 ->
  exists (l : list Sent) (p : Pagination),
    fst (route (conversation A B pageq limitq now) s) = Success 200 None (l, p)
    /\ (forall m sender, In (m, sender) l ->
          In m (messages s) /\ exchanged A B m
          /\ sender = populate select_username_avatar (Message.sender m) s)
    /\ (length l <= Z.abs_nat (or_int limitq 50))%nat
    /\ StronglySorted (older_first Message.createdAt) (map fst l)
    /\ page p = or_int pageq 1
    /\ limit p = or_int limitq 50
    /\ hasMore p = Z.eqb (Z.of_nat (length l)) (or_int limitq 50).
Proof.
  intros HA Hf Hskip. unfold route, conversation.
  rewrite run_await_query. unfold findById at 1. rewrite HA.
  apply includes_In in Hf. rewrite Hf. cbn [negb bind await run]. unfold window.
  apply Z.ltb_ge in Hskip. rewrite Hskip. cbn [run update respond fst].
  eexists _, _. split; [reflexivity |]. cbn [page limit hasMore].
  split; [| split; [| split; [| by repeat split]]].
  - intros m sender Hin. apply in_rev, In_window, in_map_iff in Hin
      as (m0 & [= <- <-] & Hin).
    apply sort_desc_In, filter_In in Hin as [Hin Hb].
    split; [done |]. split; [by apply between_exchanged | done].
  - rewrite length_rev. apply firstn_le_length.
  - rewrite map_rev, <- firstn_map, <- skipn_map, map_map. cbn [fst]. rewrite map_id.
    apply (StronglySorted_rev (newer_first Message.createdAt)).
    apply StronglySorted_window, sort_desc_sorted.
Qed.

Lemma conversation_page_witness :
  exists (l : list Sent) (p : Pagination),
    fst (route (conversation 1 2 (Some 2) (Some 2) 9) chat) = Success 200 None (l, p)
    /\ (forall m sender, In (m, sender) l ->
          In m (messages chat) /\ exchanged 1 2 m
          /\ sender = populate select_username_avatar (Message.sender m) chat)
    /\ (length l <= Z.abs_nat (or_int (Some 2%Z) 50%Z))%nat
    /\ StronglySorted (older_first Message.createdAt) (map fst l)
    /\ page p = or_int (Some 2) 1
    /\ limit p = or_int (Some 2) 50
    /\ hasMore p = Z.eqb (Z.of_nat (length l)) (or_int (Some 2) 50).
Proof.
  assert (0 <= (or_int (Some 2) 1 - 1) * or_int (Some 2) 50) as Hskip by (vm_compute; discriminate).
  exact (conversation_page 1 2 (Some 2) (Some 2) 9 chat
           (User.mk "alice" "" "" "" [2%nat] "online" 0) eq_refl (or_introl eq_refl) Hskip).
Defined.

(** The second page of two of the four messages between users 1 and 2:
    the two oldest, oldest first, still unread as sent back. *)
Example conversation_second_page :
  match fst (route (conversation 1 2 (Some 2) (Some 2) 9) chat) with
  | Success 200 None (l, p) =>
      map (fun x => (Message._id (fst x), Message.isRead (fst x))) l =
        [(101%nat, false); (102%nat, false)]
      /\ p = mkPagination 2 2 true
  | _ => False
  end.
Proof. vm_compute. by split. Qed.

(** ** The lists of pending requests and of friends *)

Lemma map_fst_pair {A B : Type} (f : A -> B) (l : list A) :
  map fst (map (fun x => (x, f x)) l) = l.
Proof. rewrite map_map. cbn [fst]. apply map_id. Qed.

(** The received and the sent requests of a user are their pending
    requests, as recipient and as sender, each once, newest first, each
    with the other user populated; listing them changes nothing. *)
Theorem pending_requests_are_listed (userId : ObjectId) (s : Store) :
  exists received sent : list Populated,
    route (requests_received userId) s = (Success 200 None received, s)
    /\ route (requests_sent userId) s = (Success 200 None sent, s)
    /\ Permutation (map fst received)
         (List.filter (fun r => Nat.eqb (FriendRequest.recipient r) userId
                                && FriendRequest.is_pending r) (friendrequests s))
    /\ Permutation (map fst sent)
         (List.filter (fun r => Nat.eqb (FriendRequest.sender r) userId
                                && FriendRequest.is_pending r) (friendrequests s))
    /\ (forall r, In r (map fst received) <->
                  In r (friendrequests s) /\ FriendRequest.recipient r = userId
                  /\ FriendRequest.status r = FriendRequest.pending)
    /\ (forall r, In r (map fst sent) <->
                  In r (friendrequests s) /\ FriendRequest.sender r = userId
                  /\ FriendRequest.status r = FriendRequest.pending)
    /\ StronglySorted (newer_first FriendRequest.createdAt) (map fst received)
    /\ StronglySorted (newer_first FriendRequest.createdAt) (map fst sent)
    /\ (forall r p, In (r, p) received ->
                    p = populate select_username_avatar_bio (FriendRequest.sender r) s)
    /\ (forall r p, In (r, p) sent ->
                    p = populate select_username_avatar_bio (FriendRequest.recipient r) s).
Proof.
  eexists _, _. split; [reflexivity |]. split; [reflexivity |].
  rewrite !map_fst_pair.
  assert (forall r, FriendRequest.is_pending r = true <->
                    FriendRequest.status r = FriendRequest.pending) as Hp.
  { intros r. unfold FriendRequest.is_pending. by destruct (FriendRequest.status r). }
  split; [apply sort_desc_perm |]. split; [apply sort_desc_perm |].
  split.
  { intros r. rewrite sort_desc_In, filter_In, andb_true_iff, Nat.eqb_eq, Hp. tauto. }
  split.
  { intros r. rewrite sort_desc_In, filter_In, andb_true_iff, Nat.eqb_eq, Hp. tauto. }
  split; [apply sort_desc_sorted |]. split; [apply sort_desc_sorted |].
  split.
  - intros r p H. by apply in_map_iff in H as (r0 & [= <- <-] & _).
  - intros r p H. by apply in_map_iff in H as (r0 & [= <- <-] & _).
Qed.

Lemma populate_friends_ids (s : Store) (l : list ObjectId) :
  map p_id (flat_map (fun f => match populate select_profile f s with
                               | Some p => [p] | None => [] end) l) =
  List.filter (is_user s) l.
Proof.
  induction l as [| f l IH]; [reflexivity |]. cbn [flat_map List.filter].
  rewrite map_app, IH. unfold populate, findById, is_user.
  by destruct (users s !! f).
Qed.

(** The friends list of a user holds the profile of each friend that is
    a user, in the order of the friends array; on a consistent store
    that is every friend.  Listing changes nothing. *)
Theorem friendsList_lists_friends (me : ObjectId) (s : Store) (u : User.t) :
  users s !! me = Some u ->
  exists l : list Profile,
    route (friendsList me) s = (Success 200 None l, s)
    /\ map p_id l = List.filter (is_user s) (User.friends u)
    /\ (forall p, In p l ->
          In (p_id p) (User.friends u)
          /\ exists uf, users s !! p_id p = Some uf /\ p = select_profile (p_id p) uf)
    /\ (consistent s -> map p_id l = User.friends u).
Proof.
  intros Hu. unfold route, friendsList. rewrite run_await_query.
  unfold findById at 1. rewrite Hu. cbn [fmap option_fmap option_map run respond].
  eexists. split; [reflexivity |]. split; [apply populate_friends_ids |]. split.
  - intros p Hp. apply in_flat_map in Hp as (f & Hf & Hp).
    unfold populate, findById in Hp. destruct (users s !! f) as [uf |] eqn:E; [| destruct Hp].
    destruct Hp as [<- | []]. cbn [select_profile p_id]. split; [done | by exists uf].
  - intros Hc. rewrite populate_friends_ids. apply forallb_filter_id, forallb_forall.
    intros f Hf. apply is_user_is_Some. by apply (friends_exist s Hc me u).
Qed.

Lemma friendsList_lists_friends_witness :
  exists l : list Profile,
    route (friendsList 1) chat = (Success 200 None l, chat)
    /\ map p_id l = List.filter (is_user chat) [2%nat]
    /\ (forall p, In p l ->
          In (p_id p) [2%nat]
          /\ exists uf, users chat !! p_id p = Some uf /\ p = select_profile (p_id p) uf)
    /\ (consistent chat -> map p_id l = [2%nat]).
Proof.
  exact (friendsList_lists_friends 1 chat (User.mk "alice" "" "" "" [2%nat] "online" 0)
           eq_refl).
Defined.

(** ** The unread count and the conversation summaries *)

Lemma list_sum_cons (a : nat) (l : list nat) : list_sum (a :: l) = (a + list_sum l)%nat.
Proof. reflexivity. Qed.

Lemma sum_indicator (x : ObjectId) (b : bool) (ids : list ObjectId) :
  List.NoDup ids -> In x ids ->
  list_sum (map (fun c => if Nat.eqb x c && b then 1 else 0)%nat ids) =
    (if b then 1 else 0)%nat.
Proof.
  induction ids as [| c ids IH]; intros Hnd Hin; [destruct Hin |].
  apply NoDup_cons_iff in Hnd as [Hc Hnd]. cbn [map]. rewrite list_sum_cons.
  destruct Hin as [-> | Hin].
  - rewrite Nat.eqb_refl. cbn [andb].
    assert (list_sum (map (fun c => if Nat.eqb x c && b then 1 else 0)%nat ids) = 0%nat) as ->;
      [| lia].
    clear IH Hnd. induction ids as [| c ids IH]; [reflexivity |]. cbn [map]. rewrite list_sum_cons.
    assert (Nat.eqb x c = false) as -> by (apply Nat.eqb_neq; intros ->; apply Hc; by left).
    cbn [andb]. rewrite IH; [reflexivity |]. intros H. apply Hc. by right.
  - assert (Nat.eqb x c = false) as -> by (apply Nat.eqb_neq; intros ->; by apply Hc).
    cbn [andb]. by rewrite IH.
Qed.

Lemma sum_over_groups (U : ObjectId) (docs : list Message.t) (ids : list ObjectId) :
  List.NoDup ids ->
  (forall m, In m docs -> In (counterpart U m) ids) ->
  list_sum (map (fun c => length (List.filter (unread_in_group U c) docs)) ids) =
  countUnread U docs.
Proof.
  intros Hnd. induction docs as [| m docs IH]; intros Hcover.
  - unfold countUnread. cbn [List.filter length]. induction ids; [reflexivity |].
    cbn [map]. rewrite list_sum_cons. apply NoDup_cons_iff in Hnd as [_ Hnd]. by rewrite IHids.
  - specialize (IH (fun m' H => Hcover m' (or_intror H))).
    transitivity
      (list_sum (map (fun c => if Nat.eqb (counterpart U m) c
                                  && (Nat.eqb (Message.recipient m) U
                                      && negb (Message.isRead m))
                               then 1 else 0)%nat ids)
       + list_sum (map (fun c => length (List.filter (unread_in_group U c) docs)) ids))%nat.
    + clear IH Hcover Hnd. induction ids as [| c ids IHi]; [reflexivity |].
      cbn [map]. rewrite !list_sum_cons, IHi. cbn [List.filter].
      unfold unread_in_group at 1, in_group.
      destruct (Nat.eqb (counterpart U m) c && _); cbn [length]; lia.
    + rewrite (sum_indicator _ _ ids Hnd (Hcover m (or_introl eq_refl))), IH.
      unfold countUnread. cbn [List.filter].
      destruct (Nat.eqb (Message.recipient m) U && negb (Message.isRead m)); cbn [length]; lia.
Qed.

Lemma project_counts (us : gmap nat User.t) (gs : list Group) :
  (forall g, In g gs -> is_Some (us !! g_id g)) ->
  map c_unreadCount (flat_map (lookup_unwind_project us) gs) = map g_unreadCount gs.
Proof.
  induction gs as [| g gs IH]; intros Hus; [reflexivity |].
  cbn [flat_map map]. rewrite map_app, IH by (intros g' Hg'; apply Hus; by right).
  destruct (Hus g) as [u Hu]; [by left |].
  unfold lookup_unwind_project. by rewrite Hu.
Qed.

(** The unread count of a user is the sum of the unread counts of the
    user's conversation summaries. *)
Theorem unread_count_is_sum_of_summaries (U : ObjectId) (s : Store) :
  consistent s ->
  exists (l : list Conversation) (n : nat),
    fst (route (conversations U) s) = Success 200 None l
    /\ fst (route (unreadCount U) s) = Success 200 None n
    /\ list_sum (map c_unreadCount l) = n.
Proof.
  intros Hc. eexists _, _. split; [reflexivity |]. split; [reflexivity |].
  unfold aggregate_conversations.
  set (matched := List.filter _ (messages s)).
  set (sorted := sort_desc Message.createdAt matched).
  pose proof (group_grouped U sorted) as [Hnd Hids Hfirst Hcount].
  set (gs := group U sorted) in *.
  assert (forall g, In g gs -> is_Some (users s !! g_id g)) as Husers.
  { intros g Hg.
    assert (In (g_id g) (map g_id gs)) as Hin by by apply in_map.
    apply Hids in Hin as (m & Hm & Hcp).
    apply sort_desc_In, filter_In in Hm as [Hm _].
    destruct (messages_exist s Hc m Hm) as [H1 H2].
    unfold counterpart in Hcp. rewrite <- Hcp.
    by destruct (Nat.eqb (Message.sender m) U). }
  rewrite (Permutation_list_sum
             (Permutation_map c_unreadCount (sort_desc_perm _ _))).
  rewrite (project_counts (users s) gs Husers).
  transitivity (list_sum (map (fun c => length (List.filter (unread_in_group U c) sorted))
                              (map g_id gs))).
  { rewrite map_map. f_equal. apply map_ext_in. intros g Hg. by apply Hcount. }
  rewrite (sum_over_groups U sorted (map g_id gs) Hnd).
  - unfold countUnread, sorted. rewrite sort_desc_filter_length. unfold matched.
    f_equal. clear. induction (messages s) as [| m l IH]; [reflexivity |].
    cbn [List.filter].
    destruct (Nat.eqb (Message.recipient m) U && negb (Message.isRead m)) eqn:E.
    + apply andb_prop in E as [E1 E2]. rewrite E1, orb_true_r. cbn [List.filter].
      by rewrite E1, E2, IH.
    + destruct (Nat.eqb (Message.sender m) U || Nat.eqb (Message.recipient m) U);
        [| exact IH].
      cbn [List.filter]. by rewrite E.
  - intros m Hm. apply Hids. by exists m.
Qed.

Lemma unread_count_is_sum_of_summaries_witness :
  exists (l : list Conversation) (n : nat),
    fst (route (conversations 1) chat) = Success 200 None l
    /\ fst (route (unreadCount 1) chat) = Success 200 None n
    /\ list_sum (map c_unreadCount l) = n.
Proof.
  assert (consistent chat) as Hc by (apply consistentb_sound; vm_compute; reflexivity).
  exact (unread_count_is_sum_of_summaries 1 chat Hc).
Defined.

(** ** What every route keeps *)

(** Every route that writes keeps the store consistent: references
    resolve and no friends array lists an id twice, after any of them,
    with any arguments. *)
Theorem routes_keep_consistent (s : Store) :
  consistent s ->
  (forall senderId recipientId message newId now,
     consistent (snd (route (sendRequest senderId recipientId message newId now) s)))
  /\ (forall requestId userId now,
        consistent (snd (route (accept requestId userId now) s)))
  /\ (forall requestId userId now,
        consistent (snd (route (reject requestId userId now) s)))
  /\ (forall userId friendId,
        consistent (snd (route (removeFriend userId friendId) s)))
  /\ (forall senderId recipientId content messageType newId now,
        consistent (snd (route (send senderId recipientId content messageType newId now) s)))
  /\ (forall currentUserId otherUserId pageq limitq now,
        consistent (snd (route (conversation currentUserId otherUserId pageq limitq now) s)))
  /\ (forall messageId userId now,
        consistent (snd (route (markRead messageId userId now) s)))
  /\ (forall me status now,
        consistent (snd (route (updateStatus me status now) s))).
Proof.
  intros Hc. repeat apply conj; intros.
  - by apply consistent_sendRequest.
  - by apply consistent_accept.
  - by apply consistent_reject.
  - by apply consistent_removeFriend.
  - by apply consistent_send.
  - by apply consistent_conversation.
  - by apply consistent_markRead.
  - by apply consistent_updateStatus.
Qed.

Lemma routes_keep_consistent_witness :
  (forall senderId recipientId message newId now,
     consistent (snd (route (sendRequest senderId recipientId message newId now) chat)))
  /\ (forall requestId userId now,
        consistent (snd (route (accept requestId userId now) chat)))
  /\ (forall requestId userId now,
        consistent (snd (route (reject requestId userId now) chat)))
  /\ (forall userId friendId,
        consistent (snd (route (removeFriend userId friendId) chat)))
  /\ (forall senderId recipientId content messageType newId now,
        consistent (snd (route (send senderId recipientId content messageType newId now) chat)))
  /\ (forall currentUserId otherUserId pageq limitq now,
        consistent (snd (route (conversation currentUserId otherUserId pageq limitq now) chat)))
  /\ (forall messageId userId now,
        consistent (snd (route (markRead messageId userId now) chat)))
  /\ (forall me status now,
        consistent (snd (route (updateStatus me status now) chat))).
Proof.
  assert (consistent chat) as Hc by (apply consistentb_sound; vm_compute; reflexivity).
  exact (routes_keep_consistent chat Hc).
Defined.

Lemma NoDup_snoc {A : Type} (l : list A) (x : A) :
  List.NoDup l -> ~ In x l -> List.NoDup (l ++ [x]).
Proof.
  intros Hnd Hx. apply Permutation_NoDup with (l := x :: l).
  - apply Permutation_cons_append.
  - by constructor.
Qed.

Lemma indexed_same_keys (s s' : Store) :
  indexed s ->
  map FriendRequest._id (friendrequests s') = map FriendRequest._id (friendrequests s) ->
  map ordered_pair (friendrequests s') = map ordered_pair (friendrequests s) ->
  map Message._id (messages s') = map Message._id (messages s) ->
  indexed s'.
Proof. intros [H1 H2 H3] E1 E2 E3. split; congruence. Qed.

Lemma findOneAndUpdate_status_keys (p : FriendRequest.t -> bool)
  (st : FriendRequest.Status) (now : Date) (l : list FriendRequest.t) :
  map FriendRequest._id (snd (findOneAndUpdate_status p st now l)) = map FriendRequest._id l
  /\ map ordered_pair (snd (findOneAndUpdate_status p st now l)) = map ordered_pair l.
Proof.
  induction l as [| r l [IH1 IH2]]; [done |]. cbn [findOneAndUpdate_status].
  destruct (p r); [done |].
  destruct (findOneAndUpdate_status p st now l) as [found l']. cbn [snd map] in *.
  by rewrite IH1, IH2.
Qed.

Lemma findOneAndUpdate_message_keys (p : Message.t -> bool) (now : Date)
  (l : list Message.t) :
  map Message._id (snd (findOneAndUpdate_message p (mark_read now) l)) = map Message._id l.
Proof.
  induction l as [| m l IH]; [done |]. cbn [findOneAndUpdate_message].
  destruct (p m); [done |].
  destruct (findOneAndUpdate_message p (mark_read now) l) as [found l']. cbn [snd map] in *.
  by rewrite IH.
Qed.

Lemma indexed_sendRequest (senderId : ObjectId) (recipientId : option ObjectId)
  (message : option string) (newId : ObjectId) (now : Date) (s : Store) :
  indexed s ->
  indexed (snd (route (sendRequest senderId recipientId message newId now) s)).
Proof.
  intros Hi. rewrite route_store. unfold sendRequest.
  destruct recipientId as [recipientId |]; [| done].
  destruct (Nat.eqb senderId recipientId); [done |].
  rewrite run_await_query. destruct (findById recipientId s); [| done].
  rewrite run_bind. unfold checkExistingRelation. rewrite run_await_query. cbn [id_of].
  destruct (findById senderId s) as [sender |]; [| done].
  destruct (includes (User.friends sender) recipientId); [done |].
  rewrite run_await_query.
  destruct (List.find _ _) as [r |]; [by destruct (toString_strict_eq _ _) |].
  cbn [run Relation.is_none Relation.type negb]. unfold sendRequest_save.
  rewrite run_bind. cbn [run await]. unfold insert_request.
  destruct (Nat.ltb 200 _); [done |]. destruct (existsb _ _) eqn:E; [done |].
  cbn [run]. rewrite run_await_query. cbn [run snd].
  destruct Hi as [H1 H2 H3]. split; cbn [friendrequests messages set_friendrequests];
    [| | done]; rewrite map_app; cbn [map]; apply NoDup_snoc; try done.
  - intros Hin. apply in_map_iff in Hin as (r & Hr & Hin).
    cbn [FriendRequest._id] in Hr.
    apply not_true_iff_false in E. apply E. apply existsb_exists. exists r. split; [done |]. by rewrite Hr, Nat.eqb_refl.
  - intros Hin. apply in_map_iff in Hin as (r & Hr & Hin).
    unfold ordered_pair in Hr. cbn [FriendRequest.sender FriendRequest.recipient] in Hr.
    injection Hr as Hs Hrc.
    apply not_true_iff_false in E. apply E. apply existsb_exists. exists r. split; [done |]. unfold same_pair.
    cbn [FriendRequest.sender FriendRequest.recipient].
    by rewrite Hs, Hrc, !Nat.eqb_refl, orb_true_r.
Qed.

Lemma indexed_accept (requestId userId : ObjectId) (now : Date) (s : Store) :
  indexed s -> indexed (snd (route (accept requestId userId now) s)).
Proof.
  intros Hi. rewrite route_store. unfold accept. rewrite run_await_query.
  destruct (List.find _ _) as [r |]; [| done].
  rewrite !run_await_update, run_await_query. cbn [run snd].
  apply (indexed_same_keys s); [done | | | done];
    cbn [friendrequests addToSet_friends save_status set_users set_friendrequests];
    rewrite map_map; apply map_ext; intros r0;
    by destruct (Nat.eqb (FriendRequest._id r0) _).
Qed.

Lemma indexed_reject (requestId userId : ObjectId) (now : Date) (s : Store) :
  indexed s -> indexed (snd (route (reject requestId userId now) s)).
Proof.
  intros Hi. rewrite route_store. unfold reject. cbn [bind await run].
  destruct (findOneAndUpdate_status_keys (pending_for requestId userId)
              FriendRequest.rejected now (friendrequests s)) as [E1 E2].
  destruct (findOneAndUpdate_status _ _ _ _) as [found l]. cbn [snd] in E1, E2.
  assert (indexed (set_friendrequests (fun _ => l) s)) as Hi'
    by by apply (indexed_same_keys s).
  by destruct found.
Qed.

Lemma indexed_send (senderId : ObjectId) (recipientId : option ObjectId)
  (content messageType : option string) (newId : ObjectId) (now : Date) (s : Store) :
  indexed s ->
  indexed (snd (route (send senderId recipientId content messageType newId now) s)).
Proof.
  intros Hi. rewrite route_store. unfold send.
  destruct recipientId as [recipientId |]; [| done].
  destruct content as [[| c content] |]; try done.
  rewrite run_await_query. destruct (findById senderId s) as [sender |]; [| done].
  destruct (includes (User.friends sender) recipientId); [| done].
  cbn [negb]. rewrite run_bind. cbn [run await].
  unfold insert_message. destruct (parse_messageType _); [| done].
  destruct (_ || _)%bool; [done |]. destruct (existsb _ _) eqn:E; [done |].
  rewrite run_await_query. cbn [run snd].
  destruct Hi as [H1 H2 H3]. split; [done | done |].
  cbn [messages set_messages]. rewrite map_app. cbn [map Message._id].
  apply NoDup_snoc; [done |]. intros Hin.
  apply in_map_iff in Hin as (m0 & Hm & Hin).
  apply not_true_iff_false in E. apply E. apply existsb_exists.
  exists m0. split; [done |]. by apply Nat.eqb_eq.
Qed.

Lemma indexed_conversation (currentUserId otherUserId : ObjectId) (pageq limitq : option Z)
  (now : Date) (s : Store) :
  indexed s ->
  indexed (snd (route (conversation currentUserId otherUserId pageq limitq now) s)).
Proof.
  intros Hi. rewrite route_store. unfold conversation. rewrite run_await_query.
  destruct (findById currentUserId s) as [currentUser |]; [| done].
  destruct (includes (User.friends currentUser) otherUserId); [| done]. cbn [negb].
  cbn [bind await run]. destruct (window _ _ _); [done |].
  cbn [run update snd]. apply (indexed_same_keys s); try done.
  cbn [messages updateMany set_messages]. rewrite map_map. apply map_ext.
  intros m. by destruct (unread_from _ _ m).
Qed.

Lemma indexed_markRead (messageId userId : ObjectId) (now : Date) (s : Store) :
  indexed s -> indexed (snd (route (markRead messageId userId now) s)).
Proof.
  intros Hi. rewrite route_store. unfold markRead. cbn [bind await run].
  match goal with
  | |- context [findOneAndUpdate_message ?p ?f ?l] =>
      pose proof (findOneAndUpdate_message_keys p now l) as E;
      destruct (findOneAndUpdate_message p f l) as [found l']
  end.
  cbn [snd] in E.
  assert (indexed (set_messages (fun _ => l') s)) as Hi' by by apply (indexed_same_keys s).
  by destruct found.
Qed.

(** Every route that writes to the friend requests or to the messages
    keeps the indexes: no two requests with the same [_id] or the same
    ordered pair of sender and recipient, no two messages with the same
    [_id]. *)
Theorem routes_keep_indexes (s : Store) :
  indexed s ->
  (forall senderId recipientId message newId now,
     indexed (snd (route (sendRequest senderId recipientId message newId now) s)))
  /\ (forall requestId userId now,
        indexed (snd (route (accept requestId userId now) s)))
  /\ (forall requestId userId now,
        indexed (snd (route (reject requestId userId now) s)))
  /\ (forall senderId recipientId content messageType newId now,
        indexed (snd (route (send senderId recipientId content messageType newId now) s)))
  /\ (forall currentUserId otherUserId pageq limitq now,
        indexed (snd (route (conversation currentUserId otherUserId pageq limitq now) s)))
  /\ (forall messageId userId now,
        indexed (snd (route (markRead messageId userId now) s))).
Proof.
  intros Hi. repeat apply conj; intros.
  - by apply indexed_sendRequest.
  - by apply indexed_accept.
  - by apply indexed_reject.
  - by apply indexed_send.
  - by apply indexed_conversation.
  - by apply indexed_markRead.
Qed.

Lemma routes_keep_indexes_witness :
  (forall senderId recipientId message newId now,
     indexed (snd (route (sendRequest senderId recipientId message newId now)
                     (request_1_to_2 FriendRequest.pending))))
  /\ (forall requestId userId now,
        indexed (snd (route (accept requestId userId now)
                        (request_1_to_2 FriendRequest.pending))))
  /\ (forall requestId userId now,
        indexed (snd (route (reject requestId userId now)
                        (request_1_to_2 FriendRequest.pending))))
  /\ (forall senderId recipientId content messageType newId now,
        indexed (snd (route (send senderId recipientId content messageType newId now)
                        (request_1_to_2 FriendRequest.pending))))
  /\ (forall currentUserId otherUserId pageq limitq now,
        indexed (snd (route (conversation currentUserId otherUserId pageq limitq now)
                        (request_1_to_2 FriendRequest.pending))))
  /\ (forall messageId userId now,
        indexed (snd (route (markRead messageId userId now)
                        (request_1_to_2 FriendRequest.pending)))).
Proof.
  assert (indexed (request_1_to_2 FriendRequest.pending)) as Hi.
  { split; simpl; repeat constructor; simpl; tauto. }
  exact (routes_keep_indexes (request_1_to_2 FriendRequest.pending) Hi).
Defined.

(** ** Two users requesting each other at once *)

Lemma find_pending_between_none (a b : ObjectId) (l : list FriendRequest.t) :
  (forall r, In r l -> ordered_pair r <> (a, b) /\ ordered_pair r <> (b, a)) ->
  List.find (pending_between a b) l = None.
Proof.
  intros H. apply find_none_iff. intros r Hr. destruct (H r Hr) as [H1 H2].
  unfold pending_between, ordered_pair in *.
  destruct (Nat.eqb_spec (FriendRequest.sender r) a) as [E1 |];
    destruct (Nat.eqb_spec (FriendRequest.recipient r) b) as [E2 |];
    destruct (Nat.eqb_spec (FriendRequest.sender r) b) as [E3 |];
    destruct (Nat.eqb_spec (FriendRequest.recipient r) a) as [E4 |];
    cbn [andb orb]; try reflexivity;
    solve [exfalso; apply H1; congruence | exfalso; apply H2; congruence].
Qed.

Lemma insert_request_fresh (r : FriendRequest.t) (s : Store) :
  (String.length (FriendRequest.message r) <= 200)%nat ->
  (forall r', In r' (friendrequests s) ->
     FriendRequest._id r' <> FriendRequest._id r /\ ordered_pair r' <> ordered_pair r) ->
  insert_request r s = (inr tt, set_friendrequests (fun l => l ++ [r]) s).
Proof.
  intros Hlen H. unfold insert_request.
  destruct (Nat.ltb_spec 200 (String.length (FriendRequest.message r))); [lia |].
  destruct (existsb _ _) eqn:E; [| done].
  apply existsb_exists in E as (r' & Hr' & E). destruct (H r' Hr') as [H1 H2].
  apply orb_prop in E as [E | E].
  - by apply Nat.eqb_eq in E.
  - unfold same_pair in E. apply andb_prop in E as [E1 E2].
    apply Nat.eqb_eq in E1, E2. unfold ordered_pair in H2. by rewrite E1, E2 in H2.
Qed.

(** When A requests B while B requests A, and each passes its relation
    check before the other saves, both are answered 201 and two pending
    requests are stored, one in each direction: the unique index is on
    the ordered pair and lets the second through. *)
Theorem mutual_requests_race (A B idA idB : ObjectId) (now now' : Date) (s : Store)
  (a b : User.t) :
  A <> B -> idA <> idB ->
  users s !! A = Some a -> users s !! B = Some b ->
  includes (User.friends a) B = false -> includes (User.friends b) A = false ->
  (forall r, In r (friendrequests s) ->
     FriendRequest._id r <> idA /\ FriendRequest._id r <> idB
     /\ ordered_pair r <> (A, B) /\ ordered_pair r <> (B, A)) ->
  let result :=
    interleave [0; 0; 0; 1; 1; 1; 0; 0; 1; 1]%nat
      [sendRequest A (Some B) None idA now; sendRequest B (Some A) None idB now'] s in
  map (fun p => (fun r => (reply_code r, reply_message r)) <$> response p) (fst result) =
    [Some (201%nat, Some "Friend request sent successfully");
     Some (201%nat, Some "Friend request sent successfully")]
  /\ friendrequests (snd result) =
       friendrequests s ++
         [FriendRequest.mk idA A B FriendRequest.pending "" now now;
          FriendRequest.mk idB B A FriendRequest.pending "" now' now'].
Proof.
  intros Hne Hid Ha Hb Hfa Hfb Hfresh result. subst result.
  assert (List.find (pending_between A B) (friendrequests s) = None) as HAB.
  { apply find_pending_between_none. intros r Hr. destruct (Hfresh r Hr). tauto. }
  assert (List.find (pending_between B A) (friendrequests s) = None) as HBA.
  { apply find_pending_between_none. intros r Hr. destruct (Hfresh r Hr). tauto. }
  unfold sendRequest.
  destruct (Nat.eqb_spec A B) as [| _]; [done |].
  destruct (Nat.eqb_spec B A) as [| _]; [done |].
  unfold checkExistingRelation.
  unfold findById, sendRequest_save.
  repeat (cbn [interleave step_nth bind await step query id_of Relation.is_none
               Relation.type negb or_string];
          first [rewrite Ha | rewrite Hb | rewrite Hfa | rewrite Hfb
                | rewrite HAB | rewrite HBA]).
  cbn [interleave step_nth bind await step query id_of Relation.is_none
       Relation.type negb or_string].
  rewrite insert_request_fresh; cycle 1.
  { cbn. lia. }
  { intros r Hr. destruct (Hfresh r Hr) as (? & ? & ? & ?). done. }
  cbn [interleave step_nth bind await step query].
  rewrite insert_request_fresh; cycle 1.
  { cbn. lia. }
  { cbn [friendrequests set_friendrequests]. intros r Hr. apply in_app_or in Hr as [Hr | Hr].
    - destruct (Hfresh r Hr) as (? & ? & ? & ?). done.
    - destruct Hr as [<- | []]. unfold ordered_pair. cbn. split; [done |].
      intros [= E _]. done. }
  cbn [interleave step_nth bind await step query fst snd map response fmap option_fmap
       option_map reply_code reply_message friendrequests set_friendrequests].
  split; [reflexivity |]. by rewrite <- app_assoc.
Qed.

Lemma mutual_requests_race_witness :
  let result :=
    interleave [0; 0; 0; 1; 1; 1; 0; 0; 1; 1]%nat
      [sendRequest 1 (Some 2%nat) None 11 5; sendRequest 2 (Some 1%nat) None 12 6]
      (mkStore alice_and_bob [] []) in
  map (fun p => (fun r => (reply_code r, reply_message r)) <$> response p) (fst result) =
    [Some (201%nat, Some "Friend request sent successfully");
     Some (201%nat, Some "Friend request sent successfully")]
  /\ friendrequests (snd result) =
       [] ++ [FriendRequest.mk 11 1 2 FriendRequest.pending "" 5 5;
              FriendRequest.mk 12 2 1 FriendRequest.pending "" 6 6].
Proof.
  assert (1%nat <> 2%nat) as H1 by lia.
  assert (11%nat <> 12%nat) as H2 by lia.
  refine (mutual_requests_race 1 2 11 12 5 6 (mkStore alice_and_bob [] [])
            _ _ H1 H2 eq_refl eq_refl eq_refl eq_refl _).
  intros r [].
Defined.

(** ** The socket server over sequences of events *)

Lemma on_all_app (evs evs' : list (SocketId * ClientEvent * Date)) (sv : Server) :
  on_all (evs ++ evs') sv =
    (fst (on_all evs' (fst (on_all evs sv))),
     snd (on_all evs sv) ++ snd (on_all evs' (fst (on_all evs sv)))).
Proof.
  revert sv. induction evs as [| [[socket ev] now] evs IH]; intros sv.
  - cbn [app on_all fst snd]. by destruct (on_all evs' sv).
  - cbn [app on_all]. destruct (on socket ev now sv) as [sv1 out]. rewrite IH.
    destruct (on_all evs sv1) as [sv2 out2]. cbn [fst snd].
    by rewrite app_assoc.
Qed.

Lemma on_store (socket : SocketId) (ev : ClientEvent) (now : Date) (sv : Server) :
  store (fst (on socket ev now sv)) = store sv.
Proof.
  destruct ev as [userId | recipientId message senderId | recipientId isTyping |];
    cbn [on]; try done.
  - by destruct (connectedUsers sv !! recipientId).
  - by destruct (connectedUsers sv !! recipientId).
  - by destruct (socket_userId sv !! socket).
Qed.

(** No sequence of socket events changes the store: no listener of
    server.js saves a message or touches a user, whatever is sent. *)
Theorem socket_events_leave_store (evs : list (SocketId * ClientEvent * Date))
  (sv : Server) :
  store (fst (on_all evs sv)) = store sv.
Proof.
  revert sv. induction evs as [| [[socket ev] now] evs IH]; intros sv; [done |].
  cbn [on_all]. pose proof (on_store socket ev now sv) as H.
  destruct (on socket ev now sv) as [sv1 out]. specialize (IH sv1).
  destruct (on_all evs sv1) as [sv2 out2]. cbn [fst] in *. congruence.
Qed.

(** Whatever happened before, a message sent to U right after U joined
    on socket c is delivered to c and to no other socket, under the
    sender id that the sending socket gives. *)
Theorem message_goes_to_latest_join (evs : list (SocketId * ClientEvent * Date))
  (sv : Server) (U senderId : ObjectId) (c socket : SocketId) (message : string)
  (t1 t2 : Date) :
  snd (on_all (evs ++ [(c, join U, t1); (socket, send_message U message senderId, t2)]) sv) =
    snd (on_all evs sv) ++
      [Broadcast c (user_online U); To c (receive_message senderId message t2)].
Proof.
  rewrite on_all_app. cbn [snd]. f_equal.
  cbn [on_all on connectedUsers]. by rewrite lookup_insert_eq.
Qed.

(** U joins on c1 and then on c2, and c1 goes away: the disconnect of
    the superseded socket removes the entry of the live one, and a
    message then sent to U is delivered to nobody. *)
Theorem stale_disconnect_drops_messages (sv : Server) (U senderId : ObjectId)
  (c1 c2 socket : SocketId) (message : string) (t1 t2 t3 t4 : Date) :
  on_all [(c1, join U, t1); (c2, join U, t2); (c1, disconnect, t3)] sv =
    (mkServer (store sv)
       (delete U (<[U := c2]> (<[U := c1]> (connectedUsers sv))))
       (<[c2 := U]> (<[c1 := U]> (socket_userId sv))),
     [Broadcast c1 (user_online U); Broadcast c2 (user_online U);
      Broadcast c1 (user_offline U)])
  /\ snd (on_all [(c1, join U, t1); (c2, join U, t2); (c1, disconnect, t3);
                  (socket, send_message U message senderId, t4)] sv) =
       [Broadcast c1 (user_online U); Broadcast c2 (user_online U);
        Broadcast c1 (user_offline U)].
Proof.
  assert ((<[c2 := U]> (<[c1 := U]> (socket_userId sv)) : gmap nat nat) !! c1 = Some U) as H.
  { destruct (decide (c2 = c1)) as [-> |].
    - apply lookup_insert_eq.
    - rewrite lookup_insert_ne by done. apply lookup_insert_eq. }
  split.
  - cbn [on_all on connectedUsers socket_userId store]. rewrite H. reflexivity.
  - cbn [on_all on connectedUsers socket_userId store]. rewrite H.
    cbn [connectedUsers]. by rewrite lookup_delete_eq.
Qed.

(** A socket that joined as U1 joins again as U2 and goes away: only
    U2 is announced offline, the entry of U1 stays in [connectedUsers],
    and a message then sent to U1 is emitted to the socket that left. *)
Theorem rejoin_leaves_stale_entry (sv : Server) (U1 U2 senderId : ObjectId)
  (c socket : SocketId) (message : string) (t1 t2 t3 t4 : Date) :
  U1 <> U2 ->
  let trace := [(c, join U1, t1); (c, join U2, t2); (c, disconnect, t3);
                (socket, send_message U1 message senderId, t4)] in
  snd (on_all trace sv) =
    [Broadcast c (user_online U1); Broadcast c (user_online U2);
     Broadcast c (user_offline U2); To c (receive_message senderId message t4)]
  /\ connectedUsers (fst (on_all trace sv)) !! U1 = Some c
  /\ connectedUsers (fst (on_all trace sv)) !! U2 = None.
Proof.
  intros Hne trace. subst trace.
  cbn [on_all on connectedUsers socket_userId store]. rewrite lookup_insert_eq.
  cbn [connectedUsers].
  assert ((delete U2 (<[U2 := c]> (<[U1 := c]> (connectedUsers sv))) : gmap nat nat)
            !! U1 = Some c) as H.
  { rewrite lookup_delete_ne by done. rewrite lookup_insert_ne by done.
    apply lookup_insert_eq. }
  rewrite H. cbn [fst snd app connectedUsers]. split; [reflexivity |].
  split; [exact H | apply lookup_delete_eq].
Qed.

Lemma rejoin_leaves_stale_entry_witness :
  let trace := [(20%nat, join 1, 0); (20%nat, join 2, 1); (20%nat, disconnect, 2);
                (30%nat, send_message 1 "hello" 3, 3)] in
  snd (on_all trace nobody) =
    [Broadcast 20%nat (user_online 1); Broadcast 20%nat (user_online 2);
     Broadcast 20%nat (user_offline 2); To 20%nat (receive_message 3 "hello" 3)]
  /\ connectedUsers (fst (on_all trace nobody)) !! 1%nat = Some 20%nat
  /\ connectedUsers (fst (on_all trace nobody)) !! 2%nat = None.
Proof.
  assert (1%nat <> 2%nat) as H by lia.
  exact (rejoin_leaves_stale_entry nobody 1 2 3 20 30 "hello" 0 1 2 3 H).
Defined.

(** The user id of a typing notice is the one the socket joined with,
    not one the client sends with the event (unlike the sender id of a
    relayed message). *)
Theorem typing_carries_joined_identity (sv : Server) (U R : ObjectId)
  (c recipientSocketId : SocketId) (isTyping : bool) (t1 t2 : Date) :
  R <> U ->
  connectedUsers sv !! R = Some recipientSocketId ->
  snd (on_all [(c, join U, t1); (c, typing R isTyping, t2)] sv) =
    [Broadcast c (user_online U);
     To recipientSocketId (user_typing (Some U) isTyping)].
Proof.
  intros Hne HR. cbn [on_all on connectedUsers socket_userId].
  rewrite lookup_insert_ne by done. rewrite HR. cbn [snd app].
  by rewrite lookup_insert_eq.
Qed.

Lemma typing_carries_joined_identity_witness :
  snd (on_all [(10%nat, join 1, 0); (10%nat, typing 2 true, 1)] strangers) =
    [Broadcast 10%nat (user_online 1); To 20%nat (user_typing (Some 1%nat) true)].
Proof.
  assert (2%nat <> 1%nat) as H by lia.
  exact (typing_carries_joined_identity strangers 1 2 10 20 true 0 1 H eq_refl).
Defined.

Lemma on_delivered (js : list SocketId) (socket : SocketId) (ev : ClientEvent)
  (now : Date) (sv : Server) :
  (forall U c, connectedUsers sv !! U = Some c -> In c js) ->
  (forall e c, In e (snd (on socket ev now sv)) -> delivered_to e = Some c -> In c js)
  /\ (forall U c, connectedUsers (fst (on socket ev now sv)) !! U = Some c ->
        In c (js ++ joined [(socket, ev, now)])).
Proof.
  intros Hjs.
  destruct ev as [userId | recipientId message senderId | recipientId isTyping |];
    cbn [on joined flat_map app].
  - split.
    + intros e c [<- | []]. discriminate.
    + cbn [fst connectedUsers]. intros U c. rewrite lookup_insert. case_decide.
      * intros [= <-]. apply in_or_app. right. by left.
      * intros H'. apply in_or_app. left. by apply (Hjs U).
  - rewrite app_nil_r. destruct (connectedUsers sv !! recipientId) as [rs |] eqn:E;
      cbn [fst snd]; split; try done.
    intros e c [<- | []] [= <-]. by apply (Hjs recipientId).
  - rewrite app_nil_r. destruct (connectedUsers sv !! recipientId) as [rs |] eqn:E;
      cbn [fst snd]; split; try done.
    intros e c [<- | []] [= <-]. by apply (Hjs recipientId).
  - rewrite app_nil_r. destruct (socket_userId sv !! socket) as [userId |];
      cbn [fst snd connectedUsers]; split; try done.
    + intros e c [<- | []]. discriminate.
    + intros U c. rewrite lookup_delete. case_decide; [done |]. apply Hjs.
Qed.

Lemma on_all_delivered (evs : list (SocketId * ClientEvent * Date)) (js : list SocketId)
  (sv : Server) (e : Emission) (c : SocketId) :
  (forall U c, connectedUsers sv !! U = Some c -> In c js) ->
  In e (snd (on_all evs sv)) -> delivered_to e = Some c -> In c (js ++ joined evs).
Proof.
  revert js sv. induction evs as [| [[socket ev] now] evs IH]; intros js sv Hjs; [done |].
  cbn [on_all]. destruct (on_delivered js socket ev now sv Hjs) as [Hout Hmap].
  destruct (on socket ev now sv) as [sv1 out]. cbn [fst snd] in Hout, Hmap.
  specialize (IH _ sv1 Hmap). destruct (on_all evs sv1) as [sv2 out2]. cbn [snd] in *.
  replace (joined ((socket, ev, now) :: evs))
    with (joined [(socket, ev, now)] ++ joined evs)
    by (unfold joined; cbn [flat_map]; by rewrite app_nil_r).
  intros Hin Hc. apply in_app_or in Hin as [Hin | Hin].
  - rewrite app_assoc. apply in_or_app. left. apply in_or_app. left. by apply (Hout e).
  - rewrite app_assoc. by apply IH.
Qed.

(** From a start with nobody connected, a relayed message or typing
    notice is only ever addressed to a socket that has sent a join:
    nothing reaches a connection that never joined. *)
Theorem relays_reach_joined_sockets (evs : list (SocketId * ClientEvent * Date))
  (sv : Server) (e : Emission) (c : SocketId) :
  connectedUsers sv = ∅ ->
  In e (snd (on_all evs sv)) -> delivered_to e = Some c -> In c (joined evs).
Proof.
  intros Hempty Hin Hc. change (In c ([] ++ joined evs)).
  apply (on_all_delivered evs [] sv e c); try done.
  intros U c'. by rewrite Hempty, lookup_empty.
Qed.

Lemma relays_reach_joined_sockets_witness :
  In 20%nat (joined [(20%nat, join 1, 0); (30%nat, send_message 1 "hello" 3, 1)]).
Proof.
  apply (relays_reach_joined_sockets
           [(20%nat, join 1, 0); (30%nat, send_message 1 "hello" 3, 1)] nobody
           (To 20%nat (receive_message 3 "hello" 1)) 20%nat eq_refl).
  - vm_compute. right. left. reflexivity.
  - reflexivity.
Defined.
